(** * cat-facts-analyzer: a shallow embedding of [catfacts_analyzer.py]

    The script loads a list of cat facts from a JSON file, prints a short
    report with descriptive statistics of the fact lengths and saves a
    histogram of the lengths as an image.

    The embedding follows the script function by function:
    [load_facts], [compute_statistics], [plot_length_histogram], [main].
    Python values that the script computes with are modelled exactly:
    integers are unbounded ([Z]), and floats are binary64 numbers, every
    operation rounded to nearest, ties to even: the float that
    [statistics.mean] returns, and the bin edges that [numpy] computes
    for [plt.hist].  The console, the file system and the pyplot figure
    registry are threaded through an explicit state-and-exception
    monad. *)

From Stdlib Require Import ZArith QArith Qabs Qpower Lia Lqa Ascii String.
From Stdlib Require Import DecimalString DecimalPos DecimalZ.
From stdpp Require Import gmap strings list fin_maps.

Local Open Scope Z_scope.

(* ===================================================================== *)
(** * Exceptions *)
(* ===================================================================== *)

Inductive exn :=
  | ValueError            (* min() / max() of an empty sequence; bins that
                             cannot be made; an image format not known *)
  | StatisticsError       (* mean() of an empty sequence *)
  | OverflowError         (* int too large for a float *)
  | FileNotFoundError
  | FileExistsError
  | IsADirectoryError
  | NotADirectoryError
  | UnicodeDecodeError
  | JSONDecodeError
  | AttributeError        (* .get on a JSON value that is not an object *)
  | TypeError             (* subscript on an object that has none *)
  | KeyError
  | MalformedFacts        (* see [expect_facts] *)
  | BeyondInt64.          (* see [Numpy.asarray] *)

Inductive outcome (A : Type) :=
  | Ok (a : A)
  | Raise (e : exn).
Arguments Ok {A} a.
Arguments Raise {A} e.

#[global] Instance outcome_ret : MRet outcome := @Ok.
#[global] Instance outcome_bind : MBind outcome := λ A B f m,
  match m with
  | Ok a => f a
  | Raise e => Raise e
  end.

(** The exit status of the interpreter: 0 when [main] returns, 1 when an
    exception escapes. *)
Definition exit_code {A} (r : outcome A) : Z :=
  match r with
  | Ok _ => 0
  | Raise _ => 1
  end.

(* ===================================================================== *)
(** * Python numbers *)
(* ===================================================================== *)

Module Py.

(** A finite binary64 value, kept as the dyadic rational
    [fmant * 2 ^ fexp]. *)
Record float := Float { fmant : Z; fexp : Z }.

(** What a Python arithmetic expression of the script evaluates to: an
    [int] or a [float]. *)
Inductive number :=
  | PyInt (z : Z)
  | PyFloat (f : float).

Definition float_to_Q (f : float) : Q :=
  if 0 <=? fexp f
  then inject_Z (fmant f * 2 ^ fexp f)
  else Qmake (fmant f) (Z.to_pos (2 ^ (- fexp f))).

Definition number_to_Q (x : number) : Q :=
  match x with
  | PyInt z => inject_Z z
  | PyFloat f => float_to_Q f
  end.

(** [x / y] rounded to the nearest integer, ties to the even one
    ([y] positive). *)
Definition rne_div (x y : Z) : Z :=
  let q := x / y in
  let r := x mod y in
  match 2 * r ?= y with
  | Lt => q
  | Gt => q + 1
  | Eq => if Z.even q then q else q + 1
  end.

(** [floor (log2 (a / d))] for positive [a] and [d]. *)
Definition ilog2_fraction (a d : Z) : Z :=
  if d <=? a then Z.log2 (a / d) else - Z.log2_up ((d + a - 1) / a).

(** binary64: 53 significant bits, least exponent of the last place
    [-1074], values below [2 ^ 1024]. *)
Definition prec : Z := 53.
Definition emin : Z := -1074.
Definition emax : Z := 1024.

(** A mantissa that rounding carried to [2 ^ 53] moves to the next
    exponent. *)
Definition normalize (m e : Z) : float :=
  if Z.abs m =? 2 ^ prec then Float (m / 2) (e + 1) else Float m e.

(** Python's [int / int] and [float(Fraction(n, d))]: the quotient
    [n / d] ([d] positive) correctly rounded to binary64, round half to
    even; [None] stands for [OverflowError].  The sign of a zero result
    (a quotient below [2 ^ -1075] in magnitude) is not represented. *)
Definition float_of_fraction (n d : Z) : option float :=
  if n =? 0 then Some (Float 0 0) else
  let e := Z.max (ilog2_fraction (Z.abs n) d - (prec - 1)) emin in
  let m := if 0 <=? e then rne_div n (d * 2 ^ e) else rne_div (n * 2 ^ (- e)) d in
  if (emax - prec <? e) || ((e =? emax - prec) && (Z.abs m =? 2 ^ prec))
  then None
  else Some (normalize m e).

(** [float(z)] for an [int]. *)
Definition float_of_int (z : Z) : option float := float_of_fraction z 1.

(** A rational correctly rounded to binary64; [None] when the result is
    beyond the largest float. *)
Definition round (q : Q) : option float :=
  let r := Qred q in float_of_fraction (Qnum r) (Z.pos (Qden r)).

(** Float arithmetic: the exact result, rounded. *)
Definition fadd (x y : float) : option float := round (float_to_Q x + float_to_Q y).
Definition fsub (x y : float) : option float := round (float_to_Q x - float_to_Q y).
Definition fmul (x y : float) : option float := round (float_to_Q x * float_to_Q y).
Definition fdiv (x y : float) : option float := round (float_to_Q x / float_to_Q y).

(** [x <= y] and [x < y] on floats. *)
Definition fle (x y : float) : bool := Qle_bool (float_to_Q x) (float_to_Q y).
Definition flt (x y : float) : bool := negb (fle y x).

(** [str(z)] for an [int]: decimal digits with a leading minus sign. *)
Definition str_int (z : Z) : string := NilZero.string_of_int (Z.to_int z).

(** Two decimal digits, zero padded. *)
Definition two_digits (z : Z) : string :=
  (if z <? 10 then "0" else "") +:+ str_int z.

(** [format(f, ".2f")] for a float: the exact binary value rounded to
    two decimal places, round half to even; a negative value keeps its
    sign even when it rounds to zero. *)
Definition format_float_2f (f : float) : string :=
  let cents :=
    if 0 <=? fexp f then 100 * Z.abs (fmant f) * 2 ^ fexp f
    else rne_div (100 * Z.abs (fmant f)) (2 ^ (- fexp f)) in
  (if fmant f <? 0 then "-" else "")
    +:+ str_int (cents / 100) +:+ "." +:+ two_digits (cents mod 100).

(** [format(x, ".2f")]: an [int] is converted to a float first. *)
Definition format_2f (x : number) : outcome string :=
  match x with
  | PyFloat f => Ok (format_float_2f f)
  | PyInt z =>
      match float_of_int z with
      | Some f => Ok (format_float_2f f)
      | None => Raise OverflowError
      end
  end.

(** [len(l)]. *)
Definition len {A} (l : list A) : Z := Z.of_nat (length l).

(** [min(l)] and [max(l)] on a list of ints. *)
Definition min (l : list Z) : outcome Z :=
  match l with
  | [] => Raise ValueError
  | x :: xs => Ok (fold_left Z.min xs x)
  end.

Definition max (l : list Z) : outcome Z :=
  match l with
  | [] => Raise ValueError
  | x :: xs => Ok (fold_left Z.max xs x)
  end.

Definition sum (l : list Z) : Z := fold_left Z.add l 0.

(** [statistics.mean(data)] on a list of ints: the exact quotient
    [total / n] is returned as an [int] when it is integral and as the
    nearest float otherwise. *)
Definition mean (data : list Z) : outcome number :=
  let total := sum data in
  let n := len data in
  if n <? 1 then Raise StatisticsError
  else if total mod n =? 0 then Ok (PyInt (total / n))
  else match float_of_fraction total n with
       | Some f => Ok (PyFloat f)
       | None => Raise OverflowError
       end.

End Py.

(* ===================================================================== *)
(** * JSON values, facts and statistics *)
(* ===================================================================== *)

(** What [json.load] returns. *)
#[warnings="-register-all"]
Inductive json :=
  | JNull
  | JBool (b : bool)
  | JInt (z : Z)
  | JFloat (f : Py.float)
  | JStr (s : string)
  | JArr (l : list json)
  | JObj (o : gmap string json).

(** Python truth value, as tested by [if not facts]. *)
Definition truthy (j : json) : bool :=
  match j with
  | JNull => false
  | JBool b => b
  | JInt z => negb (z =? 0)
  | JFloat f => negb (Py.fmant f =? 0)
  | JStr s => negb (String.eqb s "")
  | JArr l => match l with [] => false | _ => true end
  | JObj o => negb (bool_decide (o = ∅))
  end.

(** A fact: the dictionary [{"fact": text, "length": n}]. *)
Record Fact := { fact_text : string; fact_length : Z }.

(** The dictionary returned by [compute_statistics]. *)
Record Statistics := {
  count : Z;
  min_length : Z;
  max_length : Z;
  avg_length : Py.number
}.

Definition fact_to_json (f : Fact) : json :=
  JObj (<["fact" := JStr (fact_text f)]> (<["length" := JInt (fact_length f)]> ∅)).

Definition facts_to_json (fs : list Fact) : json := JArr (fact_to_json <$> fs).

Definition json_to_fact (j : json) : option Fact :=
  match j with
  | JObj o =>
      match o !! "fact", o !! "length" with
      | Some (JStr s), Some (JInt z) => Some {| fact_text := s; fact_length := z |}
      | _, _ => None
      end
  | _ => None
  end.

Definition json_to_facts (j : json) : option (list Fact) :=
  match j with
  | JArr l => mapM json_to_fact l
  | _ => None
  end.

(* ===================================================================== *)
(** * The world: console, file system, pyplot figures *)
(* ===================================================================== *)

(** One histogram drawn on a figure: the bin edges, which are floats,
    and the count per bin. *)
Record histogram := { h_edges : list Py.float; h_counts : list nat }.

Record figure := {
  fig_hists : list histogram;
  fig_title : string;
  fig_xlabel : string;
  fig_ylabel : string;
  fig_tight : bool
}.

Definition empty_figure : figure :=
  {| fig_hists := []; fig_title := ""; fig_xlabel := ""; fig_ylabel := "";
     fig_tight := false |}.

(** A node of the file system: a directory, a text file together with
    what [json.load] makes of it ([None]: not valid JSON), or an image
    written by [savefig]. *)
Inductive node :=
  | Dir
  | Doc (parsed : option json)
  | Image (fig : figure).

(** [stdout] holds the argument of every [print] call, oldest first;
    [figures] is pyplot's registry of open figures, current one first. *)
Record world := {
  stdout : list string;
  fs : gmap string node;
  figures : list figure
}.

(** Computations that read and write a state [S] and may raise. *)
Definition St (S A : Type) : Type := S → outcome A * S.

#[global] Instance St_ret {S} : MRet (St S) := λ A a s, (Ok a, s).
#[global] Instance St_bind {S} : MBind (St S) := λ A B f m s,
  match m s with
  | (Ok a, s') => f a s'
  | (Raise e, s') => (Raise e, s')
  end.

Definition raise {S A} (e : exn) : St S A := λ s, (Raise e, s).

(** Run a computation that touches no state. *)
Definition lift {S A} (r : outcome A) : St S A := λ s, (r, s).

Abbreviation M := (St world).

Definition print (s : string) : M unit := λ w,
  (Ok (), {| stdout := stdout w ++ [s]; fs := fs w; figures := figures w |}).

Fixpoint for_each {A} (l : list A) (body : A → M unit) : M unit :=
  match l with
  | [] => mret ()
  | x :: xs => body x;; for_each xs body
  end.

(** [enumerate(l, start)]. *)
Fixpoint enumerate {A} (l : list A) (start : Z) : list (Z * A) :=
  match l with
  | [] => []
  | x :: xs => (start, x) :: enumerate xs (start + 1)
  end.

(** The line feed inside a printed text. *)
Definition nl : string := String (Ascii.ascii_of_nat 10) "".

(* ===================================================================== *)
(** * The libraries the script calls *)
(* ===================================================================== *)

(** ** [os.path] and [os] (POSIX) *)
Module Os.

Definition is_slash (c : Ascii.ascii) : bool := Ascii.eqb c "/"%char.

(** [p[: p.rfind("/") + 1]]: the part of [p] up to its last slash. *)
Fixpoint upto_last_slash (p : string) : string :=
  match p with
  | EmptyString => EmptyString
  | String c rest =>
      match upto_last_slash rest with
      | EmptyString => if is_slash c then String c EmptyString else EmptyString
      | h => String c h
      end
  end.

(** [s.rstrip("/")]. *)
Fixpoint rstrip_slash (s : string) : string :=
  match s with
  | EmptyString => EmptyString
  | String c rest =>
      match rstrip_slash rest with
      | EmptyString => if is_slash c then EmptyString else String c EmptyString
      | r => String c r
      end
  end.

Fixpoint all_slashes (s : string) : bool :=
  match s with
  | EmptyString => true
  | String c rest => is_slash c && all_slashes rest
  end.

(** [os.path.dirname]. *)
Definition dirname (p : string) : string :=
  let head := upto_last_slash p in
  if all_slashes head then head else rstrip_slash head.

Definition starts_with_slash (s : string) : bool :=
  match s with
  | String c _ => is_slash c
  | EmptyString => false
  end.

Fixpoint ends_with_slash (s : string) : bool :=
  match s with
  | EmptyString => false
  | String c EmptyString => is_slash c
  | String _ rest => ends_with_slash rest
  end.

(** [os.path.join a b]. *)
Definition join (a b : string) : string :=
  if starts_with_slash b then b
  else if String.eqb a "" || ends_with_slash a then a +:+ b
  else a +:+ "/" +:+ b.

Definition is_dot (c : Ascii.ascii) : bool := Ascii.eqb c "."%char.

Fixpoint has_slash (s : string) : bool :=
  match s with
  | EmptyString => false
  | String c rest => is_slash c || has_slash rest
  end.

(** [p[p.rfind("/") + 1 :]]: the last component of [p]. *)
Fixpoint after_last_slash (p : string) : string :=
  match p with
  | EmptyString => EmptyString
  | String c rest => if is_slash c || has_slash rest then after_last_slash rest else p
  end.

Fixpoint lstrip_dots (s : string) : string :=
  match s with
  | EmptyString => EmptyString
  | String c rest => if is_dot c then lstrip_dots rest else s
  end.

(** [s.rstrip(".")]. *)
Fixpoint rstrip_dots (s : string) : string :=
  match s with
  | EmptyString => EmptyString
  | String c rest =>
      match rstrip_dots rest with
      | EmptyString => if is_dot c then EmptyString else String c EmptyString
      | r => String c r
      end
  end.

(** [s[s.rfind(".") :]], empty when [s] has no dot. *)
Fixpoint from_last_dot (s : string) : string :=
  match s with
  | EmptyString => EmptyString
  | String c rest =>
      match from_last_dot rest with
      | EmptyString => if is_dot c then s else EmptyString
      | ext => ext
      end
  end.

(** [os.path.splitext(p)[1]]: the extension of the last component of
    [p], from its last dot on; the dots that the component begins with
    do not count. *)
Definition extension (p : string) : string :=
  from_last_dot (lstrip_dots (after_last_slash p)).

(** [os.makedirs(d, exist_ok=True)].  The file system is a flat map from
    paths to nodes: the directory itself is recorded, while the
    directories above it, which the call creates when they are missing,
    are not.  This is exact for a directory whose parent exists, as the
    output directory of [main] next to the script.  Permissions are not
    modelled. *)
Definition makedirs (d : string) : M unit := λ w,
  if String.eqb d "" then (Raise FileNotFoundError, w)
  else match fs w !! d with
       | Some Dir => (Ok (), w)
       | Some _ => (Raise FileExistsError, w)
       | None =>
           (Ok (), {| stdout := stdout w; fs := <[d := Dir]> (fs w);
                      figures := figures w |})
       end.

End Os.

(** ** [numpy.histogram] on integer data *)
Module Numpy.

(** numpy holds a list of ints as an array of 64-bit integers.  Ints
    that do not fit are beyond this model, which stops there. *)
Definition int64 (z : Z) : bool := (- 2 ^ 63 <=? z) && (z <? 2 ^ 63).

Definition asarray (data : list Z) : outcome (list Z) :=
  if forallb int64 data then Ok data else Raise BeyondInt64.

Definition list_min (x : Z) (l : list Z) : Z := fold_left Z.min l x.
Definition list_max (x : Z) (l : list Z) : Z := fold_left Z.max l x.

Definition half : Py.float := Py.Float (2 ^ 52) (-53).

(** [_get_outer_edges]: the range of the bins is the range of the data,
    [(0, 1)] for no data; a range of zero width is widened by [0.5] on
    either side.  The ends are floats from here on. *)
Definition outer_edges (data : list Z) : option (Py.float * Py.float) :=
  match data with
  | [] =>
      first ← Py.float_of_int 0;
      last ← Py.float_of_int 1;
      Some (first, last)
  | x :: xs =>
      let lo := list_min x xs in
      let hi := list_max x xs in
      first ← Py.float_of_int lo;
      last ← Py.float_of_int hi;
      if lo =? hi
      then first ← Py.fsub first half;
           last ← Py.fadd last half;
           Some (first, last)
      else Some (first, last)
  end.

(** Point [i] of [linspace]: [i * step + start], each operation
    rounded; when [step] is zero the quotient [i / div] is multiplied by
    [delta] instead. *)
Definition point (start delta step : Py.float) (div i : nat) : option Py.float :=
  y ← (if Py.fmant step =? 0
       then t ← Py.round (inject_Z (Z.of_nat i) / inject_Z (Z.of_nat div));
            Py.fmul t delta
       else Py.round (inject_Z (Z.of_nat i) * Py.float_to_Q step));
  Py.fadd y start.

(** [linspace(start, stop, div + 1)]: [delta = stop - start],
    [step = delta / div], the points [0 .. div - 1], and [stop] itself
    as the last point. *)
Definition linspace (start stop : Py.float) (div : nat) : option (list Py.float) :=
  delta ← Py.fsub stop start;
  step ← Py.round (Py.float_to_Q delta / inject_Z (Z.of_nat div));
  inner ← mapM (point start delta step div) (seq 0 div);
  Some (inner ++ [stop]).

(** [bins + 1] edges from the first to the last. *)
Definition bin_edges (data : list Z) (bins : nat) : option (list Py.float) :=
  ends ← outer_edges data;
  linspace ends.1 ends.2 bins.

(** Every edge is below the next one. *)
Fixpoint increasing (edges : list Py.float) : bool :=
  match edges with
  | [] => true
  | a :: rest =>
      match rest with
      | [] => true
      | b :: _ => Py.flt a b && increasing rest
      end
  end.

(** Bin [i] is [edges[i] <= x < edges[i + 1]]; the last bin also holds
    its right edge.  The value is compared as a float. *)
Definition in_bin (edges : list Py.float) (bins i : nat) (x : Z) : bool :=
  match edges !! i, edges !! S i, Py.float_of_int x with
  | Some lo, Some hi, Some v =>
      Py.fle lo v && (if (S i =? bins)%nat then Py.fle v hi else Py.flt v hi)
  | _, _, _ => false
  end.

(** [histogram(a, bins)] for an array of 64-bit integers and a number
    of bins: [ValueError] when [bins] is zero, and when rounding leaves
    an edge that is not below the next one (numpy 2: "Too many bins for
    data range"). *)
Definition histogram (data : list Z) (bins : nat) : outcome histogram :=
  if (bins =? 0)%nat then Raise ValueError
  else
    match bin_edges data bins with
    | Some edges =>
        if increasing edges
        then Ok {| h_edges := edges;
                   h_counts :=
                     (λ i, length (filter (λ x, in_bin edges bins i x = true) data))
                       <$> seq 0 bins |}
        else Raise ValueError
    | None => Raise OverflowError (* not reached on 64-bit integers *)
    end.

End Numpy.

(** ** [matplotlib.pyplot] *)
Module Plt.

Definition set_figures (figs : list figure) (w : world) : world :=
  {| stdout := stdout w; fs := fs w; figures := figs |}.

(** Apply a drawing command to the current figure; pyplot opens a
    figure when there is none. *)
Definition on_current (draw : figure → figure) : M unit := λ w,
  match figures w with
  | [] => (Ok (), set_figures [draw empty_figure] w)
  | cur :: rest => (Ok (), set_figures (draw cur :: rest) w)
  end.

(** [plt.figure()]: a new figure, which becomes the current one. *)
Definition figure : M unit := λ w,
  (Ok (), set_figures (empty_figure :: figures w) w).

(** [plt.hist(data, bins=bins)]: the histogram of the data is drawn on
    the current figure.  When numpy raises, the current figure is there
    already, without the histogram. *)
Definition hist (data : list Z) (bins : nat) : M unit :=
  on_current (λ f, f);;
  a ← lift (Numpy.asarray data);
  h ← lift (Numpy.histogram a bins);
  on_current (λ f,
    {| fig_hists := fig_hists f ++ [h];
       fig_title := fig_title f; fig_xlabel := fig_xlabel f;
       fig_ylabel := fig_ylabel f; fig_tight := fig_tight f |}).

Definition title (s : string) : M unit :=
  on_current (λ f,
    {| fig_hists := fig_hists f; fig_title := s; fig_xlabel := fig_xlabel f;
       fig_ylabel := fig_ylabel f; fig_tight := fig_tight f |}).

Definition xlabel (s : string) : M unit :=
  on_current (λ f,
    {| fig_hists := fig_hists f; fig_title := fig_title f; fig_xlabel := s;
       fig_ylabel := fig_ylabel f; fig_tight := fig_tight f |}).

Definition ylabel (s : string) : M unit :=
  on_current (λ f,
    {| fig_hists := fig_hists f; fig_title := fig_title f;
       fig_xlabel := fig_xlabel f; fig_ylabel := s; fig_tight := fig_tight f |}).

Definition tight_layout : M unit :=
  on_current (λ f,
    {| fig_hists := fig_hists f; fig_title := fig_title f;
       fig_xlabel := fig_xlabel f; fig_ylabel := fig_ylabel f;
       fig_tight := true |}).

Definition is_dir (n : option node) : bool :=
  match n with
  | Some Dir => true
  | _ => false
  end.

(** [s.lower()] on ASCII. *)
Definition lower (c : Ascii.ascii) : Ascii.ascii :=
  let n := Ascii.nat_of_ascii c in
  if (65 <=? n)%nat && (n <=? 90)%nat then Ascii.ascii_of_nat (n + 32) else c.

Fixpoint lowercase (s : string) : string :=
  match s with
  | EmptyString => EmptyString
  | String c rest => String (lower c) (lowercase rest)
  end.

(** The image formats of the default backend. *)
Definition formats : list string :=
  [ "eps"; "jpeg"; "jpg"; "pdf"; "pgf"; "png"; "ps"; "raw"; "rgba"; "svg";
    "svgz"; "tif"; "tiff"; "webp" ].

(** The file that [savefig(path)] writes.  The extension of [path]
    names the format; a path without one gets [".png"] appended, and an
    extension that names no format leaves no file to write ([None]). *)
Definition target (path : string) : option string :=
  match Os.extension path with
  | EmptyString => Some (Os.rstrip_dots path +:+ ".png")
  | String _ EmptyString => Some (Os.rstrip_dots path +:+ ".png")
  | String _ fmt =>
      if bool_decide (lowercase fmt ∈ formats) then Some path else None
  end.

(** [plt.savefig(path)]: write the current figure, replacing a file
    that is already there.  The directory of the file must exist (the
    empty directory name is the working directory). *)
Definition savefig (path : string) : M unit := λ w,
  let cur := match figures w with [] => empty_figure | cur :: _ => cur end in
  let figs := match figures w with [] => [empty_figure] | figs => figs end in
  let written file :=
    (Ok (), {| stdout := stdout w; fs := <[file := Image cur]> (fs w);
               figures := figs |}) in
  match target path with
  | None => (Raise ValueError, set_figures figs w)
  | Some file =>
      if is_dir (fs w !! file) then (Raise IsADirectoryError, set_figures figs w)
      else if String.eqb (Os.dirname file) "" then written file
      else
        match fs w !! Os.dirname file with
        | Some Dir => written file
        | Some _ => (Raise NotADirectoryError, set_figures figs w)
        | None => (Raise FileNotFoundError, set_figures figs w)
        end
  end.

(** [plt.close()]: close the current figure, if any. *)
Definition close : M unit := λ w,
  (Ok (), set_figures (tail (figures w)) w).

End Plt.

(* ===================================================================== *)
(** * The script *)
(* ===================================================================== *)

(** [load_facts(json_path)]: open the file, parse it, and return what
    is stored under ["facts"], or the empty list. *)
Definition load_facts (json_path : string) : M json := λ w,
  match fs w !! json_path with
  | None => (Raise FileNotFoundError, w)
  | Some Dir => (Raise IsADirectoryError, w)
  | Some (Image _) => (Raise UnicodeDecodeError, w)
  | Some (Doc None) => (Raise JSONDecodeError, w)
  | Some (Doc (Some data)) =>
      match data with
      | JObj d => (Ok (default (JArr []) (d !! "facts")), w)
      | _ => (Raise AttributeError, w)
      end
  end.

(** [compute_statistics(facts)]. *)
Definition compute_statistics (facts : list Fact) : outcome Statistics :=
  let lengths := fact_length <$> facts in
  let n := Py.len lengths in
  lo ← Py.min lengths;
  hi ← Py.max lengths;
  avg ← Py.mean lengths;
  mret {| count := n; min_length := lo; max_length := hi; avg_length := avg |}.

(** [plot_length_histogram(facts, output_path)]. *)
Definition plot_length_histogram (facts : list Fact) (output_path : string)
  : M unit :=
  let lengths := fact_length <$> facts in
  Plt.figure;;
  Plt.hist lengths 10;;
  Plt.title "Distribution of Cat Fact Lengths";;
  Plt.xlabel "Fact Length (characters)";;
  Plt.ylabel "Frequency";;
  Plt.tight_layout;;
  Os.makedirs (Os.dirname output_path);;
  Plt.savefig output_path;;
  Plt.close.

(** The script works on a list of dictionaries with a string under
    ["fact"] and an integer under ["length"].  A loaded value of any
    other shape makes the interpreter raise, after the header, at the
    first access that does not fit ([TypeError] or [KeyError]); the
    model stops such a run after the header and says nothing about the
    fact lines printed before the access that fails. *)
Definition expect_facts (j : json) : M (list Fact) :=
  match json_to_facts j with
  | Some fs => mret fs
  | None => raise MalformedFacts
  end.

(** The line printed for one fact of the preview. *)
Definition fact_line (idx : Z) (f : Fact) : string :=
  Py.str_int idx +:+ ". " +:+ fact_text f
    +:+ " (Length: " +:+ Py.str_int (fact_length f) +:+ ")".

(** The preview loop of [main]:
    [for idx, fact in enumerate(facts[:5], start=1): print(...)]. *)
Definition print_preview (facts : list Fact) : M unit :=
  for_each (enumerate (take 5 facts) 1) (λ '(idx, f), print (fact_line idx f)).

Definition no_facts_message : string :=
  "No facts were loaded. Please check the data file.".

(** The three paths of [main], relative to the directory of the script;
    [script] is [os.path.abspath(__file__)]. *)
Definition current_dir (script : string) : string := Os.dirname script.

Definition data_path (script : string) : string :=
  Os.join (Os.join (current_dir script) "data") "cat_facts.json".

Definition output_dir (script : string) : string :=
  Os.join (current_dir script) "output".

Definition image_path (script : string) : string :=
  Os.join (output_dir script) "cat_fact_length_hist.png".

(** The first text that [main] prints on a non-empty list. *)
Definition header : string := "Cat Facts:" +:+ nl +:+ "-----------".

(** [main()]. *)
Definition main (script : string) : M unit :=
  loaded ← load_facts (data_path script);
  if negb (truthy loaded) then print no_facts_message
  else
    print header;;
    facts ← expect_facts loaded;
    print_preview facts;;
    stats ← lift (compute_statistics facts);
    print (nl +:+ "Statistics:");;
    print ("Total facts: " +:+ Py.str_int (count stats));;
    print ("Shortest fact length: " +:+ Py.str_int (min_length stats));;
    print ("Longest fact length: " +:+ Py.str_int (max_length stats));;
    avg ← lift (Py.format_2f (avg_length stats));
    print ("Average fact length: " +:+ avg);;
    plot_length_histogram facts (image_path script);;
    print (nl +:+ "Histogram saved to " +:+ image_path script).

(* ===================================================================== *)
(** * [compute_statistics] on the interpreter's heap *)
(* ===================================================================== *)

(** Python passes [facts] by reference: the list and the dictionaries in
    it are objects shared with the caller.  This second model of
    [compute_statistics] runs on a store of objects, so that what the
    function does to its argument can be stated. *)
Module Heap.

Definition loc := positive.

Inductive obj :=
  | OList (items : list loc)     (* a list of references *)
  | OFact (f : Fact)             (* the dictionary of one fact *)
  | OInts (l : list Z)           (* a list of ints *)
  | OStats (s : Statistics).     (* the dictionary of the statistics *)

Abbreviation heap := (gmap loc obj).
Abbreviation H := (St heap).

(** A new object at an address not in use. *)
Definition alloc (o : obj) : H loc := λ h,
  let l := fresh (dom h) in (Ok l, <[l := o]> h).

(** [x["length"]] for the object referred to by [x]. *)
Definition get_length (x : loc) : H Z := λ h,
  match h !! x with
  | Some (OFact f) => (Ok (fact_length f), h)
  | Some (OStats _) => (Raise KeyError, h)
  | _ => (Raise TypeError, h)
  end.

(** The references that [for fact in facts] goes through.  Iterating a
    dictionary or a non-empty list of ints yields keys or ints, on which
    the subscript of the loop body raises [TypeError]. *)
Definition iterate (facts : loc) : H (list loc) := λ h,
  match h !! facts with
  | Some (OList items) => (Ok items, h)
  | Some (OInts []) => (Ok [], h)
  | _ => (Raise TypeError, h)
  end.

Fixpoint collect_lengths (items : list loc) : H (list Z) :=
  match items with
  | [] => mret []
  | x :: rest =>
      n ← get_length x;
      ns ← collect_lengths rest;
      mret (n :: ns)
  end.

Definition compute_statistics (facts : loc) : H loc :=
  items ← iterate facts;
  ns ← collect_lengths items;
  lengths ← alloc (OInts ns);
  let n := Py.len ns in
  lo ← lift (Py.min ns);
  hi ← lift (Py.max ns);
  avg ← lift (Py.mean ns);
  alloc (OStats {| count := n; min_length := lo; max_length := hi;
                   avg_length := avg |}).

(** [facts] refers to a list of fact dictionaries with the contents
    [fs]. *)
Definition holds_facts (h : heap) (facts : loc) (fs : list Fact) : Prop :=
  ∃ items, h !! facts = Some (OList items)
           ∧ Forall2 (λ x f, h !! x = Some (OFact f)) items fs.

(** The dictionary that a run returns to its caller, read back from
    the heap. *)
Definition returned (run : outcome loc * heap) : outcome Statistics :=
  match run with
  | (Ok r, h) =>
      match h !! r with
      | Some (OStats st) => Ok st
      | _ => Raise TypeError
      end
  | (Raise e, _) => Raise e
  end.

End Heap.

(* ===================================================================== *)
(** * What the script is measured against *)
(* ===================================================================== *)

(** ** Statistics *)

(** [m] is the least (greatest) element of [l]. *)
Definition is_minimum (m : Z) (l : list Z) : Prop :=
  m ∈ l ∧ ∀ x, x ∈ l → m ≤ x.

Definition is_maximum (m : Z) (l : list Z) : Prop :=
  m ∈ l ∧ ∀ x, x ∈ l → x ≤ m.

(** The arithmetic mean of [l] as an exact rational. *)
Definition arithmetic_mean (l : list Z) : Q :=
  (inject_Z (foldr Z.add 0%Z l) / inject_Z (Z.of_nat (length l)))%Q.

(** ** Floats *)

(** The finite values of binary64: [m * 2 ^ e] with a mantissa of at
    most 53 bits and an exponent from [-1074] to [971]. *)
Definition representable (f : Py.float) : Prop :=
  Py.emin ≤ Py.fexp f ≤ Py.emax - Py.prec ∧ Z.abs (Py.fmant f) < 2 ^ Py.prec.

(** The normal form of a value: the mantissa has all its 53 bits, or
    the exponent is the least one, or the value is zero. *)
Definition canonical (f : Py.float) : Prop :=
  representable f
  ∧ (Py.fmant f = 0 ∨ Py.fexp f = Py.emin
     ∨ 2 ^ (Py.prec - 1) ≤ Z.abs (Py.fmant f)).

(** [f] is the rational [q] rounded to nearest, ties to even: no value
    of binary64 is nearer to [q], and when another one is as near, the
    mantissa of [f] is even. *)
Definition correctly_rounded (f : Py.float) (q : Q) : Prop :=
  canonical f
  ∧ ∀ g, representable g →
      (Qabs (Py.float_to_Q f - q) <= Qabs (Py.float_to_Q g - q))%Q
      ∧ ((Qabs (Py.float_to_Q f - q) == Qabs (Py.float_to_Q g - q))%Q →
         ¬ (Py.float_to_Q f == Py.float_to_Q g)%Q →
         Z.even (Py.fmant f) = true).

(** The Python number [x] is the mean of [l] as [statistics.mean]
    gives it: the mean itself, as an [int], when it is integral, and
    otherwise the float nearest to it. *)
Definition is_mean (x : Py.number) (l : list Z) : Prop :=
  match x with
  | Py.PyInt z => (inject_Z z == arithmetic_mean l)%Q
  | Py.PyFloat f =>
      (∀ z, ¬ (inject_Z z == arithmetic_mean l)%Q)
      ∧ correctly_rounded f (arithmetic_mean l)
  end.

(** ** The console and the chart *)

(** The world after more texts have been printed. *)
Definition add_stdout (lines : list string) (w : world) : world :=
  {| stdout := stdout w ++ lines; fs := fs w; figures := figures w |}.

(** The chart of the histogram [h], as the script titles and labels
    it. *)
Definition chart (h : histogram) : figure :=
  {| fig_hists := [h];
     fig_title := "Distribution of Cat Fact Lengths";
     fig_xlabel := "Fact Length (characters)";
     fig_ylabel := "Frequency";
     fig_tight := true |}.

(** The histogram of the lengths of [facts] in ten bins, as [plt.hist]
    asks numpy for it. *)
Definition length_histogram (facts : list Fact) : outcome histogram :=
  a ← Numpy.asarray (fact_length <$> facts);
  Numpy.histogram a 10.

(** The figure that [plot_length_histogram] has drawn for [facts] when
    it comes to the file system: the chart, or an empty figure when
    [plt.hist] has raised. *)
Definition length_chart (facts : list Fact) : figure :=
  match length_histogram facts with
  | Ok h => chart h
  | Raise _ => empty_figure
  end.

(** The world in which [plot_length_histogram] has drawn its chart. *)
Definition chart_open (facts : list Fact) (w : world) : world :=
  Plt.set_figures (length_chart facts :: figures w) w.

(** The lines of the preview: the first five facts, numbered from 1. *)
Definition preview (facts : list Fact) : list string :=
  (λ x : Z * Fact, fact_line x.1 x.2) <$> enumerate (take 5 facts) 1.

(** Everything a complete run of [main] prints for [facts], given the
    statistics and the formatted average. *)
Definition report (script : string) (facts : list Fact) (st : Statistics)
    (avg : string) : list string :=
  [header] ++ preview facts
  ++ [ nl +:+ "Statistics:";
       "Total facts: " +:+ Py.str_int (count st);
       "Shortest fact length: " +:+ Py.str_int (min_length st);
       "Longest fact length: " +:+ Py.str_int (max_length st);
       "Average fact length: " +:+ avg;
       nl +:+ "Histogram saved to " +:+ image_path script ].

(** The decimal digit [1] to [5] that numbers line [i] of the preview,
    counted from 0. *)
Definition preview_number (i : nat) : string :=
  nth i ["1"; "2"; "3"; "4"; "5"] "".

(** The four lines of the statistics that precede the average. *)
Definition statistics_lines (st : Statistics) : list string :=
  [ nl +:+ "Statistics:";
    "Total facts: " +:+ Py.str_int (count st);
    "Shortest fact length: " +:+ Py.str_int (min_length st);
    "Longest fact length: " +:+ Py.str_int (max_length st) ].

(** Nothing stands in the way of the image: the output directory is
    missing or a directory, and the image path is not a directory. *)
Definition output_free (script : string) (w : world) : Prop :=
  (fs w !! output_dir script = None ∨ fs w !! output_dir script = Some Dir)
  ∧ fs w !! image_path script ≠ Some Dir.

(** ** The bins *)

(** The range of the ten bins for data from [lo] to [hi]: from [lo] to
    [hi], widened by one half on either side when they coincide. *)
Definition bin_range (lo hi : Z) : Q * Q :=
  if lo =? hi then ((inject_Z lo - (1 # 2))%Q, (inject_Z hi + (1 # 2))%Q)
  else (inject_Z lo, inject_Z hi).

(** Edge [i] of ten bins of equal width over the range [r]. *)
Definition equal_width_edge (r : Q * Q) (i : nat) : Q :=
  (r.1 + inject_Z (Z.of_nat i) * (r.2 - r.1) / 10)%Q.

(** The number of values of [data] in bin [i] of ten with the edges
    [lo] and [hi]: from [lo] up to [hi], which only the last bin
    includes. *)
Definition bin_count (lo hi : Q) (i : nat) (data : list Z) : nat :=
  length (filter (λ x : Z,
    Qle_bool lo (inject_Z x)
    && (if (i =? 9)%nat then Qle_bool (inject_Z x) hi
        else negb (Qle_bool hi (inject_Z x))) = true) data).

(** Edge [i] of a histogram, as a rational. *)
Definition edge (h : histogram) (i : nat) : Q :=
  from_option Py.float_to_Q 0%Q (h_edges h !! i).

(** Bin [i] of [n] bins with the edges [E 0 .. E n] holds [x]: the bin
    runs from its left edge up to its right edge, which only the last
    bin includes. *)
Definition in_range (E : nat → Q) (n i : nat) (x : Q) : Prop :=
  (E i <= x)%Q ∧ if (S i =? n)%nat then (x <= E (S i))%Q else (x < E (S i))%Q.

(** What the analysis of [linspace] asks of its ends, for data within
    [± 2 ^ k] and in units of [2 ^ (k - 56)]: the start [A] and the
    stop [A + W] within [± 2 ^ k], a width [W] of at least one, and a
    step [S] within one unit of a tenth of the width. *)
Definition ends_ok (k : Z) (A W S : Q) : Prop :=
  (- (inject_Z (2 ^ 56) * 2 ^ (k - 56)) <= A)%Q
  ∧ (A + W <= inject_Z (2 ^ 56) * 2 ^ (k - 56))%Q
  ∧ (1 <= W)%Q
  ∧ (- 2 ^ (k - 56) <= S - W * (1 # 10))%Q
  ∧ (S - W * (1 # 10) <= 2 ^ (k - 56))%Q.

(* ===================================================================== *)
(** * Sample inputs *)
(* ===================================================================== *)

(** The three facts of the worked scenario. *)
Definition three_cats : list Fact :=
  [ {| fact_text := "Cats sleep a lot."; fact_length := 17 |};
    {| fact_text := "Cats have claws."; fact_length := 17 |};
    {| fact_text := "Cats purr."; fact_length := 10 |} ].

(** The data file of the scenario, as [json.load] returns it. *)
Definition three_cats_json : json :=
  JObj (<["facts" :=
    JArr [ JObj (<["fact" := JStr "Cats sleep a lot."]> (<["length" := JInt 17]> ∅));
           JObj (<["fact" := JStr "Cats have claws."]> (<["length" := JInt 17]> ∅));
           JObj (<["fact" := JStr "Cats purr."]> (<["length" := JInt 10]> ∅)) ]]> ∅).

(** A machine on which the script lives in [/app], next to a data file
    with the parsed content [data]. *)
Definition app_script : string := "/app/catfacts_analyzer.py".

Definition app_world (data : json) : world :=
  {| stdout := [];
     fs := <["/app/data/cat_facts.json" := Doc (Some data)]> (<["/app" := Dir]> ∅);
     figures := [] |}.


(** Two facts whose lengths lie beyond [2 ^ 54]. *)
Definition two_huge : list Fact :=
  [ {| fact_text := "a"; fact_length := 2 ^ 54 + 1 |};
    {| fact_text := "b"; fact_length := 2 ^ 54 + 2 |} ].


(** A heap with the three facts of the scenario and the list that
    refers to them. *)
Definition three_cats_heap : gmap positive Heap.obj :=
  <[1%positive := Heap.OList [2%positive; 3%positive; 4%positive]]>
    (<[2%positive := Heap.OFact {| fact_text := "Cats sleep a lot."; fact_length := 17 |}]>
      (<[3%positive := Heap.OFact {| fact_text := "Cats have claws."; fact_length := 17 |}]>
        (<[4%positive := Heap.OFact {| fact_text := "Cats purr."; fact_length := 10 |}]> ∅))).

(* ===================================================================== *)
(** * Notions for the properties beyond the report *)
(* ===================================================================== *)



(** Two facts whose mean is too large for a float. *)
Definition two_enormous : list Fact :=
  [ {| fact_text := "a"; fact_length := 2 ^ 1024 |};
    {| fact_text := "b"; fact_length := 2 ^ 1024 + 1 |} ].

(** One fact whose length is too large for a float. *)
Definition one_enormous : list Fact :=
  [ {| fact_text := "a"; fact_length := 2 ^ 1024 |} ].

(** Two facts with enormous lengths of an even sum. *)
Definition two_enormous_even : list Fact :=
  [ {| fact_text := "a"; fact_length := 2 ^ 1024 |};
    {| fact_text := "b"; fact_length := 2 ^ 1024 + 2 |} ].

(** Three facts of one enormous length. *)
Definition three_enormous : list Fact :=
  [ {| fact_text := "a"; fact_length := 2 ^ 1024 |};
    {| fact_text := "b"; fact_length := 2 ^ 1024 |};
    {| fact_text := "c"; fact_length := 2 ^ 1024 |} ].

(* ===================================================================== *)
(** * Rounding *)
(* ===================================================================== *)

Section Rounding.

Import Py.

Lemma rne_div_between (x y : Z) :
  0 < y → x / y ≤ rne_div x y ≤ x / y + 1.
Proof.
  intros Hy. unfold rne_div.
  destruct (2 * (x mod y) ?= y); [destruct (Z.even (x / y)) | |]; lia.
Qed.

Lemma rne_div_exact (j y : Z) : 0 < y → rne_div (j * y) y = j.
Proof.
  intros Hy. unfold rne_div.
  rewrite Z.div_mul, Z.mod_mul by lia.
  destruct (Z.compare_spec (2 * 0) y); lia.
Qed.

(** An integer below the quotient stays below the rounded quotient. *)
Lemma rne_div_ge (x y j : Z) : 0 < y → j * y ≤ x → j ≤ rne_div x y.
Proof.
  intros Hy Hj. pose proof (rne_div_between x y Hy).
  assert (j ≤ x / y) by (apply Z.div_le_lower_bound; lia). lia.
Qed.

Lemma rne_div_le (x y j : Z) : 0 < y → x ≤ j * y → rne_div x y ≤ j.
Proof.
  intros Hy Hj.
  destruct (Z.eq_dec x (j * y)) as [-> | Hne].
  - rewrite rne_div_exact; lia.
  - pose proof (rne_div_between x y Hy).
    assert (x / y < j) by (apply Z.div_lt_upper_bound; lia). lia.
Qed.

(** The rounded quotient is within one half of the exact one. *)
Lemma rne_div_error (x y : Z) :
  0 < y → 2 * Z.abs (rne_div x y * y - x) ≤ y.
Proof.
  intros Hy. unfold rne_div.
  pose proof (Z.div_mod x y ltac:(lia)) as Hdm.
  pose proof (Z.mod_pos_bound x y Hy) as Hr.
  destruct (Z.compare_spec (2 * (x mod y)) y);
    [destruct (Z.even (x / y)) | |]; nia.
Qed.

End Rounding.

Section FloatValue.

Import Py.

Lemma pow2_pos (k : Z) : 0 ≤ k → 0 < 2 ^ k.
Proof. intros. apply Z.pow_pos_nonneg; lia. Qed.

Lemma float_to_Q_nonneg_exp (m e : Z) :
  0 ≤ e → float_to_Q (Float m e) = inject_Z (m * 2 ^ e).
Proof. intros He. unfold float_to_Q; simpl. destruct (Z.leb_spec 0 e); [done | lia]. Qed.

Lemma float_to_Q_neg_exp (m e : Z) :
  e < 0 → float_to_Q (Float m e) = Qmake m (Z.to_pos (2 ^ (- e))).
Proof. intros He. unfold float_to_Q; simpl. destruct (Z.leb_spec 0 e); [lia | done]. Qed.

(** Comparing an integer with a dyadic value, in integers. *)
Lemma int_le_float (k m e : Z) :
  (inject_Z k <= float_to_Q (Float m e))%Q
  ↔ if 0 <=? e then k ≤ m * 2 ^ e else k * 2 ^ (- e) ≤ m.
Proof.
  destruct (Z.leb_spec 0 e) as [He | He].
  - rewrite float_to_Q_nonneg_exp by done. rewrite <- Zle_Qle. done.
  - rewrite float_to_Q_neg_exp by done. unfold Qle; simpl.
    rewrite Z2Pos.id by (apply pow2_pos; lia). lia.
Qed.

Lemma float_le_int (k m e : Z) :
  (float_to_Q (Float m e) <= inject_Z k)%Q
  ↔ if 0 <=? e then m * 2 ^ e ≤ k else m ≤ k * 2 ^ (- e).
Proof.
  destruct (Z.leb_spec 0 e) as [He | He].
  - rewrite float_to_Q_nonneg_exp by done. rewrite <- Zle_Qle. done.
  - rewrite float_to_Q_neg_exp by done. unfold Qle; simpl.
    rewrite Z2Pos.id by (apply pow2_pos; lia). lia.
Qed.

(** The value [m * 2 ^ e] as a rational, for any sign of [e]. *)
Lemma float_to_Q_scale (m e : Z) :
  (float_to_Q (Float m e) == inject_Z m * 2 ^ e)%Q.
Proof.
  destruct (Z.le_gt_cases 0 e) as [He | He].
  - rewrite float_to_Q_nonneg_exp by done.
    rewrite inject_Z_mult, Zpower_Qpower by done. reflexivity.
  - rewrite float_to_Q_neg_exp by lia.
    rewrite Qmake_Qdiv, Z2Pos.id by (apply pow2_pos; lia).
    rewrite Zpower_Qpower by lia.
    replace e with (- - e) at 2 by lia.
    rewrite (Qpower_opp 2 (- e)). reflexivity.
Qed.

Lemma normalize_value (m e : Z) :
  (float_to_Q (normalize m e) == float_to_Q (Float m e))%Q.
Proof.
  unfold normalize.
  destruct (Z.eqb_spec (Z.abs m) (2 ^ prec)) as [Hm | Hm]; [| reflexivity].
  rewrite !float_to_Q_scale.
  assert (m = m / 2 * 2) as Heq.
  { unfold prec in Hm. change (2 ^ 53) with (2 ^ 52 * 2) in Hm.
    destruct (Z.abs_spec m) as [[_ Ha] | [_ Ha]]; rewrite Ha in Hm.
    - rewrite Hm at 1. rewrite Hm, Z.div_mul; lia.
    - replace m with (- 2 ^ 52 * 2) by lia. rewrite Z.div_mul; lia. }
  rewrite Heq at 2. rewrite inject_Z_mult, Qpower_plus by done.
  change (2 ^ 1)%Q with 2%Q. change (inject_Z 2) with 2%Q. ring.
Qed.

Lemma normalize_exp (m e : Z) : e ≤ fexp (normalize m e).
Proof. unfold normalize. destruct (Z.abs m =? 2 ^ prec); simpl; lia. Qed.

End FloatValue.

Section FloatOfFraction.

Import Py.

Lemma ilog2_fraction_le_53 (a d : Z) :
  0 < d → 0 < a → a ≤ 2 ^ 53 * d → ilog2_fraction a d ≤ 53.
Proof.
  intros Hd Ha Hle. unfold ilog2_fraction.
  destruct (Z.leb_spec d a).
  - rewrite <- (Z.log2_pow2 53) by lia. apply Z.log2_le_mono.
    apply Z.div_le_upper_bound; lia.
  - pose proof (Z.log2_up_nonneg ((d + a - 1) / a)). lia.
Qed.

Lemma ilog2_fraction_eq_53 (a d : Z) :
  0 < d → 0 < a → a ≤ 2 ^ 53 * d → ilog2_fraction a d = 53 → a = 2 ^ 53 * d.
Proof.
  intros Hd Ha Hle. unfold ilog2_fraction.
  destruct (Z.leb_spec d a) as [Hda | Hda]; intros HL.
  - assert (0 < a / d) as Hq by (apply Z.div_str_pos; lia).
    destruct (Z.log2_spec (a / d) Hq) as [Hlo _]. rewrite HL in Hlo.
    pose proof (Z.mul_div_le a d Hd). nia.
  - pose proof (Z.log2_up_nonneg ((d + a - 1) / a)). lia.
Qed.

(** Rounding to binary64 keeps a quotient between two integers that lie
    within [± 2 ^ 53] between them, and does not overflow. *)
Lemma float_of_fraction_bounded (n d lo hi : Z) :
  0 < d → lo * d ≤ n ≤ hi * d → - 2 ^ 53 ≤ lo → hi ≤ 2 ^ 53 →
  ∃ f, float_of_fraction n d = Some f
       ∧ (inject_Z lo <= float_to_Q f)%Q ∧ (float_to_Q f <= inject_Z hi)%Q.
Proof.
  intros Hd [Hlo Hhi] Blo Bhi. unfold float_of_fraction.
  destruct (Z.eqb_spec n 0) as [-> | Hn0].
  { eexists; split; [done |].
    rewrite int_le_float, float_le_int; simpl. nia. }
  assert (0 < Z.abs n) as Ha by lia.
  assert (Z.abs n ≤ 2 ^ 53 * d) as Hab by nia.
  pose proof (ilog2_fraction_le_53 _ _ Hd Ha Hab) as HL.
  pose proof (ilog2_fraction_eq_53 _ _ Hd Ha Hab) as HL53.
  unfold prec, emin, emax in *.
  set (L := ilog2_fraction (Z.abs n) d) in *.
  set (e := Z.max (L - (53 - 1)) (-1074)).
  assert (e ≤ 1) as He by lia.
  destruct (Z.eq_dec e 1) as [He1 | He1].
  - (* the quotient is [± 2 ^ 53] exactly *)
    assert (L = 53) as HLeq by lia. specialize (HL53 HLeq).
    assert (∃ j, n = j * (d * 2 ^ 1) ∧ Z.abs j = 2 ^ 52) as (j & Hj & Hjabs).
    { destruct (Z.abs_spec n) as [[_ Hna] | [_ Hna]]; rewrite Hna in HL53.
      - exists (2 ^ 52). split; [lia | done].
      - exists (- 2 ^ 52). split; [lia | done]. }
    rewrite He1. change (0 <=? 1) with true. cbv iota.
    rewrite Hj, rne_div_exact by lia.
    replace (Z.abs j =? 2 ^ 53) with false by (symmetry; apply Z.eqb_neq; lia).
    change ((1024 - 53 <? 1) || (1 =? 1024 - 53) && false) with false. cbv iota.
    eexists; split; [done |].
    rewrite normalize_value, int_le_float, float_le_int.
    change (0 <=? 1) with true. cbv iota.
    change (2 ^ 1) with 2 in *. nia.
  - (* every integer is a multiple of the unit in the last place *)
    assert (e ≤ 0) as He0 by lia.
    replace (1024 - 53 <? e) with false by (symmetry; apply Z.ltb_ge; lia).
    replace (e =? 1024 - 53) with false by (symmetry; apply Z.eqb_neq; lia).
    simpl orb. cbv iota.
    eexists; split; [done |].
    rewrite normalize_value, int_le_float, float_le_int.
    destruct (Z.leb_spec 0 e) as [Hee | Hee].
    + assert (e = 0) as -> by lia. change (2 ^ 0) with 1.
      pose proof (rne_div_ge n (d * 1) lo ltac:(lia) ltac:(lia)).
      pose proof (rne_div_le n (d * 1) hi ltac:(lia) ltac:(lia)). lia.
    + pose proof (pow2_pos (- e) ltac:(lia)) as Hp.
      pose proof (rne_div_ge (n * 2 ^ (- e)) d (lo * 2 ^ (- e)) Hd ltac:(nia)).
      pose proof (rne_div_le (n * 2 ^ (- e)) d (hi * 2 ^ (- e)) Hd ltac:(nia)).
      lia.
Qed.

End FloatOfFraction.

Section Nearest.

Import Py.

Lemma inject_Z_pos (y : Z) : 0 < y → (0 < inject_Z y)%Q.
Proof. intros Hy. change 0%Q with (inject_Z 0). rewrite <- Zlt_Qlt. done. Qed.

Lemma Qabs_rne_div (x y : Z) :
  0 < y →
  (Qabs (inject_Z (rne_div x y) - inject_Z x / inject_Z y) <= 1 # 2)%Q.
Proof.
  intros Hy. pose proof (rne_div_error x y Hy) as Herr.
  set (m := rne_div x y) in *.
  pose proof (inject_Z_pos y Hy) as HY.
  assert (inject_Z (- y) <= inject_Z (2 * (m * y - x)))%Q as H1
    by (rewrite <- Zle_Qle; lia).
  assert (inject_Z (2 * (m * y - x)) <= inject_Z y)%Q as H2
    by (rewrite <- Zle_Qle; lia).
  unfold Z.sub in H1, H2.
  rewrite !inject_Z_mult, !inject_Z_plus, !inject_Z_opp, !inject_Z_mult in H1.
  rewrite !inject_Z_mult, !inject_Z_plus, !inject_Z_opp, !inject_Z_mult in H2.
  change (inject_Z 2) with 2%Q in *.
  assert ((inject_Z m - inject_Z x / inject_Z y) * inject_Z y
          == inject_Z m * inject_Z y - inject_Z x)%Q as Hmul by (field; lra).
  apply Qabs_Qle_condition. split.
  - apply (Qmult_le_r _ _ (inject_Z y) HY). rewrite Hmul.
    set (MY := (inject_Z m * inject_Z y)%Q) in *. lra.
  - apply (Qmult_le_r _ _ (inject_Z y) HY). rewrite Hmul.
    set (MY := (inject_Z m * inject_Z y)%Q) in *. lra.
Qed.

(** The float is within half a unit in its last place of the exact
    quotient. *)
Lemma float_of_fraction_nearest (n d : Z) (f : float) :
  0 < d → float_of_fraction n d = Some f →
  (Qabs (float_to_Q f - inject_Z n / inject_Z d) <= (1 # 2) * 2 ^ fexp f)%Q.
Proof.
  intros Hd. pose proof (inject_Z_pos d Hd) as HD. unfold float_of_fraction.
  destruct (Z.eqb_spec n 0) as [-> | Hn0].
  { intros [= <-]. rewrite float_to_Q_scale. simpl fexp.
    assert (inject_Z 0 * 2 ^ 0 - inject_Z 0 / inject_Z d == 0)%Q as ->
      by (field; lra).
    done. }
  set (e := Z.max _ _).
  set (m := if 0 <=? e then _ else _).
  destruct (_ || _); [done |]. intros [= <-].
  pose proof (normalize_exp m e) as Hexp.
  rewrite normalize_value, float_to_Q_scale.
  assert (0 < 2 ^ e)%Q as Hs by (apply Qpower_0_lt; done).
  assert (2 ^ e <= 2 ^ fexp (normalize m e))%Q as Hulp
    by (apply Qpower_le_compat_l; done).
  assert (Qabs (inject_Z m - inject_Z n / inject_Z d / 2 ^ e) <= 1 # 2)%Q as Hm.
  { subst m. destruct (Z.leb_spec 0 e) as [He | He].
    - pose proof (pow2_pos e He) as Hp.
      pose proof (Qabs_rne_div n (d * 2 ^ e) ltac:(lia)) as Hr.
      rewrite inject_Z_mult, Zpower_Qpower in Hr by done.
      assert (inject_Z n / inject_Z d / 2 ^ e
              == inject_Z n / (inject_Z d * inject_Z 2 ^ e))%Q as ->; [| done].
      change (inject_Z 2) with 2%Q. field. split; lra.
    - pose proof (pow2_pos (- e) ltac:(lia)) as Hp.
      pose proof (Qabs_rne_div (n * 2 ^ (- e)) d Hd) as Hr.
      rewrite inject_Z_mult, Zpower_Qpower in Hr by lia.
      assert (inject_Z n / inject_Z d / 2 ^ e
              == inject_Z n * inject_Z 2 ^ (- e) / inject_Z d)%Q as ->; [| done].
      change (inject_Z 2) with 2%Q. rewrite Qpower_opp. field. split; lra. }
  assert (inject_Z m * 2 ^ e - inject_Z n / inject_Z d
          == (inject_Z m - inject_Z n / inject_Z d / 2 ^ e) * 2 ^ e)%Q as ->
    by (field; split; lra).
  rewrite Qabs_Qmult, (Qabs_pos (2 ^ e)) by lra.
  apply Qle_trans with ((1 # 2) * 2 ^ e)%Q.
  - apply Qmult_le_compat_r; [done | lra].
  - apply Qmult_le_l; [done | done].
Qed.

End Nearest.
(* ===================================================================== *)
(** * Rounding to nearest, ties to even *)
(* ===================================================================== *)

Section CorrectRounding.

Import Py.

Lemma rne_div_tie (x y : Z) :
  0 < y → 2 * Z.abs (rne_div x y * y - x) = y → Z.even (rne_div x y) = true.
Proof.
  intros Hy. unfold rne_div.
  pose proof (Z.div_mod x y ltac:(lia)) as Hdm.
  pose proof (Z.mod_pos_bound x y Hy) as Hr.
  destruct (Z.compare_spec (2 * (x mod y)) y) as [Heq | Hlt | Hgt].
  - destruct (Z.even (x / y)) eqn:Hev; [done |]. intros _.
    rewrite Z.even_add, Hev. done.
  - nia.
  - nia.
Qed.

Lemma pow2_Q_pos (e : Z) : (0 < 2 ^ e)%Q.
Proof. by apply Qpower_0_lt. Qed.

Lemma pow2_Q_le (a b : Z) : a ≤ b → (2 ^ a <= 2 ^ b)%Q.
Proof. intros. by apply Qpower_le_compat_l. Qed.

Lemma pow2_Q_plus (a b : Z) : (2 ^ (a + b) == 2 ^ a * 2 ^ b)%Q.
Proof. by apply Qpower_plus. Qed.

Lemma pow2_Q_lt (a b : Z) : a < b → (2 ^ a < 2 ^ b)%Q.
Proof.
  intros Hab. replace b with (a + (b - a)) by lia. rewrite pow2_Q_plus.
  pose proof (pow2_Q_pos a) as Ha.
  assert (2 ^ 1 <= 2 ^ (b - a))%Q as H1 by (apply pow2_Q_le; lia).
  change (2 ^ 1)%Q with 2%Q in H1.
  set (p := (2 ^ a)%Q) in *. set (r := (2 ^ (b - a))%Q) in *.
  assert (p * 2 <= p * r)%Q by (apply Qmult_le_l; done).
  lra.
Qed.

Lemma pow2_Q_Z (e : Z) : 0 ≤ e → (2 ^ e == inject_Z (2 ^ e))%Q.
Proof. intros He. rewrite Zpower_Qpower by done. reflexivity. Qed.

(** [ilog2_fraction a d] is the exponent of the binade of [a / d]. *)
Lemma ilog2_fraction_spec (a d : Z) :
  0 < a → 0 < d →
  (2 ^ ilog2_fraction a d <= inject_Z a / inject_Z d)%Q
  ∧ (inject_Z a / inject_Z d < 2 ^ (ilog2_fraction a d + 1))%Q.
Proof.
  intros Ha Hd. pose proof (inject_Z_pos d Hd) as HD.
  pose proof (inject_Z_pos a Ha) as HA.
  unfold ilog2_fraction. destruct (Z.leb_spec d a) as [Hda | Hda].
  - assert (0 < a / d) as Hq by (apply Z.div_str_pos; lia).
    destruct (Z.log2_spec (a / d) Hq) as [Hlo Hhi].
    pose proof (Z.log2_nonneg (a / d)) as HL.
    set (L := Z.log2 (a / d)) in *.
    pose proof (Z.mul_div_le a d Hd) as H1.
    pose proof (Z.mul_succ_div_gt a d Hd) as H2.
    pose proof (pow2_pos L HL) as HpL.
    rewrite !pow2_Q_Z by lia. split.
    + apply Qle_shift_div_l; [done |].
      rewrite <- inject_Z_mult, <- Zle_Qle. nia.
    + apply Qlt_shift_div_r; [done |].
      rewrite <- inject_Z_mult, <- Zlt_Qlt.
      replace (Z.succ L) with (L + 1) in Hhi by lia. nia.
  - set (c := (d + a - 1) / a).
    assert (2 ≤ c) as Hc2.
    { subst c. apply Z.div_le_lower_bound; lia. }
    assert (d ≤ c * a) as Hc_hi.
    { subst c. pose proof (Z.mul_succ_div_gt (d + a - 1) a Ha). lia. }
    assert ((c - 1) * a < d) as Hc_lo.
    { subst c. pose proof (Z.mul_div_le (d + a - 1) a Ha). lia. }
    destruct (Z.log2_up_spec c ltac:(lia)) as [Hlo Hhi].
    pose proof (Z.log2_up_pos c ltac:(lia)) as Hu.
    set (u := Z.log2_up c) in *.
    replace (Z.pred u) with (u - 1) in Hlo by lia.
    pose proof (pow2_pos u ltac:(lia)) as Hpu.
    pose proof (pow2_pos (u - 1) ltac:(lia)) as Hpu1.
    split.
    + rewrite Qpower_opp, pow2_Q_Z by lia.
      pose proof (inject_Z_pos _ Hpu) as HPU.
      apply Qle_shift_div_l; [done |].
      assert (inject_Z d <= inject_Z (2 ^ u) * inject_Z a)%Q as Hle.
      { rewrite <- inject_Z_mult, <- Zle_Qle. nia. }
      set (P := inject_Z (2 ^ u)) in *.
      assert (/ P * inject_Z d == inject_Z d / P)%Q as -> by (field; lra).
      apply Qle_shift_div_r; [done |]. lra.
    + replace (- u + 1) with (- (u - 1)) by lia.
      rewrite Qpower_opp, pow2_Q_Z by lia.
      pose proof (inject_Z_pos _ Hpu1) as HPU.
      apply Qlt_shift_div_r; [done |].
      assert (inject_Z (2 ^ (u - 1)) * inject_Z a < inject_Z d)%Q as Hlt.
      { rewrite <- inject_Z_mult, <- Zlt_Qlt. nia. }
      set (P := inject_Z (2 ^ (u - 1))) in *.
      assert (/ P * inject_Z d == inject_Z d / P)%Q as -> by (field; lra).
      apply Qlt_shift_div_l; [done |]. lra.
Qed.

Lemma Qabs_eq_cases (t c : Q) : (Qabs t == c → t == c ∨ t == - c)%Q.
Proof.
  apply (Qabs_case t (λ a, a == c → t == c ∨ t == - c)%Q); intros Hs Heq.
  - by left.
  - right. lra.
Qed.

Lemma Qabs_le_cases (t c : Q) : (Qabs t <= c ↔ - c <= t ∧ t <= c)%Q.
Proof. apply Qabs_Qle_condition. Qed.

Lemma Qabs_div_pow2 (q : Q) (e : Z) : (Qabs (q / 2 ^ e) == Qabs q / 2 ^ e)%Q.
Proof.
  pose proof (pow2_Q_pos e) as Hp.
  unfold Qdiv. rewrite Qabs_Qmult, Qabs_Qinv, (Qabs_pos (2 ^ e)) by lra.
  reflexivity.
Qed.

Lemma Qabs_quotient (n d : Z) :
  0 < d → (Qabs (inject_Z n / inject_Z d) == inject_Z (Z.abs n) / inject_Z d)%Q.
Proof.
  intros Hd. pose proof (inject_Z_pos d Hd) as HD.
  unfold Qdiv. rewrite Qabs_Qmult, Qabs_Qinv, (Qabs_pos (inject_Z d)) by lra.
  reflexivity.
Qed.

Lemma Qabs_rne_div_tie (x y : Z) :
  0 < y →
  (Qabs (inject_Z (rne_div x y) - inject_Z x / inject_Z y) == 1 # 2)%Q →
  Z.even (rne_div x y) = true.
Proof.
  intros Hy Htie. apply rne_div_tie; [done |].
  pose proof (inject_Z_pos y Hy) as HY.
  set (m := rne_div x y) in *.
  assert ((inject_Z m - inject_Z x / inject_Z y) * inject_Z y
          == inject_Z (m * y - x))%Q as Hmul.
  { unfold Z.sub. rewrite inject_Z_plus, inject_Z_opp, inject_Z_mult.
    field. lra. }
  apply Qabs_eq_cases in Htie as [Ht | Ht]; rewrite Ht in Hmul.
  - assert (inject_Z y == inject_Z (2 * (m * y - x)))%Q as Heq.
    { rewrite inject_Z_mult. change (inject_Z 2) with 2%Q.
      clear Ht. set (t := inject_Z (m * y - x)) in *. clearbody t.
      set (Y := inject_Z y) in *. clearbody Y. clear - Hmul. lra. }
    apply (proj1 (inject_Z_injective _ _)) in Heq. lia.
  - assert (inject_Z y == inject_Z (- (2 * (m * y - x))))%Q as Heq.
    { rewrite inject_Z_opp, inject_Z_mult. change (inject_Z 2) with 2%Q.
      clear Ht. set (t := inject_Z (m * y - x)) in *. clearbody t.
      set (Y := inject_Z y) in *. clearbody Y. clear - Hmul. lra. }
    apply (proj1 (inject_Z_injective _ _)) in Heq. lia.
Qed.

(** The shape of [float_of_fraction n d] for a quotient [q] that is
    not zero: with [L] the exponent of the binade of [q] and [e] the
    exponent of the last place, the mantissa [m] is [q / 2 ^ e] rounded
    to an integer, half to even. *)
Lemma float_of_fraction_scaled (n d : Z) :
  0 < d → n ≠ 0 →
  ∃ L m : Z,
    let q := (inject_Z n / inject_Z d)%Q in
    let e := Z.max (L - 52) emin in
    (2 ^ L <= Qabs q)%Q ∧ (Qabs q < 2 ^ (L + 1))%Q
    ∧ float_of_fraction n d
      = (if (emax - prec <? e) || ((e =? emax - prec) && (Z.abs m =? 2 ^ prec))
         then None else Some (normalize m e))
    ∧ (Qabs (inject_Z m - q / 2 ^ e) <= 1 # 2)%Q
    ∧ ((Qabs (inject_Z m - q / 2 ^ e) == 1 # 2)%Q → Z.even m = true).
Proof.
  intros Hd Hn. pose proof (inject_Z_pos d Hd) as HD.
  exists (ilog2_fraction (Z.abs n) d). cbv zeta.
  set (L := ilog2_fraction (Z.abs n) d).
  set (e := Z.max (L - 52) emin).
  destruct (ilog2_fraction_spec (Z.abs n) d ltac:(lia) Hd) as [HL1 HL2].
  fold L in HL1, HL2. rewrite <- Qabs_quotient in HL1, HL2 by done.
  pose proof (pow2_Q_pos e) as Hs.
  destruct (Z.leb_spec 0 e) as [He | He].
  - pose proof (pow2_pos e He) as Hp.
    exists (rne_div n (d * 2 ^ e)).
    assert (inject_Z n / inject_Z d / 2 ^ e
            == inject_Z n / inject_Z (d * 2 ^ e))%Q as Hx.
    { rewrite inject_Z_mult, pow2_Q_Z by done. field.
      pose proof (inject_Z_pos _ Hp). split; lra. }
    split_and!; [done | done | | |].
    + unfold float_of_fraction. rewrite (proj2 (Z.eqb_neq n 0)) by done.
      change (Z.max (ilog2_fraction (Z.abs n) d - (prec - 1)) emin) with e.
      by rewrite (proj2 (Z.leb_le 0 e)) by done.
    + rewrite Hx. apply Qabs_rne_div. lia.
    + rewrite Hx. apply Qabs_rne_div_tie. lia.
  - pose proof (pow2_pos (- e) ltac:(lia)) as Hp.
    exists (rne_div (n * 2 ^ (- e)) d).
    assert (inject_Z n / inject_Z d / 2 ^ e
            == inject_Z (n * 2 ^ (- e)) / inject_Z d)%Q as Hx.
    { rewrite inject_Z_mult, <- pow2_Q_Z, Qpower_opp by lia. field. split; lra. }
    split_and!; [done | done | | |].
    + unfold float_of_fraction. rewrite (proj2 (Z.eqb_neq n 0)) by done.
      change (Z.max (ilog2_fraction (Z.abs n) d - (prec - 1)) emin) with e.
      by rewrite (proj2 (Z.leb_gt 0 e)) by done.
    + rewrite Hx. by apply Qabs_rne_div.
    + rewrite Hx. by apply Qabs_rne_div_tie.
Qed.

Lemma Qabs_spec (t : Q) :
  (0 <= t ∧ Qabs t == t)%Q ∨ (t <= 0 ∧ Qabs t == - t)%Q.
Proof.
  destruct (Qlt_le_dec t 0) as [Hneg | Hpos].
  - right. split; [lra |]. apply Qabs_neg. lra.
  - left. split; [done |]. by apply Qabs_pos.
Qed.

(** An integer within one half of [x] is at least as near to [x] as any
    other integer, and as near only at one half. *)
Lemma nearest_integer (m k : Z) (x : Q) :
  (Qabs (inject_Z m - x) <= 1 # 2)%Q →
  (Qabs (inject_Z m - x) <= Qabs (inject_Z k - x))%Q
  ∧ ((Qabs (inject_Z m - x) == Qabs (inject_Z k - x))%Q → k ≠ m →
     (Qabs (inject_Z m - x) == 1 # 2)%Q).
Proof.
  intros Hm. destruct (Z.eq_dec k m) as [-> | Hne].
  { split; [lra | done]. }
  assert (inject_Z k <= inject_Z m - 1 ∨ inject_Z m + 1 <= inject_Z k)%Q as Hk.
  { change 1%Q with (inject_Z 1).
    destruct (Z_lt_le_dec k m); [left | right].
    - unfold Qminus. rewrite <- inject_Z_opp, <- inject_Z_plus, <- Zle_Qle. lia.
    - rewrite <- inject_Z_plus, <- Zle_Qle. lia. }
  clear Hne. set (M := inject_Z m) in *. set (K := inject_Z k) in *.
  clearbody M K.
  destruct (Qabs_spec (M - x)) as [[? Ha] | [? Ha]];
    destruct (Qabs_spec (K - x)) as [[? Hb] | [? Hb]];
    rewrite Ha, Hb in *; destruct Hk; split; intros; lra.
Qed.

(** A value on a finer grid below [2 ^ 52] is farther from [x], which
    is at least [2 ^ 52], than the integer nearest to [x]. *)
Lemma nearest_beats_finer (m : Z) (x y : Q) :
  (Qabs (inject_Z m - x) <= 1 # 2)%Q →
  (inject_Z (2 ^ 52) <= Qabs x)%Q →
  (Qabs y <= inject_Z (2 ^ 52) - (1 # 2))%Q →
  (Qabs (inject_Z m - x) < Qabs (y - x))%Q.
Proof.
  intros Hm Hx Hy.
  assert (∀ k : Z, inject_Z k <= inject_Z m ∨ inject_Z m + 1 <= inject_Z k)%Q as Hint.
  { intros k. change 1%Q with (inject_Z 1).
    destruct (Z_lt_le_dec m k); [right | left].
    - rewrite <- inject_Z_plus, <- Zle_Qle. lia.
    - rewrite <- Zle_Qle. lia. }
  pose proof (Hint (2 ^ 52)) as H1. pose proof (Hint (2 ^ 52 + 1)) as H2.
  pose proof (Hint (- 2 ^ 52 + 1)) as H3. pose proof (Hint (- 2 ^ 52)) as H4.
  clear Hint.
  change (inject_Z (2 ^ 52 + 1)) with (4503599627370497 # 1)%Q in *.
  change (inject_Z (2 ^ 52)) with (4503599627370496 # 1)%Q in *.
  change (inject_Z (- 2 ^ 52 + 1)) with (-4503599627370495 # 1)%Q in *.
  change (inject_Z (- 2 ^ 52)) with (-4503599627370496 # 1)%Q in *.
  set (M := inject_Z m) in *. clearbody M. clear m.
  destruct (Qabs_spec (M - x)) as [[? Ha] | [? Ha]];
    destruct (Qabs_spec (y - x)) as [[? Hb] | [? Hb]];
    destruct (Qabs_spec x) as [[? Hc] | [? Hc]];
    destruct (Qabs_spec y) as [[? Hd] | [? Hd]];
    rewrite Ha, Hb in *; rewrite Hc in Hx; rewrite Hd in Hy;
    destruct H1, H2, H3, H4; lra.
Qed.

Lemma int_le_Q (a b : Z) : a ≤ b → (inject_Z a <= inject_Z b)%Q.
Proof. intros. by rewrite <- Zle_Qle. Qed.

Lemma mantissa_bounds (m : Z) (x : Q) :
  (Qabs (inject_Z m - x) <= 1 # 2)%Q →
  ((Qabs x < inject_Z (2 ^ 53))%Q → Z.abs m ≤ 2 ^ 53)
  ∧ ((inject_Z (2 ^ 52) <= Qabs x)%Q → 2 ^ 52 ≤ Z.abs m).
Proof.
  intros Hm.
  destruct (Qabs_spec (inject_Z m - x)) as [[? Ha] | [? Ha]];
    destruct (Qabs_spec x) as [[? Hc] | [? Hc]];
    rewrite Ha in Hm; rewrite Hc; clear Ha Hc;
    (split; intros Hx;
     [ destruct (Z_le_gt_dec (Z.abs m) (2 ^ 53)) as [| Hgt]; [done | exfalso];
       destruct (Z_le_gt_dec 0 m);
       [ pose proof (int_le_Q (2 ^ 53 + 1) m ltac:(lia)) as Hq
       | pose proof (int_le_Q m (- 2 ^ 53 - 1) ltac:(lia)) as Hq ]
     | destruct (Z_le_gt_dec (2 ^ 52) (Z.abs m)) as [| Hgt]; [done | exfalso];
       destruct (Z_le_gt_dec 0 m);
       [ pose proof (int_le_Q m (2 ^ 52 - 1) ltac:(lia)) as Hq;
         pose proof (int_le_Q 0 m ltac:(lia)) as Hq'
       | pose proof (int_le_Q (- 2 ^ 52 + 1) m ltac:(lia)) as Hq;
         pose proof (int_le_Q m 0 ltac:(lia)) as Hq' ] ]);
    change (inject_Z (2 ^ 53 + 1)) with (9007199254740993 # 1)%Q in *;
    change (inject_Z (- 2 ^ 53 - 1)) with (-9007199254740993 # 1)%Q in *;
    change (inject_Z (2 ^ 53)) with (9007199254740992 # 1)%Q in *;
    change (inject_Z (2 ^ 52)) with (4503599627370496 # 1)%Q in *;
    change (inject_Z (2 ^ 52 - 1)) with (4503599627370495 # 1)%Q in *;
    change (inject_Z (- 2 ^ 52 + 1)) with (-4503599627370495 # 1)%Q in *;
    change (inject_Z 0) with 0%Q in *;
    set (M := inject_Z m) in *; clearbody M; lra.
Qed.

Lemma normalize_canonical (m e : Z) :
  emin ≤ e ≤ emax - prec → Z.abs m ≤ 2 ^ prec →
  (emin < e → 2 ^ (prec - 1) ≤ Z.abs m) →
  ¬ (e = emax - prec ∧ Z.abs m = 2 ^ prec) →
  canonical (normalize m e).
Proof.
  unfold canonical, representable, normalize, prec, emin, emax.
  intros He Hm Hn Hov.
  destruct (Z.eqb_spec (Z.abs m) (2 ^ 53)) as [Heq | Hne]; cbn [fmant fexp].
  - assert (Z.abs (m / 2) = 2 ^ 52) as Hhalf.
    { destruct (Z.abs_spec m) as [[_ Ha] | [_ Ha]]; rewrite Ha in Heq.
      - rewrite Heq. done.
      - replace m with (- 2 ^ 53) by lia. done. }
    rewrite Hhalf. split_and!; [lia | lia | done | right; right; done].
  - split_and!; [lia | lia | lia |].
    destruct (Z.eq_dec e (-1074)); [right; by left | right; right; apply Hn; lia].
Qed.

Lemma normalize_even (m e : Z) :
  Z.even m = true → Z.even (fmant (normalize m e)) = true.
Proof.
  intros Hev. unfold normalize, prec.
  destruct (Z.eqb_spec (Z.abs m) (2 ^ 53)) as [Heq | Hne]; cbn [fmant]; [| done].
  destruct (Z.abs_spec m) as [[_ Ha] | [_ Ha]]; rewrite Ha in Heq.
  - rewrite Heq. done.
  - replace m with (- 2 ^ 53) by lia. done.
Qed.

Lemma Qabs_scaled (a x s : Q) :
  (0 < s)%Q → (Qabs (a * s - x * s) == Qabs (a - x) * s)%Q.
Proof.
  intros Hs. assert (a * s - x * s == (a - x) * s)%Q as -> by ring.
  rewrite Qabs_Qmult, (Qabs_pos s) by lra. reflexivity.
Qed.

(** What [float_of_fraction] returns is the quotient correctly
    rounded. *)
Theorem float_of_fraction_correct (n d : Z) (f : float) :
  0 < d → float_of_fraction n d = Some f →
  correctly_rounded f (inject_Z n / inject_Z d).
Proof.
  intros Hd Hf. pose proof (inject_Z_pos d Hd) as HD.
  destruct (Z.eq_dec n 0) as [-> | Hn].
  { injection Hf as <-.
    assert (float_to_Q (Float 0 0) - inject_Z 0 / inject_Z d == 0)%Q as Hz.
    { change (float_to_Q (Float 0 0)) with 0%Q. change (inject_Z 0) with 0%Q.
      field. lra. }
    split.
    - split; [| by left]. unfold representable, emin, emax, prec; simpl. lia.
    - intros g _. rewrite Hz. split; [apply Qabs_nonneg |].
      intros Htie Hne. exfalso. apply Hne.
      change (float_to_Q (Float 0 0)) with 0%Q in *.
      assert (inject_Z 0 / inject_Z d == 0)%Q as Hq
        by (change (inject_Z 0) with 0%Q; field; lra).
      rewrite Hq in Htie. change (Qabs 0) with 0%Q in Htie.
      destruct (Qabs_spec (float_to_Q g - 0)) as [[? Ha] | [? Ha]];
        rewrite Ha in Htie; lra. }
  destruct (float_of_fraction_scaled n d Hd Hn)
    as (L & m & HL1 & HL2 & Heq & Hm & Htie).
  cbv zeta in *.
  set (q := (inject_Z n / inject_Z d)%Q) in *.
  set (e := Z.max (L - 52) emin) in *.
  pose proof (pow2_Q_pos e) as Hs.
  set (x := (q / 2 ^ e)%Q) in *.
  assert (q == x * 2 ^ e)%Q as Hq by (subst x; field; lra).
  (* the scaled quotient lies in the last binade *)
  assert (Qabs x < inject_Z (2 ^ 53))%Q as Hx53.
  { subst x. rewrite Qabs_div_pow2. apply Qlt_shift_div_r; [done |].
    rewrite <- pow2_Q_Z, <- pow2_Q_plus by lia.
    eapply Qlt_le_trans; [exact HL2 |]. apply pow2_Q_le. lia. }
  assert (emin < e → (inject_Z (2 ^ 52) <= Qabs x)%Q) as Hx52.
  { intros He. subst x. rewrite Qabs_div_pow2. apply Qle_shift_div_l; [done |].
    rewrite <- pow2_Q_Z, <- pow2_Q_plus by lia.
    eapply Qle_trans; [| exact HL1]. apply pow2_Q_le. lia. }
  destruct (mantissa_bounds m x Hm) as [Hm53 Hm52].
  specialize (Hm53 Hx53).
  rewrite Heq in Hf.
  destruct (Z.ltb_spec (emax - prec) e) as [| He971]; [done |].
  destruct (Z.eqb_spec e (emax - prec)) as [He971' |];
    destruct (Z.eqb_spec (Z.abs m) (2 ^ prec)) as [Hm2 |]; try done;
    simpl in Hf; injection Hf as <-.
  all: split;
    [ apply normalize_canonical;
      [ subst e; unfold emin in *; lia | done
      | intros He; apply Hm52, Hx52, He | lia ] |].
  all: intros [mg eg] [Heg Hmg]; cbn [fmant fexp] in Heg, Hmg;
    rewrite normalize_value, !float_to_Q_scale, Hq, !Qabs_scaled by done.
  all: destruct (Z_le_gt_dec e eg) as [Hge | Hlt].
  all: try (
    (* the other value is on the grid of [f] or a coarser one *)
    assert (inject_Z mg * 2 ^ eg == inject_Z (mg * 2 ^ (eg - e)) * 2 ^ e)%Q as Hg
      by (rewrite inject_Z_mult, <- pow2_Q_Z, <- Qmult_assoc, <- pow2_Q_plus by lia;
          replace (eg - e + e) with eg by lia; reflexivity);
    rewrite Hg, Qabs_scaled by done;
    destruct (nearest_integer m (mg * 2 ^ (eg - e)) x Hm) as [Hle Htie'];
    split;
    [ apply Qmult_le_compat_r; [done | lra]
    | intros Ht Hne; apply normalize_even, Htie, Htie';
      [ apply Qmult_inj_r in Ht; [done | lra]
      | intros Hk; apply Hne; rewrite Hk; reflexivity ] ]).
  all: (* the other value is on a finer grid *)
    assert (inject_Z mg * 2 ^ eg == inject_Z mg * 2 ^ (eg - e) * 2 ^ e)%Q as Hg
      by (rewrite <- Qmult_assoc, <- pow2_Q_plus;
          replace (eg - e + e) with eg by lia; reflexivity);
    rewrite Hg, Qabs_scaled by done;
    assert (Qabs (inject_Z mg * 2 ^ (eg - e)) <= inject_Z (2 ^ 52) - (1 # 2))%Q as Hy
      by (rewrite Qabs_Qmult, (Qabs_pos (2 ^ (eg - e))) by (apply Qlt_le_weak, pow2_Q_pos);
          pose proof (pow2_Q_le (eg - e) (-1) ltac:(lia)) as Hp;
          change (2 ^ (-1))%Q with (1 # 2)%Q in Hp;
          pose proof (pow2_Q_pos (eg - e)) as Hp0;
          change (Qabs (inject_Z mg)) with (inject_Z (Z.abs mg));
          pose proof (int_le_Q (Z.abs mg) (2 ^ 53 - 1) ltac:(unfold prec in Hmg; lia)) as Ha;
          pose proof (int_le_Q 0 (Z.abs mg) ltac:(lia)) as Ha0;
          change (inject_Z (2 ^ 53 - 1)) with (9007199254740991 # 1)%Q in Ha;
          change (inject_Z 0) with 0%Q in Ha0;
          change (inject_Z (2 ^ 52)) with (4503599627370496 # 1)%Q;
          set (A := inject_Z (Z.abs mg)) in *; set (P := (2 ^ (eg - e))%Q) in *;
          clearbody A P;
          assert (A * P <= A * (1 # 2))%Q
            by (rewrite !(Qmult_comm A); apply Qmult_le_compat_r; done);
          lra);
    pose proof (nearest_beats_finer m x _ Hm
                  (Hx52 ltac:(unfold emin in *; lia)) Hy) as Hlt';
    assert (Qabs (inject_Z m - x) * 2 ^ e
            < Qabs (inject_Z mg * 2 ^ (eg - e) - x) * 2 ^ e)%Q as Hstrict
      by (apply Qmult_lt_compat_r; done);
    split; [lra | intros Ht; lra].
Qed.

Lemma correctly_rounded_proper (f : float) (q q' : Q) :
  (q == q')%Q → correctly_rounded f q → correctly_rounded f q'.
Proof.
  intros Heq [Hcan Hnear]. split; [done |].
  intros g Hg. destruct (Hnear g Hg) as [Hle Htie].
  rewrite <- Heq. done.
Qed.

(** [round] rounds correctly. *)
Theorem round_correct (q : Q) (f : float) :
  round q = Some f → correctly_rounded f q.
Proof.
  unfold round. intros Hf.
  apply float_of_fraction_correct in Hf; [| done].
  apply (correctly_rounded_proper f (Qred q)); [apply Qred_correct |].
  destruct (Qred q) as [n d]. cbn [Qnum Qden] in Hf.
  apply (correctly_rounded_proper f (inject_Z n / inject_Z (Z.pos d))); [| done].
  symmetry. apply Qmake_Qdiv.
Qed.

Lemma pow2_Q_lt_inv (a b : Z) : (2 ^ a < 2 ^ b)%Q → a < b.
Proof.
  intros Hlt. destruct (Z_lt_le_dec a b) as [| Hge]; [done |].
  pose proof (pow2_Q_le b a Hge). lra.
Qed.

(** A quotient below [2 ^ j] in magnitude is rounded with an error of
    at most [2 ^ (j - 54)], half a unit in the last place of its
    binade, and does not overflow. *)
Lemma float_of_fraction_error (n d j : Z) :
  0 < d → emin + 53 ≤ j ≤ 1023 →
  (Qabs (inject_Z n / inject_Z d) < 2 ^ j)%Q →
  ∃ f, float_of_fraction n d = Some f
       ∧ (Qabs (float_to_Q f - inject_Z n / inject_Z d) <= 2 ^ (j - 54))%Q.
Proof.
  intros Hd Hj Hq. pose proof (inject_Z_pos d Hd) as HD.
  destruct (Z.eq_dec n 0) as [-> | Hn].
  { exists (Float 0 0). split; [done |].
    assert (float_to_Q (Float 0 0) - inject_Z 0 / inject_Z d == 0)%Q as ->.
    { change (float_to_Q (Float 0 0)) with 0%Q. change (inject_Z 0) with 0%Q.
      field. lra. }
    apply Qlt_le_weak, pow2_Q_pos. }
  destruct (float_of_fraction_scaled n d Hd Hn)
    as (L & m & HL1 & HL2 & Heq & Hm & _).
  cbv zeta in *.
  set (q := (inject_Z n / inject_Z d)%Q) in *.
  set (e := Z.max (L - 52) emin) in *.
  assert (L < j) as HLj.
  { apply pow2_Q_lt_inv. eapply Qle_lt_trans; [exact HL1 | exact Hq]. }
  assert (e ≤ j - 53) as Hej by (subst e; unfold emin in *; lia).
  rewrite Heq.
  destruct (Z.ltb_spec (emax - prec) e) as [Hov |]; [unfold emax, prec in Hov; lia |].
  destruct (Z.eqb_spec e (emax - prec)) as [Hov |]; [unfold emax, prec in Hov; lia |].
  cbn [orb andb]. eexists; split; [done |].
  pose proof (pow2_Q_pos e) as Hs.
  assert (q == q / 2 ^ e * 2 ^ e)%Q as Hqs by (field; lra).
  rewrite normalize_value, float_to_Q_scale. rewrite Hqs at 1.
  rewrite Qabs_scaled by done.
  apply Qle_trans with ((1 # 2) * 2 ^ e)%Q.
  - apply Qmult_le_compat_r; [done | lra].
  - change (1 # 2)%Q with (2 ^ (-1))%Q. rewrite <- pow2_Q_plus.
    apply pow2_Q_le. lia.
Qed.

Lemma round_error (q : Q) (j : Z) :
  emin + 53 ≤ j ≤ 1023 → (Qabs q < 2 ^ j)%Q →
  ∃ f, round q = Some f
       ∧ correctly_rounded f q
       ∧ (Qabs (float_to_Q f - q) <= 2 ^ (j - 54))%Q.
Proof.
  intros Hj Hq. unfold round.
  assert (q == inject_Z (Qnum (Qred q)) / inject_Z (Z.pos (Qden (Qred q))))%Q as Heq.
  { rewrite <- Qmake_Qdiv. destruct (Qred q) as [n d] eqn:Hr. cbn [Qnum Qden].
    rewrite <- Hr. symmetry. apply Qred_correct. }
  destruct (float_of_fraction_error (Qnum (Qred q)) (Z.pos (Qden (Qred q))) j)
    as (f & Hf & Herr); [done | done | by rewrite <- Heq |].
  exists f. split_and!; [done | | by rewrite Heq].
  apply round_correct. done.
Qed.

(** A value of binary64 is rounded to itself. *)
Lemma round_exact (q : Q) (g : float) (j : Z) :
  representable g → (float_to_Q g == q)%Q →
  emin + 53 ≤ j ≤ 1023 → (Qabs q < 2 ^ j)%Q →
  ∃ f, round q = Some f ∧ correctly_rounded f q ∧ (float_to_Q f == q)%Q.
Proof.
  intros Hg Hgq Hj Hq.
  destruct (round_error q j Hj Hq) as (f & Hf & Hcr & _).
  exists f. split_and!; [done | done |].
  destruct Hcr as [_ Hnear]. destruct (Hnear g Hg) as [Hle _].
  rewrite Hgq in Hle.
  assert (q - q == 0)%Q as Hz by ring. rewrite Hz in Hle.
  change (Qabs 0) with 0%Q in Hle.
  destruct (Qabs_spec (float_to_Q f - q)) as [[? Ha] | [? Ha]];
    rewrite Ha in Hle; lra.
Qed.

End CorrectRounding.

(* ===================================================================== *)
(** * [min], [max], [sum] and [mean] *)
(* ===================================================================== *)

Section Builtins.

Import Py.

Lemma fold_min_spec (xs : list Z) (x : Z) : is_minimum (fold_left Z.min xs x) (x :: xs).
Proof.
  revert x. induction xs as [| y ys IH]; intros x; simpl.
  - split; [left |]. intros z Hz. apply list_elem_of_singleton in Hz. lia.
  - destruct (IH (Z.min x y)) as [Hin Hle]. split.
    + apply elem_of_cons in Hin as [-> | Hin].
      * destruct (Z.min_spec x y) as [[_ ->] | [_ ->]]; set_solver.
      * set_solver.
    + intros z Hz.
      assert (fold_left Z.min ys (Z.min x y) ≤ Z.min x y) by (apply Hle; left).
      apply elem_of_cons in Hz as [-> | Hz]; [lia |].
      apply elem_of_cons in Hz as [-> | Hz]; [lia |].
      apply Hle. by right.
Qed.

Lemma fold_max_spec (xs : list Z) (x : Z) : is_maximum (fold_left Z.max xs x) (x :: xs).
Proof.
  revert x. induction xs as [| y ys IH]; intros x; simpl.
  - split; [left |]. intros z Hz. apply list_elem_of_singleton in Hz. lia.
  - destruct (IH (Z.max x y)) as [Hin Hle]. split.
    + apply elem_of_cons in Hin as [-> | Hin].
      * destruct (Z.max_spec x y) as [[_ ->] | [_ ->]]; set_solver.
      * set_solver.
    + intros z Hz.
      assert (Z.max x y ≤ fold_left Z.max ys (Z.max x y)) by (apply Hle; left).
      apply elem_of_cons in Hz as [-> | Hz]; [lia |].
      apply elem_of_cons in Hz as [-> | Hz]; [lia |].
      apply Hle. by right.
Qed.

Lemma minimum_unique (a b : Z) (l : list Z) :
  is_minimum a l → is_minimum b l → a = b.
Proof.
  intros [Ha1 Ha2] [Hb1 Hb2].
  pose proof (Ha2 b Hb1). pose proof (Hb2 a Ha1). lia.
Qed.

Lemma maximum_unique (a b : Z) (l : list Z) :
  is_maximum a l → is_maximum b l → a = b.
Proof.
  intros [Ha1 Ha2] [Hb1 Hb2].
  pose proof (Ha2 b Hb1). pose proof (Hb2 a Ha1). lia.
Qed.

Lemma min_spec (l : list Z) :
  l ≠ [] → ∃ m, min l = Ok m ∧ is_minimum m l.
Proof. destruct l as [| x xs]; [done |]. intros _. eexists; split; [done |]. apply fold_min_spec. Qed.

Lemma max_spec (l : list Z) :
  l ≠ [] → ∃ m, max l = Ok m ∧ is_maximum m l.
Proof. destruct l as [| x xs]; [done |]. intros _. eexists; split; [done |]. apply fold_max_spec. Qed.

Lemma fold_add_acc (l : list Z) (a : Z) : fold_left Z.add l a = a + foldr Z.add 0 l.
Proof.
  revert a. induction l as [| x xs IH]; intros a; simpl; [lia |].
  rewrite IH. lia.
Qed.

Lemma sum_foldr (l : list Z) : sum l = foldr Z.add 0 l.
Proof. unfold sum. rewrite fold_add_acc. lia. Qed.

Lemma sum_bounds (l : list Z) (lo hi : Z) :
  (∀ x, x ∈ l → lo ≤ x ≤ hi) → lo * len l ≤ sum l ≤ hi * len l.
Proof.
  rewrite sum_foldr. unfold len.
  induction l as [| x xs IH]; intros Hb; simpl length; simpl foldr; [lia |].
  assert (lo ≤ x ≤ hi) by (apply Hb; left).
  assert (lo * Z.of_nat (length xs) ≤ foldr Z.add 0 xs ≤ hi * Z.of_nat (length xs))
    by (apply IH; intros; apply Hb; by right).
  lia.
Qed.

(** Whatever [mean] returns is the mean: the exact quotient as an
    [int] when it is integral, and the float nearest to it otherwise. *)
Lemma mean_is_mean (l : list Z) (avg : number) :
  mean l = Ok avg → is_mean avg l.
Proof.
  unfold mean.
  destruct (Z.ltb_spec (len l) 1) as [| Hn]; [done |].
  pose proof (inject_Z_pos (len l) ltac:(lia)) as HN.
  destruct (Z.eqb_spec (sum l mod len l) 0) as [Hmod | Hmod].
  - intros [= <-]. unfold is_mean, arithmetic_mean.
    rewrite <- sum_foldr. fold (len l).
    apply Z.div_exact in Hmod; [| lia]. rewrite Hmod at 2.
    rewrite inject_Z_mult. field. lra.
  - destruct (float_of_fraction _ _) as [f |] eqn:Hf; [| done].
    intros [= <-]. unfold is_mean, arithmetic_mean.
    rewrite <- sum_foldr. fold (len l). split.
    + intros z Hz. apply Hmod.
      assert (inject_Z (sum l) == inject_Z (z * len l))%Q as Heq.
      { rewrite inject_Z_mult, Hz. field. lra. }
      apply (proj1 (inject_Z_injective _ _)) in Heq. rewrite Heq.
      apply Z.mod_mul. lia.
    + apply float_of_fraction_correct; [lia | done].
Qed.

(** A float mean is within half a unit in its last place of the exact
    mean. *)
Lemma mean_half_unit (l : list Z) (f : float) :
  mean l = Ok (PyFloat f) →
  (Qabs (float_to_Q f - arithmetic_mean l) <= (1 # 2) * 2 ^ fexp f)%Q.
Proof.
  unfold mean, arithmetic_mean. rewrite <- sum_foldr. fold (len l).
  destruct (Z.ltb_spec (len l) 1) as [| Hn]; [done |].
  destruct (_ =? 0); [done |].
  destruct (float_of_fraction _ _) as [f' |] eqn:Hf; [| done].
  intros [= <-]. apply float_of_fraction_nearest; [lia | done].
Qed.

(** The mean of integers within [± 2 ^ 53] is returned, and lies
    between any two such bounds of the data. *)
Lemma mean_bounded (l : list Z) (lo hi : Z) :
  l ≠ [] → (∀ x, x ∈ l → lo ≤ x ≤ hi) → - 2 ^ 53 ≤ lo → hi ≤ 2 ^ 53 →
  ∃ avg, mean l = Ok avg
         ∧ (inject_Z lo <= number_to_Q avg)%Q ∧ (number_to_Q avg <= inject_Z hi)%Q.
Proof.
  intros Hne Hb Blo Bhi. unfold mean.
  pose proof (sum_bounds l lo hi Hb) as Hs.
  assert (1 ≤ len l) as Hn by (unfold len; destruct l; [done | simpl; lia]).
  destruct (Z.ltb_spec (len l) 1); [lia |].
  destruct (Z.eqb_spec (sum l mod len l) 0) as [Hmod | Hmod].
  - eexists; split; [done |]. simpl. rewrite <- !Zle_Qle.
    split; [apply Z.div_le_lower_bound | apply Z.div_le_upper_bound]; lia.
  - destruct (float_of_fraction_bounded (sum l) (len l) lo hi)
      as (f & -> & Hlo & Hhi); [lia | lia | done | done |].
    eexists; split; [done |]. done.
Qed.

End Builtins.

(* ===================================================================== *)
(** * [compute_statistics] *)
(* ===================================================================== *)

Lemma len_fmap_length (facts : list Fact) :
  Py.len (fact_length <$> facts) = Z.of_nat (length facts).
Proof. unfold Py.len. by rewrite length_fmap. Qed.

(** Whenever [compute_statistics] returns, the dictionary holds the
    number of facts, the least and the greatest length, and their
    mean. *)
Lemma compute_statistics_returns (facts : list Fact) (st : Statistics) :
  compute_statistics facts = Ok st →
  count st = Z.of_nat (length facts)
  ∧ is_minimum (min_length st) (fact_length <$> facts)
  ∧ is_maximum (max_length st) (fact_length <$> facts)
  ∧ is_mean (avg_length st) (fact_length <$> facts).
Proof.
  unfold compute_statistics.
  destruct (decide (facts = [])) as [-> | Hne]; [done |].
  assert (fact_length <$> facts ≠ []) as Hne' by (by destruct facts).
  destruct (min_spec _ Hne') as (lo & -> & Hlo).
  destruct (max_spec _ Hne') as (hi & -> & Hhi).
  destruct (Py.mean _) as [avg |] eqn:Havg; [| done].
  intros [= <-]. cbn [count min_length max_length avg_length].
  rewrite len_fmap_length.
  split_and!; try done. by apply mean_is_mean.
Qed.

(** Within [± 2 ^ 53] the statistics are returned, the average lies
    between the minimum and the maximum, and it can be printed with two
    decimals. *)
Lemma compute_statistics_in_range (facts : list Fact) :
  facts ≠ [] →
  (∀ f, f ∈ facts → - 2 ^ 53 ≤ fact_length f ≤ 2 ^ 53) →
  ∃ st, compute_statistics facts = Ok st
        ∧ (inject_Z (min_length st) <= Py.number_to_Q (avg_length st))%Q
        ∧ (Py.number_to_Q (avg_length st) <= inject_Z (max_length st))%Q
        ∧ ∃ avg, Py.format_2f (avg_length st) = Ok avg.
Proof.
  intros Hne Hb.
  assert (fact_length <$> facts ≠ []) as Hne' by (by destruct facts).
  destruct (min_spec _ Hne') as (lo & Hmin & Hlo).
  destruct (max_spec _ Hne') as (hi & Hmax & Hhi).
  assert (∀ x, x ∈ fact_length <$> facts → - 2 ^ 53 ≤ x ≤ 2 ^ 53) as Hb'.
  { intros x (f & -> & Hf)%list_elem_of_fmap. by apply Hb. }
  pose proof (Hb' lo (proj1 Hlo)) as Blo. pose proof (Hb' hi (proj1 Hhi)) as Bhi.
  destruct (mean_bounded (fact_length <$> facts) lo hi) as (avg & Havg & Ha1 & Ha2);
    [done | | lia | lia |].
  { intros x Hx. split; [by apply Hlo | by apply Hhi]. }
  exists {| count := Py.len (fact_length <$> facts); min_length := lo;
            max_length := hi; avg_length := avg |}.
  split_and!; try done.
  - unfold compute_statistics. rewrite Hmin, Hmax, Havg. done.
  - simpl. destruct avg as [z | f]; simpl; [| by eexists].
    simpl in Ha1, Ha2. rewrite <- Zle_Qle in Ha1, Ha2.
    destruct (float_of_fraction_bounded z 1 z z) as (f & Hf & _);
      [lia | lia | lia | lia |].
    unfold Py.float_of_int. rewrite Hf. by eexists.
Qed.

(** C1, as amended: for every non-empty fact list whose lengths lie
    within [± 2 ^ 53], [compute_statistics] returns a dictionary in which
    [count] is the length of the list, [min_length] and [max_length] are
    the least and the greatest length, [avg_length] is the arithmetic
    mean (the mean itself, as an [int], when it is integral, and
    otherwise the binary64 float nearest to it, ties to even), and
    [min_length <= avg_length <= max_length]. *)
Theorem compute_statistics_within_2_53 (facts : list Fact) :
  facts ≠ [] →
  (∀ f, f ∈ facts → - 2 ^ 53 ≤ fact_length f ≤ 2 ^ 53) →
  ∃ st, compute_statistics facts = Ok st
        ∧ count st = Z.of_nat (length facts)
        ∧ is_minimum (min_length st) (fact_length <$> facts)
        ∧ is_maximum (max_length st) (fact_length <$> facts)
        ∧ is_mean (avg_length st) (fact_length <$> facts)
        ∧ (inject_Z (min_length st) <= Py.number_to_Q (avg_length st))%Q
        ∧ (Py.number_to_Q (avg_length st) <= inject_Z (max_length st))%Q.
Proof.
  intros Hne Hb.
  destruct (compute_statistics_in_range facts Hne Hb) as (st & Hst & Hlo & Hhi & _).
  destruct (compute_statistics_returns _ _ Hst) as (Hc & Hmin & Hmax & Havg).
  exists st. split_and!; done.
Qed.

(** On the three facts of the scenario the theorem applies. *)
Lemma compute_statistics_within_2_53_witness :
  ∃ st, compute_statistics three_cats = Ok st
        ∧ count st = 3
        ∧ is_minimum (min_length st) [17; 17; 10]
        ∧ is_maximum (max_length st) [17; 17; 10]
        ∧ is_mean (avg_length st) [17; 17; 10]
        ∧ (inject_Z (min_length st) <= Py.number_to_Q (avg_length st))%Q
        ∧ (Py.number_to_Q (avg_length st) <= inject_Z (max_length st))%Q.
Proof.
  apply (compute_statistics_within_2_53 three_cats).
  - discriminate.
  - intros f Hf. unfold three_cats in Hf.
    repeat (apply elem_of_cons in Hf as [-> | Hf]; [simpl; lia |]).
    by apply elem_of_nil in Hf.
Defined.

(** C1, as stated, fails for lengths beyond [2 ^ 54]: the mean of
    [2 ^ 54 + 1] and [2 ^ 54 + 2] rounds to the float [2 ^ 54], which is
    below the minimum. *)
Lemma compute_statistics_avg_below_min :
  ∃ st, compute_statistics two_huge = Ok st
        ∧ min_length st = 2 ^ 54 + 1
        ∧ Py.number_to_Q (avg_length st) == inject_Z (2 ^ 54)
        ∧ ¬ (inject_Z (min_length st) <= Py.number_to_Q (avg_length st))%Q.
Proof.
  eexists. split; [vm_compute; reflexivity |]. simpl.
  split_and!; [done | done |].
  unfold Qle. simpl. lia.
Qed.

(** C8: on a list of one fact, [count] is 1 and [min_length],
    [max_length] and [avg_length] all are the length of that fact. *)
Theorem compute_statistics_single (f : Fact) :
  compute_statistics [f]
  = Ok {| count := 1; min_length := fact_length f; max_length := fact_length f;
          avg_length := Py.PyInt (fact_length f) |}.
Proof.
  unfold compute_statistics, Py.mean, Py.sum, Py.len. simpl.
  rewrite Z.mod_1_r, Z.div_1_r. done.
Qed.

(** C9: on the empty list [compute_statistics] returns no dictionary:
    [min] of the empty list of lengths raises [ValueError]. *)
Theorem compute_statistics_empty :
  Py.min (fact_length <$> []) = Raise ValueError
  ∧ compute_statistics [] = Raise ValueError
  ∧ ∀ st, compute_statistics [] ≠ Ok st.
Proof. split_and!; done. Qed.

(** C7: on the three facts of the scenario the statistics are
    [count = 3], [min_length = 10], [max_length = 17] and [avg_length] the
    float nearest to [44 / 3], which is not [14.67]; [main] prints it
    rounded to two decimals, as [14.67]. *)
Theorem scenario_three_cats :
  load_facts (data_path app_script) (app_world three_cats_json)
    = (Ok (facts_to_json three_cats), app_world three_cats_json)
  ∧ compute_statistics three_cats
    = Ok {| count := 3; min_length := 10; max_length := 17;
            avg_length := Py.PyFloat (Py.Float 8256599316845909 (-49)) |}
  ∧ (Qabs (Py.float_to_Q (Py.Float 8256599316845909 (-49)) - (44 # 3))
       <= (1 # 2) * 2 ^ (-49))%Q
  ∧ ¬ (Py.float_to_Q (Py.Float 8256599316845909 (-49)) == 1467 # 100)%Q
  ∧ Py.format_2f (Py.PyFloat (Py.Float 8256599316845909 (-49))) = Ok "14.67"
  ∧ stdout (main app_script (app_world three_cats_json)).2
    = [ header;
        "1. Cats sleep a lot. (Length: 17)";
        "2. Cats have claws. (Length: 17)";
        "3. Cats purr. (Length: 10)";
        nl +:+ "Statistics:";
        "Total facts: 3";
        "Shortest fact length: 10";
        "Longest fact length: 17";
        "Average fact length: 14.67";
        nl +:+ "Histogram saved to /app/output/cat_fact_length_hist.png" ].
Proof.
  split_and!.
  - vm_compute. reflexivity.
  - vm_compute. reflexivity.
  - vm_compute. discriminate.
  - vm_compute. discriminate.
  - vm_compute. reflexivity.
  - vm_compute. reflexivity.
Qed.

(* ===================================================================== *)
(** * The preview of [main] *)
(* ===================================================================== *)

Lemma add_stdout_nil (w : world) : add_stdout [] w = w.
Proof. destruct w. unfold add_stdout; simpl. by rewrite app_nil_r. Qed.

Lemma add_stdout_app (l1 l2 : list string) (w : world) :
  add_stdout l2 (add_stdout l1 w) = add_stdout (l1 ++ l2) w.
Proof. unfold add_stdout; simpl. by rewrite app_assoc. Qed.

Lemma print_run (s : string) (w : world) : print s w = (Ok (), add_stdout [s] w).
Proof. done. Qed.

(** A loop whose body prints one line per element prints them all, in
    order, and does not raise. *)
Lemma for_each_print {A} (l : list A) (body : A → M unit) (line : A → string) :
  (∀ x w, body x w = (Ok (), add_stdout [line x] w)) →
  ∀ w, for_each l body w = (Ok (), add_stdout (line <$> l) w).
Proof.
  intros Hbody. induction l as [| x xs IH]; intros w; simpl.
  - by rewrite add_stdout_nil.
  - unfold mbind, St_bind. rewrite Hbody, IH, add_stdout_app. done.
Qed.

Lemma enumerate_length {A} (l : list A) (start : Z) :
  length (enumerate l start) = length l.
Proof. revert start. induction l; intros; simpl; [done | by rewrite IHl]. Qed.

Lemma enumerate_lookup {A} (l : list A) (start : Z) (i : nat) :
  enumerate l start !! i = (λ x, (start + Z.of_nat i, x)) <$> l !! i.
Proof.
  revert start i. induction l as [| x xs IH]; intros start [| i]; simpl; try done.
  - by rewrite Z.add_0_r.
  - rewrite IH. destruct (xs !! i); simpl; [| done]. do 2 f_equal. lia.
Qed.

(** The preview has [min N 5] lines; line [i] is for the fact at
    position [i], numbered [i + 1]. *)
Lemma preview_length (facts : list Fact) :
  length (preview facts) = Nat.min (length facts) 5.
Proof.
  unfold preview. rewrite length_fmap, enumerate_length, length_take. lia.
Qed.

Lemma preview_lookup (facts : list Fact) (i : nat) (f : Fact) :
  facts !! i = Some f → (i < 5)%nat →
  preview facts !! i = Some (fact_line (Z.of_nat i + 1) f).
Proof.
  intros Hf Hi. unfold preview.
  rewrite list_lookup_fmap, enumerate_lookup, lookup_take_lt, Hf by lia.
  simpl. do 2 f_equal. lia.
Qed.

(** The numerals of the preview: the index is one of the digits [1] to
    [5], and [str] of an int reads back as that int. *)
Lemma str_int_index (i : nat) :
  (i < 5)%nat → Py.str_int (Z.of_nat i + 1) = preview_number i.
Proof.
  intros Hi. do 5 (destruct i as [| i]; [reflexivity |]). lia.
Qed.

Lemma str_int_parse (z : Z) :
  NilZero.int_of_string (Py.str_int z) = Some (Z.to_int z).
Proof.
  unfold Py.str_int. apply NilZero.isi.
  - destruct z as [| p | p]; simpl; try done.
    intros [= Hp]. by apply (Unsigned.to_uint_nonnil p).
  - destruct z as [| p | p]; simpl; try done.
    intros [= Hp]. by apply (Unsigned.to_uint_nonnil p).
Qed.

(* ===================================================================== *)
(** * Paths *)
(* ===================================================================== *)

Section Paths.

Import Os.

Lemma append_cons (c : ascii) (a b : string) :
  String c a +:+ b = String c (a +:+ b).
Proof. done. Qed.

Lemma append_assoc (a b c : string) : (a +:+ b) +:+ c = a +:+ (b +:+ c).
Proof. induction a as [| x a IH]; [done |]. by rewrite !append_cons, IH. Qed.

Lemma join_output (dir : string) :
  ∃ prefix, join dir "output" = prefix +:+ "output".
Proof.
  unfold join. simpl starts_with_slash. cbv iota.
  destruct (_ || _).
  - by exists dir.
  - exists (dir +:+ "/"). by rewrite append_assoc.
Qed.

Lemma ends_with_slash_output (prefix : string) :
  ends_with_slash (prefix +:+ "output") = false.
Proof.
  induction prefix as [| c rest IH]; [done |].
  rewrite append_cons. simpl. rewrite IH. by destruct rest.
Qed.

Lemma append_output_nonempty (prefix : string) : prefix +:+ "output" ≠ "".
Proof. by destruct prefix. Qed.

Lemma join_file (prefix : string) :
  join (prefix +:+ "output") "cat_fact_length_hist.png"
  = prefix +:+ "output/cat_fact_length_hist.png".
Proof.
  unfold join. simpl starts_with_slash. cbv iota.
  rewrite ends_with_slash_output.
  replace (String.eqb (prefix +:+ "output") "") with false
    by (symmetry; apply String.eqb_neq, append_output_nonempty).
  simpl orb. cbv iota. by rewrite append_assoc.
Qed.

Lemma upto_last_slash_file (prefix : string) :
  upto_last_slash (prefix +:+ "output/cat_fact_length_hist.png")
  = prefix +:+ "output/".
Proof.
  induction prefix as [| c rest IH]; [done |].
  rewrite append_cons. simpl. rewrite IH. by destruct rest.
Qed.

Lemma all_slashes_output (prefix : string) :
  all_slashes (prefix +:+ "output/") = false.
Proof.
  induction prefix as [| c rest IH]; [done |].
  rewrite append_cons. simpl. rewrite IH. apply andb_false_r.
Qed.

Lemma rstrip_slash_output (prefix : string) :
  rstrip_slash (prefix +:+ "output/") = prefix +:+ "output".
Proof.
  induction prefix as [| c rest IH]; [done |].
  rewrite append_cons. simpl. rewrite IH. by destruct rest.
Qed.

(** The image lies directly in the output directory. *)
Lemma dirname_image_path (script : string) :
  dirname (image_path script) = output_dir script.
Proof.
  unfold image_path, output_dir.
  destruct (join_output (current_dir script)) as [prefix ->].
  rewrite join_file. unfold dirname.
  rewrite upto_last_slash_file, all_slashes_output, rstrip_slash_output. done.
Qed.

Lemma output_dir_nonempty (script : string) : output_dir script ≠ "".
Proof.
  unfold output_dir.
  destruct (join_output (current_dir script)) as [prefix ->].
  apply append_output_nonempty.
Qed.

Lemma append_length (a b : string) :
  String.length (a +:+ b) = (String.length a + String.length b)%nat.
Proof. induction a; [done |]. rewrite append_cons. simpl. by rewrite IHa. Qed.

Lemma image_path_not_output_dir (script : string) :
  image_path script ≠ output_dir script.
Proof.
  unfold image_path, output_dir.
  destruct (join_output (current_dir script)) as [prefix ->].
  rewrite join_file. intros Heq.
  apply (f_equal String.length) in Heq. rewrite !append_length in Heq.
  simpl in Heq. lia.
Qed.

Lemma has_slash_app (p s : string) :
  has_slash s = true → has_slash (p +:+ s) = true.
Proof.
  intros Hs. induction p as [| c p IH]; [done |].
  rewrite append_cons. simpl. rewrite IH. apply orb_true_r.
Qed.

Lemma after_last_slash_app (p s : string) :
  has_slash s = true → after_last_slash (p +:+ s) = after_last_slash s.
Proof.
  intros Hs. induction p as [| c p IH]; [done |].
  rewrite append_cons. simpl. rewrite (has_slash_app p s Hs), orb_true_r. done.
Qed.

(** The image path ends in [.png], so that [savefig] writes the image
    there, as a PNG. *)
Lemma target_image_path (script : string) :
  Plt.target (image_path script) = Some (image_path script).
Proof.
  unfold image_path, output_dir.
  destruct (join_output (current_dir script)) as [prefix ->].
  rewrite join_file. unfold Plt.target, extension.
  rewrite after_last_slash_app by done. done.
Qed.

End Paths.
(* ===================================================================== *)
(** * The bin edges: [linspace] in binary64 *)
(* ===================================================================== *)

Section BinEdges.

Import Py.

(** The data lies strictly within [± 2 ^ k]; errors are measured in
    units of [2 ^ (k - 56)]. *)
Variable k : Z.
Hypothesis k_range : 0 ≤ k ≤ 45.

Local Abbreviation P := (2 ^ (k - 56))%Q.

Lemma unit_pos : (0 < P)%Q.
Proof. apply pow2_Q_pos. Qed.

Lemma unit_small : (P <= 1 # 2048)%Q.
Proof. change (1 # 2048)%Q with (2 ^ (-11))%Q. apply pow2_Q_le. lia. Qed.

Lemma pow2_units (t : Z) : 0 ≤ t → (2 ^ (k - 56 + t) == inject_Z (2 ^ t) * P)%Q.
Proof.
  intros Ht. rewrite pow2_Q_plus, (pow2_Q_Z t) by done. ring.
Qed.

(** Rounding a value below [2 ^ (k - 56 + t)] in magnitude errs by at
    most [2 ^ (t - 54)] units. *)
Lemma round_units (q : Q) (t : Z) :
  54 ≤ t ≤ 64 →
  (- (inject_Z (2 ^ t) * P) < q)%Q → (q < inject_Z (2 ^ t) * P)%Q →
  ∃ f, round q = Some f
       ∧ correctly_rounded f q
       ∧ (- (inject_Z (2 ^ (t - 54)) * P) <= float_to_Q f - q)%Q
       ∧ (float_to_Q f - q <= inject_Z (2 ^ (t - 54)) * P)%Q.
Proof.
  intros Ht Hlo Hhi.
  destruct (round_error q (k - 56 + t)) as (f & Hf & Hcr & Herr).
  - unfold emin. lia.
  - rewrite pow2_units by lia. apply Qabs_Qlt_condition. done.
  - exists f. split_and!; [done | done | |];
      replace (k - 56 + t - 54) with (k - 56 + (t - 54)) in Herr by lia;
      rewrite pow2_units in Herr by lia;
      apply Qabs_le_cases in Herr as [H1 H2]; done.
Qed.

Lemma round_units_exact (q : Q) (g : float) :
  representable g → (float_to_Q g == q)%Q →
  (- (inject_Z (2 ^ 64) * P) < q)%Q → (q < inject_Z (2 ^ 64) * P)%Q →
  ∃ f, round q = Some f ∧ correctly_rounded f q ∧ (float_to_Q f == q)%Q.
Proof.
  intros Hg Hgq Hlo Hhi.
  apply (round_exact q g (k - 56 + 64)); [done | done | unfold emin; lia |].
  rewrite pow2_units by lia. apply Qabs_Qlt_condition. done.
Qed.

Lemma float_zero (f : float) : fmant f = 0 → (float_to_Q f == 0)%Q.
Proof. destruct f as [m e]. simpl. intros ->. rewrite float_to_Q_scale. ring. Qed.

Lemma correctly_rounded_representable (f : float) (q : Q) :
  correctly_rounded f q → representable f.
Proof. by intros [[Hr _] _]. Qed.

Ltac units :=
  change (inject_Z (2 ^ 64)) with (18446744073709551616 # 1)%Q in *;
  change (inject_Z (2 ^ 57)) with (144115188075855872 # 1)%Q in *;
  change (inject_Z (2 ^ 56)) with (72057594037927936 # 1)%Q in *;
  change (inject_Z (2 ^ 54)) with (18014398509481984 # 1)%Q in *;
  change (inject_Z (2 ^ (57 - 54))) with (8 # 1)%Q in *;
  change (inject_Z (2 ^ (54 - 54))) with (1 # 1)%Q in *;
  repeat match goal with
         | |- context [float_to_Q ?f] =>
             let v := fresh "v" in set (v := float_to_Q f) in *; clearbody v
         | H : context [float_to_Q ?f] |- _ =>
             let v := fresh "v" in set (v := float_to_Q f) in *; clearbody v
         end;
  let p := fresh "p" in set (p := (2 ^ (k - 56))%Q) in *; clearbody p;
  repeat match goal with
         | H : ?T |- _ =>
             lazymatch type of T with
             | Prop =>
                 lazymatch T with
                 | Qle _ _ => fail
                 | Qlt _ _ => fail
                 | Qeq _ _ => fail
                 | _ => clear H
                 end
             | _ => fail
             end
         end;
  lra.

Lemma point_zero (start delta step : float) :
  representable start →
  ends_ok k (float_to_Q start) (float_to_Q delta) (float_to_Q step) →
  ∃ e, Numpy.point start delta step 10 0 = Some e
       ∧ (float_to_Q e == float_to_Q start)%Q.
Proof.
  intros Hrep (HA1 & HA2 & HW & HS1 & HS2).
  pose proof unit_pos as HP. pose proof unit_small as HP'.
  unfold Numpy.point.
  destruct (Z.eqb_spec (fmant step) 0) as [Hz | _].
  { apply float_zero in Hz. rewrite Hz in HS1. exfalso. units. }
  change (inject_Z (Z.of_nat 0)) with 0%Q.
  destruct (round_units_exact (0 * float_to_Q step) (Float 0 0))
    as (y & -> & _ & Hy).
  { unfold representable, emin, emax, prec. simpl. lia. }
  { change (float_to_Q (Float 0 0)) with 0%Q. ring. }
  { units. }
  { units. }
  cbn [mbind option_bind]. unfold fadd.
  destruct (round_units_exact (float_to_Q y + float_to_Q start) start)
    as (e & -> & _ & He).
  { done. }
  { rewrite Hy. ring. }
  { rewrite Hy. units. }
  { rewrite Hy. units. }
  exists e. split; [done |]. rewrite He, Hy. ring.
Qed.

(** Point [i] of [linspace] is within 25 units of its exact place. *)
Lemma point_error (start delta step : float) (i : nat) :
  (1 ≤ i ≤ 9)%nat →
  ends_ok k (float_to_Q start) (float_to_Q delta) (float_to_Q step) →
  ∃ e, Numpy.point start delta step 10 i = Some e
       ∧ (- (25 * P)
          <= float_to_Q e
             - (float_to_Q start
                + inject_Z (Z.of_nat i) * float_to_Q delta * (1 # 10)))%Q
       ∧ (float_to_Q e
          - (float_to_Q start
             + inject_Z (Z.of_nat i) * float_to_Q delta * (1 # 10))
          <= 25 * P)%Q.
Proof.
  intros Hi (HA1 & HA2 & HW & HS1 & HS2).
  pose proof unit_pos as HP. pose proof unit_small as HP'.
  unfold Numpy.point.
  destruct (Z.eqb_spec (fmant step) 0) as [Hz | _].
  { apply float_zero in Hz. rewrite Hz in HS1. exfalso. units. }
  assert (∃ c : Z, 1 ≤ c ≤ 9 ∧ inject_Z (Z.of_nat i) = inject_Z c) as (c & Hc & ->)
    by (exists (Z.of_nat i); split; [lia | done]).
  clear Hi.
  assert (c = 1 ∨ c = 2 ∨ c = 3 ∨ c = 4 ∨ c = 5 ∨ c = 6 ∨ c = 7 ∨ c = 8 ∨ c = 9)
    as Hcases by lia.
  clear Hc.
  repeat destruct Hcases as [-> | Hcases]; try subst c.
  all: match goal with
       | |- context [inject_Z ?n] =>
           let v := eval compute in (inject_Z n) in change (inject_Z n) with v
       end.
  all: match goal with
       | |- context [round (?I * float_to_Q ?s)] =>
           destruct (round_units (I * float_to_Q s) 57) as (y & -> & _ & Hy1 & Hy2);
           [lia | units | units |]
       end.
  all: cbn [mbind option_bind]; unfold fadd.
  all: destruct (round_units (float_to_Q y + float_to_Q start) 57)
         as (e & -> & _ & He1 & He2); [lia | units | units |].
  all: exists e; split; [done |]; split; units.
Qed.

(** [linspace] from [start] to [stop] in ten steps: the eleven points
    are there, the first one is [start], the last one is [stop], each
    one is within 25 units of its exact place, and each one is below the
    next. *)
Lemma linspace_edges (start stop g : float) :
  representable start →
  representable g → (float_to_Q g == float_to_Q stop - float_to_Q start)%Q →
  (- (inject_Z (2 ^ 56) * P) <= float_to_Q start)%Q →
  (float_to_Q stop <= inject_Z (2 ^ 56) * P)%Q →
  (1 <= float_to_Q stop - float_to_Q start)%Q →
  ∃ es, Numpy.linspace start stop 10 = Some es
        ∧ length es = 11%nat
        ∧ (∃ e, es !! 0%nat = Some e ∧ (float_to_Q e == float_to_Q start)%Q)
        ∧ es !! 10%nat = Some stop
        ∧ (∀ i e, es !! i = Some e →
             (Qabs (float_to_Q e
                    - (float_to_Q start
                       + inject_Z (Z.of_nat i)
                         * (float_to_Q stop - float_to_Q start) / 10))
              <= 25 * P)%Q)
        ∧ Numpy.increasing es = true.
Proof.
  intros Hrep Hg Hgv HA HB HW.
  pose proof unit_pos as HP. pose proof unit_small as HP'.
  unfold Numpy.linspace, fsub.
  destruct (round_units_exact (float_to_Q stop - float_to_Q start) g)
    as (delta & -> & _ & Hdelta); [done | done | units | units |].
  cbn [mbind option_bind].
  change (inject_Z (Z.of_nat 10)) with 10%Q.
  destruct (round_units (float_to_Q delta / 10) 54)
    as (step & -> & _ & Hs1 & Hs2).
  { lia. }
  { rewrite Hdelta. unfold Qdiv. change (/ 10)%Q with (1 # 10)%Q. units. }
  { rewrite Hdelta. unfold Qdiv. change (/ 10)%Q with (1 # 10)%Q. units. }
  cbn [mbind option_bind].
  assert (ends_ok k (float_to_Q start) (float_to_Q delta) (float_to_Q step)) as Hok.
  { unfold Qdiv in Hs1, Hs2. change (/ 10)%Q with (1 # 10)%Q in Hs1, Hs2.
    unfold ends_ok. rewrite Hdelta in *. split_and!; units. }
  destruct (point_zero start delta step Hrep Hok) as (e0 & He0 & Hv0).
  destruct (point_error start delta step 1 ltac:(lia) Hok) as (e1 & He1 & H1a & H1b).
  destruct (point_error start delta step 2 ltac:(lia) Hok) as (e2 & He2 & H2a & H2b).
  destruct (point_error start delta step 3 ltac:(lia) Hok) as (e3 & He3 & H3a & H3b).
  destruct (point_error start delta step 4 ltac:(lia) Hok) as (e4 & He4 & H4a & H4b).
  destruct (point_error start delta step 5 ltac:(lia) Hok) as (e5 & He5 & H5a & H5b).
  destruct (point_error start delta step 6 ltac:(lia) Hok) as (e6 & He6 & H6a & H6b).
  destruct (point_error start delta step 7 ltac:(lia) Hok) as (e7 & He7 & H7a & H7b).
  destruct (point_error start delta step 8 ltac:(lia) Hok) as (e8 & He8 & H8a & H8b).
  destruct (point_error start delta step 9 ltac:(lia) Hok) as (e9 & He9 & H9a & H9b).
  exists [e0; e1; e2; e3; e4; e5; e6; e7; e8; e9; stop].
  repeat match goal with
         | H : context [inject_Z (Z.of_nat ?n)] |- _ =>
             let v := eval compute in (inject_Z (Z.of_nat n)) in
             change (inject_Z (Z.of_nat n)) with v in H
         end.
  rewrite Hdelta in *. clear Hok.
  split_and!.
  - change (seq 0 10) with [0; 1; 2; 3; 4; 5; 6; 7; 8; 9]%nat.
    cbn [mapM]. rewrite He0, He1, He2, He3, He4, He5, He6, He7, He8, He9.
    reflexivity.
  - done.
  - by exists e0.
  - done.
  - intros i e Hi. unfold Qdiv. change (/ 10)%Q with (1 # 10)%Q.
    apply Qabs_le_cases.
    do 11 (destruct i as [| i];
           [ injection Hi as <-;
             match goal with
             | |- context [inject_Z (Z.of_nat ?n)] =>
                 let v := eval compute in (inject_Z (Z.of_nat n)) in
                 change (inject_Z (Z.of_nat n)) with v
             end; split; units |]).
    done.
  - cbn [Numpy.increasing]. unfold flt, fle.
    repeat (apply andb_true_intro; split);
      try (apply negb_true_iff, not_true_iff_false; intros Hle;
           apply Qle_bool_iff in Hle; units).
    done.
Qed.

End BinEdges.
(* ===================================================================== *)
(** * The histogram *)
(* ===================================================================== *)

Section Bins.

(** Bins with increasing edges [E 0 < E 1 < ... < E n] part the values
    from [E 0] to [E n]: every value is in exactly one bin. *)
Lemma edges_monotone (E : nat → Q) (n i j : nat) :
  (∀ i, (i < n)%nat → (E i < E (S i))%Q) →
  (i ≤ j ≤ n)%nat → (E i <= E j)%Q.
Proof.
  intros Hinc [Hij Hjn]. induction j as [| j IH].
  - replace i with 0%nat by lia. lra.
  - destruct (decide (i = S j)) as [-> | Hne]; [lra |].
    pose proof (Hinc j ltac:(lia)). pose proof (IH ltac:(lia) ltac:(lia)). lra.
Qed.

Lemma find_bin (E : nat → Q) (n : nat) (x : Q) (j : nat) :
  (1 ≤ j ≤ n)%nat → (E 0%nat <= x)%Q →
  (x < E j)%Q ∨ (j = n ∧ (x <= E j)%Q) →
  ∃ i, (i < j)%nat ∧ in_range E n i x.
Proof.
  intros Hj H0. induction j as [| j IH]; [lia |]. intros Hx.
  destruct (decide (j = 0%nat)) as [-> | Hj0].
  - exists 0%nat. split; [lia |]. split; [done |].
    destruct (Nat.eqb_spec 1 n); destruct Hx as [? | [? ?]]; (done || lra || lia).
  - destruct (Qlt_le_dec x (E j)) as [Hlt | Hge].
    + destruct IH as (i & Hi & Hr); [lia | by left |]. exists i. split; [lia | done].
    + exists j. split; [lia |]. split; [done |].
      destruct (Nat.eqb_spec (S j) n); destruct Hx as [? | [? ?]]; (done || lra || lia).
Qed.

Lemma bins_partition (E : nat → Q) (n : nat) (x : Q) :
  (∀ i, (i < n)%nat → (E i < E (S i))%Q) → (0 < n)%nat →
  (E 0%nat <= x)%Q → (x <= E n)%Q →
  ∃ i, ((i < n)%nat ∧ in_range E n i x)
       ∧ ∀ j, (j < n)%nat → in_range E n j x → j = i.
Proof.
  intros Hinc Hn H0 Hx.
  destruct (find_bin E n x n) as (i & Hi & Hr); [lia | done | by right |].
  exists i. split; [done |].
  intros j Hj [Hj1 Hj2]. destruct Hr as [Hi1 Hi2].
  destruct (Nat.lt_trichotomy i j) as [Hlt | [-> | Hgt]]; [exfalso | done | exfalso].
  - destruct (Nat.eqb_spec (S i) n); [lia |].
    pose proof (edges_monotone E n (S i) j Hinc ltac:(lia)). lra.
  - destruct (Nat.eqb_spec (S j) n); [lia |].
    pose proof (edges_monotone E n (S j) i Hinc ltac:(lia)). lra.
Qed.

End Bins.

Section BarHeights.

Lemma sum_list_zero (l : list nat) (b : nat → bool) :
  (∀ j, j ∈ l → b j = false) →
  sum_list ((λ j, if b j then 1 else 0)%nat <$> l) = 0%nat.
Proof.
  induction l as [| j l IH]; intros Hall; [done |].
  rewrite fmap_cons. simpl. rewrite (Hall j) by left.
  rewrite IH; [done |]. intros k Hk. apply Hall. by right.
Qed.

Lemma sum_list_indicator (l : list nat) (b : nat → bool) (i : nat) :
  NoDup l → i ∈ l → b i = true →
  (∀ j, j ∈ l → b j = true → j = i) →
  sum_list ((λ j, if b j then 1 else 0)%nat <$> l) = 1%nat.
Proof.
  induction l as [| j l IH]; intros Hnd Hi Hbi Huniq.
  { by apply elem_of_nil in Hi. }
  apply NoDup_cons in Hnd as [Hj Hnd]. rewrite fmap_cons. simpl.
  apply elem_of_cons in Hi as [<- | Hi].
  - rewrite Hbi, sum_list_zero; [done |].
    intros k Hk. destruct (b k) eqn:Hbk; [| done].
    assert (k = i) as -> by (apply Huniq; [by right | done]). done.
  - destruct (b j) eqn:Hbj.
    + assert (j = i) as -> by (apply Huniq; [left | done]). done.
    + simpl. apply IH; try done. intros k Hk. apply Huniq. by right.
Qed.

Lemma sum_list_fmap_plus (l : list nat) (f g : nat → nat) :
  sum_list ((λ i, f i + g i)%nat <$> l)
  = (sum_list (f <$> l) + sum_list (g <$> l))%nat.
Proof. induction l as [| i l IH]; [done |]. rewrite !fmap_cons. simpl. lia. Qed.

Lemma length_filter_cons (p : Z → bool) (x : Z) (xs : list Z) :
  length (filter (λ y, p y = true) (x :: xs))
  = ((if p x then 1 else 0) + length (filter (λ y, p y = true) xs))%nat.
Proof.
  rewrite filter_cons. destruct (decide (p x = true)) as [Hp | Hp].
  - by rewrite Hp.
  - by destruct (p x).
Qed.

(** When every value lies in exactly one of [n] classes, the sizes of
    the classes add up to the number of values. *)
Lemma class_sizes_total (p : nat → Z → bool) (n : nat) (data : list Z) :
  (∀ x, x ∈ data →
        ∃ i, ((i < n)%nat ∧ p i x = true)
             ∧ ∀ j, (j < n)%nat → p j x = true → j = i) →
  sum_list ((λ i, length (filter (λ x, p i x = true) data)) <$> seq 0 n)
  = length data.
Proof.
  induction data as [| x xs IH]; intros Hpart.
  - simpl. apply (sum_list_zero _ (λ _, false)). done.
  - erewrite (list_fmap_ext _ (λ i, ((if p i x then 1 else 0)
                + length (filter (λ y, p i y = true) xs))%nat));
      [| intros i j _; apply length_filter_cons].
    rewrite sum_list_fmap_plus, IH.
    2: { intros y Hy. apply Hpart. by right. }
    destruct (Hpart x ltac:(left)) as (i & [Hi Hpi] & Huniq).
    rewrite (sum_list_indicator (seq 0 n) (λ j, p j x) i); [done | | | done |].
    + apply NoDup_seq.
    + apply elem_of_seq. lia.
    + intros j Hj. apply Huniq. apply elem_of_seq in Hj. lia.
Qed.

Lemma filter_length_ext (p q : Z → bool) (data : list Z) :
  (∀ x, x ∈ data → p x = q x) →
  length (filter (λ x, p x = true) data) = length (filter (λ x, q x = true) data).
Proof.
  induction data as [| x xs IH]; intros Hext; [done |].
  rewrite !length_filter_cons, (Hext x) by left.
  rewrite IH; [done |]. intros y Hy. apply Hext. by right.
Qed.

End BarHeights.
(* ===================================================================== *)
(** * The histogram of the lengths *)
(* ===================================================================== *)

Section LengthHistogram.

Import Py.

(** An int within [± 2 ^ 53] is a float. *)
Lemma float_of_int_exact (z : Z) :
  - 2 ^ 53 ≤ z ≤ 2 ^ 53 →
  ∃ f, float_of_int z = Some f
       ∧ (float_to_Q f == inject_Z z)%Q ∧ representable f.
Proof.
  intros Hz. unfold float_of_int.
  destruct (float_of_fraction_bounded z 1 z z) as (f & Hf & H1 & H2);
    [lia | lia | lia | lia |].
  exists f. split_and!; [done | lra |].
  apply float_of_fraction_correct in Hf; [| done].
  by destruct Hf as [[Hr _] _].
Qed.

Lemma half_value : (float_to_Q Numpy.half == 1 # 2)%Q.
Proof. reflexivity. Qed.

Lemma increasing_lookup (es : list float) (i : nat) (a b : float) :
  Numpy.increasing es = true → es !! i = Some a → es !! S i = Some b →
  (float_to_Q a < float_to_Q b)%Q.
Proof.
  revert i. induction es as [| x rest IH]; intros i Hinc Ha Hb; [done |].
  destruct rest as [| y rest']; [done |].
  cbn [Numpy.increasing] in Hinc. apply andb_true_iff in Hinc as [Hxy Hinc].
  destruct i as [| i].
  - injection Ha as <-. injection Hb as <-.
    unfold flt, fle in Hxy. apply negb_true_iff, not_true_iff_false in Hxy.
    rewrite Qle_bool_iff in Hxy. lra.
  - by apply (IH i).
Qed.

Variable k : Z.
Hypothesis k_range : 0 ≤ k ≤ 45.

Local Abbreviation P := (2 ^ (k - 56))%Q.

Lemma bound_units (x : Z) :
  - 2 ^ k < x < 2 ^ k →
  (- (inject_Z (2 ^ 56) * P) + 1 <= inject_Z x)%Q
  ∧ (inject_Z x + 1 <= inject_Z (2 ^ 56) * P)%Q.
Proof.
  intros [H1 H2].
  assert (inject_Z (2 ^ 56) * P == inject_Z (2 ^ k))%Q as ->.
  { rewrite <- (pow2_units k 56), <- pow2_Q_Z by lia.
    replace (k - 56 + 56) with k by lia. reflexivity. }
  change 1%Q with (inject_Z 1).
  rewrite <- inject_Z_opp, <- !inject_Z_plus, <- !Zle_Qle. lia.
Qed.

Lemma tolerance_units : (2 ^ (k - 51) == 32 * P)%Q.
Proof.
  replace (k - 51) with (k - 56 + 5) by lia. rewrite (pow2_units k 5) by lia.
  reflexivity.
Qed.

Ltac units :=
  change (inject_Z (2 ^ 64)) with (18446744073709551616 # 1)%Q in *;
  change (inject_Z (2 ^ 56)) with (72057594037927936 # 1)%Q in *;
  repeat match goal with
         | |- context [float_to_Q ?f] =>
             let v := fresh "v" in set (v := float_to_Q f) in *; clearbody v
         | H : context [float_to_Q ?f] |- _ =>
             let v := fresh "v" in set (v := float_to_Q f) in *; clearbody v
         | |- context [inject_Z ?f] =>
             let v := fresh "v" in set (v := inject_Z f) in *; clearbody v
         | H : context [inject_Z ?f] |- _ =>
             let v := fresh "v" in set (v := inject_Z f) in *; clearbody v
         end;
  let p := fresh "p" in set (p := (2 ^ (k - 56))%Q) in *; clearbody p;
  repeat match goal with
         | H : ?T |- _ =>
             lazymatch type of T with
             | Prop =>
                 lazymatch T with
                 | Qle _ _ => fail
                 | Qlt _ _ => fail
                 | Qeq _ _ => fail
                 | _ => clear H
                 end
             | _ => fail
             end
         end;
  lra.

(** The range of the bins, as numpy computes it in floats, is the range
    of the data, widened by one half on either side when the data has a
    single value; nothing is lost to rounding. *)
Lemma outer_edges_spec (data : list Z) (lo hi : Z) :
  is_minimum lo data → is_maximum hi data →
  (∀ x, x ∈ data → - 2 ^ k < x < 2 ^ k) →
  ∃ first last g,
    Numpy.outer_edges data = Some (first, last)
    ∧ representable first
    ∧ (float_to_Q first == (bin_range lo hi).1)%Q
    ∧ (float_to_Q last == (bin_range lo hi).2)%Q
    ∧ representable g
    ∧ (float_to_Q g == float_to_Q last - float_to_Q first)%Q.
Proof.
  intros Hlo Hhi Hb. destruct data as [| x xs].
  { destruct Hlo as [Hin _]. by apply elem_of_nil in Hin. }
  unfold Numpy.outer_edges, Numpy.list_min, Numpy.list_max.
  rewrite <- (minimum_unique _ _ _ Hlo (fold_min_spec xs x)).
  rewrite <- (maximum_unique _ _ _ Hhi (fold_max_spec xs x)).
  pose proof (Hb lo (proj1 Hlo)) as Blo. pose proof (Hb hi (proj1 Hhi)) as Bhi.
  assert (lo ≤ hi) as Hlh by (apply Hlo, Hhi).
  assert (2 ^ k ≤ 2 ^ 45) as Hk45 by (apply Z.pow_le_mono_r; lia).
  change (2 ^ 45) with 35184372088832 in Hk45.
  destruct (float_of_int_exact lo ltac:(lia)) as (flo & -> & Hflo & Rlo).
  destruct (float_of_int_exact hi ltac:(lia)) as (fhi & -> & Hfhi & Rhi).
  cbn [mbind option_bind].
  pose proof (bound_units lo Blo) as [Ulo1 Ulo2].
  pose proof (bound_units hi Bhi) as [Uhi1 Uhi2].
  pose proof (unit_pos k) as HP.
  unfold bin_range. destruct (Z.eqb_spec lo hi) as [<- | Hne].
  - unfold fsub, fadd.
    destruct (round_units_exact k k_range (float_to_Q flo - float_to_Q Numpy.half)
                (Float (2 * lo - 1) (-1))) as (first & -> & Hcr1 & Hfirst).
    { unfold representable, emin, emax, prec. cbn [fmant fexp]. lia. }
    { rewrite float_to_Q_scale, Hflo, half_value.
      unfold Z.sub. rewrite inject_Z_plus, inject_Z_mult.
      change (inject_Z 2) with 2%Q. change (inject_Z (- (1))) with (- (1))%Q.
      change (2 ^ (-1))%Q with (1 # 2)%Q. ring. }
    { rewrite Hflo, half_value. units. }
    { rewrite Hflo, half_value. units. }
    cbn [mbind option_bind].
    destruct (round_units_exact k k_range (float_to_Q fhi + float_to_Q Numpy.half)
                (Float (2 * lo + 1) (-1))) as (last & -> & Hcr2 & Hlast).
    { unfold representable, emin, emax, prec. cbn [fmant fexp]. lia. }
    { rewrite float_to_Q_scale, Hfhi, half_value.
      rewrite inject_Z_plus, inject_Z_mult.
      change (inject_Z 2) with 2%Q. change (inject_Z 1) with 1%Q.
      change (2 ^ (-1))%Q with (1 # 2)%Q. ring. }
    { rewrite Hfhi, half_value. units. }
    { rewrite Hfhi, half_value. units. }
    exists first, last, (Float 1 0). cbn [fst snd]. split_and!.
    + done.
    + by eapply correctly_rounded_representable.
    + rewrite Hfirst, Hflo, half_value. reflexivity.
    + rewrite Hlast, Hfhi, half_value. reflexivity.
    + unfold representable, emin, emax, prec. cbn [fmant fexp]. lia.
    + rewrite Hfirst, Hlast, Hflo, Hfhi, half_value.
      change (float_to_Q (Float 1 0)) with 1%Q. ring.
  - exists flo, fhi, (Float (hi - lo) 0). cbn [fst snd]. split_and!; try done.
    + unfold representable, emin, emax, prec. cbn [fmant fexp]. lia.
    + rewrite float_to_Q_scale, Hflo, Hfhi.
      unfold Z.sub. rewrite inject_Z_plus, inject_Z_opp.
      change (2 ^ 0)%Q with 1%Q. ring.
Qed.

Lemma in_bin_within (es : list float) (i : nat) (x : Z) (a b : float) :
  es !! i = Some a → es !! S i = Some b → - 2 ^ 53 ≤ x ≤ 2 ^ 53 →
  Numpy.in_bin es 10 i x
  = Qle_bool (float_to_Q a) (inject_Z x)
    && (if (i =? 9)%nat then Qle_bool (inject_Z x) (float_to_Q b)
        else negb (Qle_bool (float_to_Q b) (inject_Z x))).
Proof.
  intros Ha Hb Hx. unfold Numpy.in_bin. rewrite Ha, Hb.
  destruct (float_of_int_exact x Hx) as (v & -> & Hv & _).
  unfold flt, fle. change (S i =? 10)%nat with (i =? 9)%nat.
  destruct (i =? 9)%nat; rewrite !Hv; done.
Qed.

Lemma in_bin_in_range (es : list float) (i : nat) (x : Z) :
  length es = 11%nat → (i < 10)%nat → - 2 ^ 53 ≤ x ≤ 2 ^ 53 →
  Numpy.in_bin es 10 i x = true
  ↔ in_range (λ j, from_option float_to_Q 0%Q (es !! j)) 10 i (inject_Z x).
Proof.
  intros Hlen Hi Hx.
  destruct (lookup_lt_is_Some_2 es i ltac:(lia)) as [a Ha].
  destruct (lookup_lt_is_Some_2 es (S i) ltac:(lia)) as [b Hb].
  rewrite (in_bin_within es i x a b Ha Hb Hx).
  unfold in_range. rewrite Ha, Hb. cbn [from_option].
  rewrite andb_true_iff, Qle_bool_iff.
  change (S i =? 10)%nat with (i =? 9)%nat.
  destruct (i =? 9)%nat.
  - by rewrite Qle_bool_iff.
  - rewrite negb_true_iff, <- not_true_iff_false, Qle_bool_iff.
    split; intros [H1 H2]; (split; [done | lra]).
Qed.

(** The histogram of data strictly within [± 2 ^ k]: numpy returns it,
    with eleven edges from the least to the greatest value (one half
    beyond a single value), each within [2 ^ (k - 51)] of its place in
    ten bins of equal width and below the next one; every value is in
    exactly one bin, and each count is the number of values in its
    bin. *)
Lemma histogram_spec (data : list Z) (lo hi : Z) :
  is_minimum lo data → is_maximum hi data →
  (∀ x, x ∈ data → - 2 ^ k < x < 2 ^ k) →
  ∃ h,
    Numpy.asarray data = Ok data
    ∧ Numpy.histogram data 10 = Ok h
    ∧ length (h_edges h) = 11%nat
    ∧ length (h_counts h) = 10%nat
    ∧ (edge h 0 == (bin_range lo hi).1)%Q
    ∧ (edge h 10 == (bin_range lo hi).2)%Q
    ∧ (∀ i, (i ≤ 10)%nat →
         (Qabs (edge h i - equal_width_edge (bin_range lo hi) i)
          <= 2 ^ (k - 51))%Q)
    ∧ (∀ i, (i < 10)%nat → (edge h i < edge h (S i))%Q)
    ∧ (∀ i, (i < 10)%nat →
         h_counts h !! i = Some (bin_count (edge h i) (edge h (S i)) i data))
    ∧ (∀ x, x ∈ data →
         ∃ i, ((i < 10)%nat ∧ in_range (edge h) 10 i (inject_Z x))
              ∧ ∀ j, (j < 10)%nat → in_range (edge h) 10 j (inject_Z x) → j = i)
    ∧ sum_list (h_counts h) = length data.
Proof.
  intros Hlo Hhi Hb.
  assert (2 ^ k ≤ 2 ^ 45) as Hk45 by (apply Z.pow_le_mono_r; lia).
  change (2 ^ 45) with 35184372088832 in Hk45.
  assert (∀ x, x ∈ data → - 2 ^ 53 ≤ x ≤ 2 ^ 53) as Hb53.
  { intros x Hx. specialize (Hb x Hx). lia. }
  destruct (outer_edges_spec data lo hi Hlo Hhi Hb)
    as (first & last & g & Houter & Rfirst & Hfirst & Hlast & Rg & Hg).
  pose proof (Hb lo (proj1 Hlo)) as Blo. pose proof (Hb hi (proj1 Hhi)) as Bhi.
  assert (lo ≤ hi) as Hlh by (apply Hlo, Hhi).
  pose proof (bound_units lo Blo) as [Ulo1 Ulo2].
  pose proof (bound_units hi Bhi) as [Uhi1 Uhi2].
  pose proof (unit_pos k) as HP.
  assert ((bin_range lo hi).1 <= inject_Z lo
          ∧ inject_Z hi <= (bin_range lo hi).2
          ∧ - (inject_Z (2 ^ 56) * P) <= (bin_range lo hi).1
          ∧ (bin_range lo hi).2 <= inject_Z (2 ^ 56) * P
          ∧ 1 <= (bin_range lo hi).2 - (bin_range lo hi).1)%Q
    as (Hr1 & Hr2 & Hr3 & Hr4 & Hr5).
  { unfold bin_range. destruct (Z.eqb_spec lo hi) as [<- | Hne]; cbn [fst snd].
    - split_and!; units.
    - assert (inject_Z lo + 1 <= inject_Z hi)%Q.
      { change 1%Q with (inject_Z 1). rewrite <- inject_Z_plus, <- Zle_Qle. lia. }
      split_and!; units. }
  destruct (linspace_edges k k_range first last g Rfirst Rg Hg)
    as (es & Hlin & Hlen & (e0 & He0 & Hv0) & Hlast10 & Herr & Hinc).
  { rewrite Hfirst. done. }
  { rewrite Hlast. done. }
  { rewrite Hfirst, Hlast. done. }
  set (h := {| h_edges := es;
               h_counts := (λ i, length (filter (λ x, Numpy.in_bin es 10 i x = true) data))
                             <$> seq 0 10 |}).
  assert (∀ i, (i < 10)%nat → (edge h i < edge h (S i))%Q) as Hedges.
  { intros i Hi. unfold edge. cbn [h_edges h].
    destruct (lookup_lt_is_Some_2 es i ltac:(lia)) as [a Ha].
    destruct (lookup_lt_is_Some_2 es (S i) ltac:(lia)) as [b Hb'].
    rewrite Ha, Hb'. cbn [from_option]. by apply (increasing_lookup es i). }
  assert (edge h 0 == (bin_range lo hi).1)%Q as Hedge0.
  { unfold edge. cbn [h_edges h]. rewrite He0. cbn [from_option].
    by rewrite Hv0. }
  assert (edge h 10 == (bin_range lo hi).2)%Q as Hedge10.
  { unfold edge. cbn [h_edges h]. rewrite Hlast10. cbn [from_option]. done. }
  assert (∀ x, x ∈ data →
            ∃ i, ((i < 10)%nat ∧ in_range (edge h) 10 i (inject_Z x))
                 ∧ ∀ j, (j < 10)%nat → in_range (edge h) 10 j (inject_Z x) → j = i)
    as Hpart.
  { intros x Hx. apply bins_partition; [done | lia | |].
    - rewrite Hedge0. apply Qle_trans with (inject_Z lo); [done |].
      rewrite <- Zle_Qle. by apply Hlo.
    - rewrite Hedge10. apply Qle_trans with (inject_Z hi); [| done].
      rewrite <- Zle_Qle. by apply Hhi. }
  exists h. split_and!; try done.
  - unfold Numpy.asarray.
    replace (forallb Numpy.int64 data) with true; [done |].
    symmetry. apply forallb_forall. intros x Hx%list_elem_of_In.
    specialize (Hb x Hx). unfold Numpy.int64.
    apply andb_true_iff. split; [apply Z.leb_le | apply Z.ltb_lt]; lia.
  - unfold Numpy.histogram, Numpy.bin_edges. rewrite Houter.
    cbn [mbind option_bind fst snd Nat.eqb]. rewrite Hlin, Hinc. done.
  - intros i Hi. unfold edge. cbn [h_edges h].
    destruct (lookup_lt_is_Some_2 es i ltac:(lia)) as [e He].
    rewrite He. cbn [from_option]. specialize (Herr i e He).
    unfold equal_width_edge. rewrite <- Hfirst, <- Hlast, tolerance_units.
    eapply Qle_trans; [exact Herr |]. units.
  - intros i Hi. cbn [h_counts h].
    rewrite list_lookup_fmap, lookup_seq_lt by lia. cbn [fmap option_fmap option_map].
    f_equal. unfold bin_count, edge. cbn [h_edges h].
    destruct (lookup_lt_is_Some_2 es i ltac:(lia)) as [a Ha].
    destruct (lookup_lt_is_Some_2 es (S i) ltac:(lia)) as [b Hb'].
    rewrite Ha, Hb'. cbn [from_option].
    apply filter_length_ext. intros x Hx.
    apply in_bin_within; [done | done | by apply Hb53].
  - cbn [h_counts h]. apply (class_sizes_total (Numpy.in_bin es 10)).
    intros x Hx. destruct (Hpart x Hx) as (i & [Hi Hr] & Huniq).
    exists i. split; [split; [done |] |].
    + apply in_bin_in_range; [done | done | by apply Hb53 | done].
    + intros j Hj Hjb. apply Huniq; [done |].
      apply in_bin_in_range in Hjb; [done | done | done | by apply Hb53].
Qed.

End LengthHistogram.

(* ===================================================================== *)
(** * [load_facts] *)
(* ===================================================================== *)

Lemma json_to_fact_to_json (f : Fact) : json_to_fact (fact_to_json f) = Some f.
Proof.
  unfold json_to_fact, fact_to_json.
  rewrite lookup_insert_eq, lookup_insert_ne, lookup_insert_eq by done.
  by destruct f.
Qed.

(** A list of facts is read back from its JSON form unchanged and in
    order. *)
Lemma json_to_facts_to_json (facts : list Fact) :
  json_to_facts (facts_to_json facts) = Some facts.
Proof.
  unfold json_to_facts, facts_to_json.
  apply mapM_Some, Forall2_fmap_l.
  induction facts as [| f fs IH]; constructor; [| done].
  simpl. apply json_to_fact_to_json.
Qed.

Lemma truthy_facts (facts : list Fact) :
  truthy (facts_to_json facts) = negb (bool_decide (facts = [])).
Proof. by destruct facts. Qed.

(** C4: when the parsed file is an object without the key [facts],
    [load_facts] returns the empty list and raises nothing; when the key
    is there it returns the value stored under it as it is, so a list of
    facts comes back whole and in order. *)
Theorem load_facts_get (w : world) (json_path : string) (d : gmap string json) :
  fs w !! json_path = Some (Doc (Some (JObj d))) →
  (d !! "facts" = None → load_facts json_path w = (Ok (JArr []), w))
  ∧ (∀ v, d !! "facts" = Some v → load_facts json_path w = (Ok v, w))
  ∧ (∀ facts, d !! "facts" = Some (facts_to_json facts) →
       load_facts json_path w = (Ok (facts_to_json facts), w)
       ∧ json_to_facts (facts_to_json facts) = Some facts).
Proof.
  intros Hfile. unfold load_facts. rewrite Hfile.
  split_and!.
  - by intros ->.
  - by intros v ->.
  - intros facts ->. split; [done |]. apply json_to_facts_to_json.
Qed.

(** The data file of the scenario has the key; a file holding the empty
    object does not. *)
Lemma load_facts_get_witness :
  load_facts (data_path app_script) (app_world (JObj ∅))
    = (Ok (JArr []), app_world (JObj ∅))
  ∧ load_facts (data_path app_script) (app_world three_cats_json)
    = (Ok (facts_to_json three_cats), app_world three_cats_json).
Proof.
  split.
  - refine (proj1 (load_facts_get (app_world (JObj ∅)) (data_path app_script) ∅ _) _).
    + vm_compute. reflexivity.
    + reflexivity.
  - refine (proj1 (proj2 (load_facts_get (app_world three_cats_json)
              (data_path app_script) (<["facts" := facts_to_json three_cats]> ∅) _))
              _ _).
    + vm_compute. reflexivity.
    + vm_compute. reflexivity.
Defined.

(* ===================================================================== *)
(** * [plot_length_histogram] *)
(* ===================================================================== *)

(** The drawing commands fail only in [plt.hist]; after them the chart,
    or the empty figure that [plt.hist] has left, is the current figure,
    on top of the figures that were open before.  What follows is the
    directory, the file and the closing of the figure. *)
Lemma plot_length_histogram_run (facts : list Fact) (output_path : string)
    (w : world) :
  plot_length_histogram facts output_path w
  = match length_histogram facts with
    | Raise e => (Raise e, chart_open facts w)
    | Ok h =>
        match Os.makedirs (Os.dirname output_path) (chart_open facts w) with
        | (Raise e, w2) => (Raise e, w2)
        | (Ok _, w2) =>
            match Plt.savefig output_path w2 with
            | (Raise e, w3) => (Raise e, w3)
            | (Ok _, w3) => Plt.close w3
            end
        end
    end.
Proof.
  unfold plot_length_histogram, chart_open, length_chart, length_histogram,
    Plt.hist, mbind, St_bind, lift.
  cbn [Plt.figure Plt.on_current Plt.set_figures figures outcome_bind].
  destruct (Numpy.asarray (fact_length <$> facts)) as [a | e]; [| done].
  cbn [mbind outcome_bind].
  destruct (Numpy.histogram a 10) as [h | e]; done.
Qed.

Lemma makedirs_figures (d : string) (w : world) :
  figures (Os.makedirs d w).2 = figures w ∧ stdout (Os.makedirs d w).2 = stdout w.
Proof.
  unfold Os.makedirs. destruct (String.eqb d ""); [done |].
  destruct (fs w !! d) as [[] |]; done.
Qed.

Lemma savefig_figures (path : string) (w : world) (fig : figure) (figs : list figure) :
  figures w = fig :: figs →
  figures (Plt.savefig path w).2 = fig :: figs
  ∧ stdout (Plt.savefig path w).2 = stdout w.
Proof.
  intros Hf. unfold Plt.savefig. rewrite Hf.
  destruct (Plt.target path) as [file |]; [| done].
  destruct (Plt.is_dir (fs w !! file)); [done |].
  destruct (String.eqb _ _); [done |].
  destruct (fs w !! Os.dirname file) as [[] |]; done.
Qed.

(** The figure is closed when the function returns, and is left open
    when it raises; the console is not touched. *)
Lemma plot_length_histogram_figures (facts : list Fact) (output_path : string)
    (w : world) :
  stdout (plot_length_histogram facts output_path w).2 = stdout w
  ∧ match (plot_length_histogram facts output_path w).1 with
    | Ok _ => figures (plot_length_histogram facts output_path w).2 = figures w
    | Raise _ =>
        figures (plot_length_histogram facts output_path w).2
        = length_chart facts :: figures w
    end.
Proof.
  rewrite plot_length_histogram_run.
  destruct (length_histogram facts) as [h | e]; [| done].
  pose proof (makedirs_figures (Os.dirname output_path) (chart_open facts w))
    as [Hm1 Hm2].
  destruct (Os.makedirs _ _) as [[[] | e] w2]; simpl in *; [| done].
  pose proof (savefig_figures output_path w2 _ _ Hm1) as [Hs1 Hs2].
  destruct (Plt.savefig _ _) as [[[] | e] w3]; simpl in *.
  - rewrite Hs1. split; [congruence | done].
  - split; [congruence | done].
Qed.

(** For lengths strictly within [± 2 ^ 45], and for no facts at all,
    [plt.hist] gets its histogram. *)
Lemma length_histogram_returns (facts : list Fact) :
  (∀ f, f ∈ facts → - 2 ^ 45 < fact_length f < 2 ^ 45) →
  ∃ h, length_histogram facts = Ok h.
Proof.
  intros Hb. destruct (decide (facts = [])) as [-> | Hne].
  { eexists. vm_compute. reflexivity. }
  assert (fact_length <$> facts ≠ []) as Hne' by (by destruct facts).
  destruct (min_spec _ Hne') as (lo & _ & Hlo).
  destruct (max_spec _ Hne') as (hi & _ & Hhi).
  destruct (histogram_spec 45 ltac:(lia) (fact_length <$> facts) lo hi Hlo Hhi)
    as (h & Harr & Hh & _).
  { intros x (f & -> & Hf)%list_elem_of_fmap. by apply Hb. }
  exists h. unfold length_histogram. rewrite Harr. done.
Qed.

(** C5 fails on the code: with an output path that has no directory
    part, [os.makedirs("")] raises after the figure has been opened, and
    the figure is still open when the exception leaves the function.
    The same holds for every other failure after [plt.figure()], the
    failure of [plt.hist] on lengths too far apart for ten bins
    included. *)
Theorem plot_length_histogram_leaks (facts : list Fact) (w : world) :
  (∃ e, plot_length_histogram facts "hist.png" w = (Raise e, chart_open facts w))
  ∧ ((∀ f, f ∈ facts → - 2 ^ 45 < fact_length f < 2 ^ 45) →
     plot_length_histogram facts "hist.png" w
     = (Raise FileNotFoundError, chart_open facts w))
  ∧ figures (plot_length_histogram facts "hist.png" w).2
    = length_chart facts :: figures w
  ∧ ∀ output_path e,
      (plot_length_histogram facts output_path w).1 = Raise e →
      figures (plot_length_histogram facts output_path w).2
      = length_chart facts :: figures w.
Proof.
  assert (∀ h, length_histogram facts = Ok h →
            plot_length_histogram facts "hist.png" w
            = (Raise FileNotFoundError, chart_open facts w)) as Hok.
  { intros h Hh. rewrite plot_length_histogram_run, Hh. done. }
  split_and!.
  - rewrite plot_length_histogram_run.
    destruct (length_histogram facts) as [h | e]; by eexists.
  - intros Hb. destruct (length_histogram_returns facts Hb) as [h Hh].
    by apply (Hok h).
  - rewrite plot_length_histogram_run.
    destruct (length_histogram facts) as [h | e]; done.
  - intros output_path e He.
    pose proof (plot_length_histogram_figures facts output_path w) as [_ Hf].
    by rewrite He in Hf.
Qed.

(** On the three facts of the scenario the figure with their chart
    stays open. *)
Lemma plot_length_histogram_leaks_witness :
  plot_length_histogram three_cats "hist.png" (app_world three_cats_json)
  = (Raise FileNotFoundError, chart_open three_cats (app_world three_cats_json)).
Proof.
  refine (proj1 (proj2 (plot_length_histogram_leaks three_cats
                          (app_world three_cats_json))) _).
  intros f Hf. unfold three_cats in Hf.
  repeat (apply elem_of_cons in Hf as [-> | Hf]; [simpl; lia |]).
  by apply elem_of_nil in Hf.
Defined.

(* ===================================================================== *)
(** * [main] *)
(* ===================================================================== *)

Lemma print_preview_run (facts : list Fact) (w : world) :
  print_preview facts w = (Ok (), add_stdout (preview facts) w).
Proof.
  unfold print_preview, preview.
  apply (for_each_print _ _ (λ x : Z * Fact, fact_line x.1 x.2)).
  by intros [idx f] w'.
Qed.

(** A falsy loaded value sends [main] down the early return. *)
Lemma main_early_return (script : string) (w : world) (loaded : json) :
  load_facts (data_path script) w = (Ok loaded, w) →
  truthy loaded = false →
  main script w = (Ok (), add_stdout [no_facts_message] w).
Proof.
  intros Hload Hfalse. unfold main, mbind, St_bind.
  rewrite Hload, Hfalse. done.
Qed.

(** On a non-empty list of facts [main] runs the report, the statistics
    and the plot in this order, and stops at the first step that
    raises. *)
Lemma main_sequence (script : string) (w : world) (facts : list Fact) :
  load_facts (data_path script) w = (Ok (facts_to_json facts), w) →
  facts ≠ [] →
  main script w
  = let w1 := add_stdout (header :: preview facts) w in
    match compute_statistics facts with
    | Raise e => (Raise e, w1)
    | Ok st =>
        let w2 :=
          add_stdout [ nl +:+ "Statistics:";
                       "Total facts: " +:+ Py.str_int (count st);
                       "Shortest fact length: " +:+ Py.str_int (min_length st);
                       "Longest fact length: " +:+ Py.str_int (max_length st) ] w1 in
        match Py.format_2f (avg_length st) with
        | Raise e => (Raise e, w2)
        | Ok avg =>
            match plot_length_histogram facts (image_path script)
                    (add_stdout ["Average fact length: " +:+ avg] w2) with
            | (Raise e, w4) => (Raise e, w4)
            | (Ok _, w4) =>
                (Ok (), add_stdout [nl +:+ "Histogram saved to " +:+ image_path script] w4)
            end
        end
    end.
Proof.
  intros Hload Hne. unfold main, mbind, St_bind.
  rewrite Hload, truthy_facts.
  rewrite bool_decide_eq_false_2 by done.
  change (negb (negb false)) with false. cbv beta iota.
  rewrite print_run. cbv beta iota.
  unfold expect_facts. rewrite json_to_facts_to_json.
  unfold mret, St_ret, lift. cbv beta iota.
  rewrite print_preview_run, add_stdout_app. cbv beta iota zeta.
  change ([header] ++ preview facts) with (header :: preview facts).
  destruct (compute_statistics facts) as [st | e]; [| done].
  do 4 (rewrite print_run; cbv beta iota). rewrite !add_stdout_app.
  destruct (Py.format_2f (avg_length st)) as [avg | e]; [| done].
  rewrite print_run; cbv beta iota.
  destruct (plot_length_histogram _ _ _) as [[[] | e] w4]; done.
Qed.

(** With the output directory free, the plot writes the chart and
    closes its figure. *)
Lemma plot_length_histogram_image (script : string) (facts : list Fact)
    (h : histogram) (w : world) :
  length_histogram facts = Ok h →
  output_free script w →
  plot_length_histogram facts (image_path script) w
  = (Ok (), {| stdout := stdout w;
               fs := <[image_path script := Image (chart h)]>
                       (<[output_dir script := Dir]> (fs w));
               figures := figures w |}).
Proof.
  intros Hh [Hdir Himg].
  rewrite plot_length_histogram_run, Hh, dirname_image_path.
  pose proof (output_dir_nonempty script) as Hne.
  pose proof (image_path_not_output_dir script) as Hne2.
  assert (Plt.is_dir (<[output_dir script := Dir]> (fs w) !! image_path script) = false)
    as Hfree.
  { rewrite lookup_insert_ne by done.
    destruct (fs w !! image_path script) as [[] |]; done. }
  unfold chart_open, length_chart. rewrite Hh.
  unfold Os.makedirs.
  replace (String.eqb (output_dir script) "") with false
    by (symmetry; by apply String.eqb_neq).
  destruct Hdir as [Hdir | Hdir]; simpl fs; rewrite Hdir.
  - unfold Plt.savefig; simpl fs; simpl figures.
    rewrite target_image_path, Hfree, dirname_image_path, lookup_insert_eq.
    replace (String.eqb (output_dir script) "") with false
      by (symmetry; by apply String.eqb_neq).
    done.
  - rewrite (insert_id (fs w) (output_dir script) Dir Hdir) in Hfree |- *.
    unfold Plt.savefig; simpl fs; simpl figures.
    rewrite target_image_path, Hfree, dirname_image_path, Hdir.
    replace (String.eqb (output_dir script) "") with false
      by (symmetry; by apply String.eqb_neq).
    done.
Qed.





(** C3: on a list of [N] facts [main] prints, after the header, exactly
    [min N 5] fact lines and raises nothing while it does; line [i]
    (counted from 0) is the fact at position [i] in the format
    ["{index}. {fact text} (Length: {length})"], with the digit [i + 1]
    for the index and the decimal numeral of the length.  What follows
    the fact lines is the statistics, or nothing when these cannot be
    computed; with no facts, only the diagnostic message is printed. *)
Theorem main_fact_lines (script : string) (w : world) (d : gmap string json)
    (facts : list Fact) :
  fs w !! data_path script = Some (Doc (Some (JObj d))) →
  default (JArr []) (d !! "facts") = facts_to_json facts →
  (facts = [] → stdout (main script w).2 = stdout w ++ [no_facts_message])
  ∧ (facts ≠ [] →
     ∃ lines rest,
       stdout (main script w).2 = stdout w ++ header :: lines ++ rest
       ∧ length lines = Nat.min (length facts) 5
       ∧ (∀ i f, facts !! i = Some f → (i < 5)%nat →
            ∃ num,
              lines !! i
              = Some (preview_number i +:+ ". " +:+ fact_text f
                      +:+ " (Length: " +:+ num +:+ ")")
              ∧ NilZero.int_of_string num = Some (Z.to_int (fact_length f)))
       ∧ ((rest = []
           ∧ ∃ e, compute_statistics facts = Raise e
                  ∧ (main script w).1 = Raise e)
          ∨ ∃ st more, compute_statistics facts = Ok st
                       ∧ rest = statistics_lines st ++ more)).
Proof.
  intros Hfile Hfacts.
  assert (load_facts (data_path script) w = (Ok (facts_to_json facts), w)) as Hload.
  { unfold load_facts. rewrite Hfile, Hfacts. done. }
  split.
  - intros ->. by rewrite (main_early_return script w _ Hload).
  - intros Hne. rewrite (main_sequence script w facts Hload Hne). cbv zeta.
    exists (preview facts).
    assert (∀ i f, facts !! i = Some f → (i < 5)%nat →
              ∃ num,
                preview facts !! i
                = Some (preview_number i +:+ ". " +:+ fact_text f
                        +:+ " (Length: " +:+ num +:+ ")")
                ∧ NilZero.int_of_string num = Some (Z.to_int (fact_length f)))
      as Hlines.
    { intros i f Hf Hi. exists (Py.str_int (fact_length f)).
      rewrite (preview_lookup facts i f Hf Hi). unfold fact_line.
      rewrite (str_int_index i Hi). split; [done | apply str_int_parse]. }
    destruct (compute_statistics facts) as [st | e].
    + destruct (Py.format_2f (avg_length st)) as [avg | e].
      * match goal with
        | |- context [plot_length_histogram facts ?p ?w0] =>
            pose proof (plot_length_histogram_figures facts p w0) as [Hout _];
            destruct (plot_length_histogram facts p w0) as [[[] | e] w4]
        end; simpl in Hout; eexists;
          (split_and!; [| apply preview_length | done
                        | right; exists st; eexists; split; [done | reflexivity]]);
          simpl; rewrite Hout; simpl; rewrite <- !app_assoc; done.
      * exists (statistics_lines st).
        split_and!; [| apply preview_length | done
                     | right; exists st, []; by rewrite app_nil_r].
        simpl. rewrite <- !app_assoc. done.
    + exists []. split_and!; [| apply preview_length | done | left; split; [done |]; by exists e].
      simpl. by rewrite app_nil_r.
Qed.

(** On the scenario the three fact lines are printed. *)
Lemma main_fact_lines_witness :
  ∃ lines rest,
    stdout (main app_script (app_world three_cats_json)).2
    = stdout (app_world three_cats_json) ++ header :: lines ++ rest
    ∧ length lines = Nat.min (length three_cats) 5
    ∧ (∀ i f, three_cats !! i = Some f → (i < 5)%nat →
         ∃ num,
           lines !! i
           = Some (preview_number i +:+ ". " +:+ fact_text f
                   +:+ " (Length: " +:+ num +:+ ")")
           ∧ NilZero.int_of_string num = Some (Z.to_int (fact_length f)))
    ∧ ((rest = []
        ∧ ∃ e, compute_statistics three_cats = Raise e
               ∧ (main app_script (app_world three_cats_json)).1 = Raise e)
       ∨ ∃ st more, compute_statistics three_cats = Ok st
                    ∧ rest = statistics_lines st ++ more).
Proof.
  refine (proj2 (main_fact_lines app_script (app_world three_cats_json)
                   (<["facts" := facts_to_json three_cats]> ∅) three_cats _ _) _).
  - vm_compute. reflexivity.
  - vm_compute. reflexivity.
  - discriminate.
Defined.
(* ===================================================================== *)
(** * The chart *)
(* ===================================================================== *)

Section Histogram.





End Histogram.

(* ===================================================================== *)
(** * [compute_statistics] and its argument *)
(* ===================================================================== *)

Section HeapModel.

Lemma alloc_extends (o : Heap.obj) (h : Heap.heap) : h ⊆ (Heap.alloc o h).2.
Proof.
  unfold Heap.alloc; simpl. apply insert_subseteq.
  apply not_elem_of_dom, is_fresh.
Qed.

Lemma collect_lengths_heap (items : list Heap.loc) (h : Heap.heap) :
  (Heap.collect_lengths items h).2 = h.
Proof.
  induction items as [| x rest IH]; [done |].
  simpl. unfold mbind, St_bind, Heap.get_length.
  destruct (h !! x) as [[] |]; try done.
  destruct (Heap.collect_lengths rest h) as [[ns | e] h'] eqn:Hrest;
    simpl in IH; by subst.
Qed.

Lemma collect_lengths_facts (items : list Heap.loc) (fs : list Fact) (h : Heap.heap) :
  Forall2 (λ x f, h !! x = Some (Heap.OFact f)) items fs →
  Heap.collect_lengths items h = (Ok (fact_length <$> fs), h).
Proof.
  induction 1 as [| x f items fs Hx _ IH]; [done |].
  simpl. unfold mbind, St_bind, Heap.get_length. rewrite Hx, IH. done.
Qed.

(** No object that is on the heap is written, whatever the argument
    refers to and whether or not the call raises. *)
Lemma compute_statistics_frame (facts : Heap.loc) (h : Heap.heap) :
  h ⊆ (Heap.compute_statistics facts h).2.
Proof.
  unfold Heap.compute_statistics, mbind, St_bind, Heap.iterate.
  destruct (h !! facts) as [[items | | [| n ns] |] |]; try done.
  - pose proof (collect_lengths_heap items h) as Hh.
    destruct (Heap.collect_lengths items h) as [[ns | e] h1]; simpl in Hh; subst h1;
      [| done].
    pose proof (alloc_extends (Heap.OInts ns) h) as Ha.
    destruct (Heap.alloc (Heap.OInts ns) h) as [[l |] h2] eqn:Hal; [| done].
    simpl in Ha. unfold lift.
    destruct (Py.min ns); [| done].
    destruct (Py.max ns); [| done].
    destruct (Py.mean ns); [| done].
    etrans; [exact Ha | apply alloc_extends].
  - simpl. unfold mbind, St_bind. simpl. apply alloc_extends.
Qed.

Lemma holds_facts_extends (h h' : Heap.heap) (facts : Heap.loc) (fs : list Fact) :
  h ⊆ h' → Heap.holds_facts h facts fs → Heap.holds_facts h' facts fs.
Proof.
  intros Hsub (items & Hl & Hf). exists items. split.
  - by eapply lookup_weaken.
  - eapply Forall2_impl; [exact Hf |]. intros x f Hx. simpl in *.
    eapply lookup_weaken; eassumption.
Qed.

(** On a list of fact dictionaries the run on the heap returns what
    [compute_statistics] computes from the contents. *)
Lemma compute_statistics_returned (h : Heap.heap) (facts : Heap.loc) (fs : list Fact) :
  Heap.holds_facts h facts fs →
  Heap.returned (Heap.compute_statistics facts h) = compute_statistics fs.
Proof.
  intros (items & Hl & Hf).
  unfold Heap.compute_statistics, compute_statistics, mbind, St_bind, Heap.iterate.
  rewrite Hl, (collect_lengths_facts items fs h Hf).
  unfold Heap.alloc, lift, outcome_bind.
  destruct (Py.min _); [| done].
  destruct (Py.max _); [| done].
  destruct (Py.mean _); [| done].
  unfold Heap.returned. by rewrite lookup_insert_eq.
Qed.

(** C10: [compute_statistics] leaves the list and every fact dictionary
    in it as they were, computes its result from the [length] entries
    alone, and returns equal dictionaries on equal inputs, also when it
    is called a second time on the same objects. *)
Theorem compute_statistics_pure (h : Heap.heap) (facts : Heap.loc) (fs : list Fact) :
  Heap.holds_facts h facts fs →
  h ⊆ (Heap.compute_statistics facts h).2
  ∧ Heap.holds_facts (Heap.compute_statistics facts h).2 facts fs
  ∧ Heap.returned (Heap.compute_statistics facts h) = compute_statistics fs
  ∧ Heap.returned (Heap.compute_statistics facts (Heap.compute_statistics facts h).2)
    = Heap.returned (Heap.compute_statistics facts h)
  ∧ ∀ h2 facts2 fs2,
      Heap.holds_facts h2 facts2 fs2 →
      fact_length <$> fs2 = fact_length <$> fs →
      Heap.returned (Heap.compute_statistics facts2 h2)
      = Heap.returned (Heap.compute_statistics facts h).
Proof.
  intros Hfacts.
  pose proof (compute_statistics_frame facts h) as Hframe.
  pose proof (holds_facts_extends _ _ _ _ Hframe Hfacts) as Hfacts'.
  split_and!; try done.
  - by apply compute_statistics_returned.
  - by rewrite !(compute_statistics_returned _ _ fs).
  - intros h2 facts2 fs2 Hfacts2 Hlen.
    rewrite (compute_statistics_returned _ _ fs2), (compute_statistics_returned _ _ fs)
      by done.
    unfold compute_statistics. by rewrite Hlen.
Qed.

(** The three facts of the scenario on a heap. *)
Lemma compute_statistics_pure_witness :
  three_cats_heap ⊆ (Heap.compute_statistics 1%positive three_cats_heap).2
  ∧ Heap.holds_facts (Heap.compute_statistics 1%positive three_cats_heap).2
      1%positive three_cats
  ∧ Heap.returned (Heap.compute_statistics 1%positive three_cats_heap)
    = compute_statistics three_cats
  ∧ Heap.returned (Heap.compute_statistics 1%positive
                     (Heap.compute_statistics 1%positive three_cats_heap).2)
    = Heap.returned (Heap.compute_statistics 1%positive three_cats_heap)
  ∧ ∀ h2 facts2 fs2,
      Heap.holds_facts h2 facts2 fs2 →
      fact_length <$> fs2 = fact_length <$> three_cats →
      Heap.returned (Heap.compute_statistics facts2 h2)
      = Heap.returned (Heap.compute_statistics 1%positive three_cats_heap).
Proof.
  apply (compute_statistics_pure three_cats_heap 1%positive three_cats).
  exists [2%positive; 3%positive; 4%positive]. split.
  - vm_compute. reflexivity.
  - repeat constructor.
Defined.

End HeapModel.

(* ===================================================================== *)
(** * [compute_statistics] at any magnitude *)
(* ===================================================================== *)

Section StatisticsAtLarge.

Lemma mean_between (l : list Z) (lo hi : Z) :
  l ≠ [] → (∀ x, x ∈ l → lo ≤ x ≤ hi) →
  (inject_Z lo <= arithmetic_mean l)%Q ∧ (arithmetic_mean l <= inject_Z hi)%Q.
Proof.
  intros Hne Hb. pose proof (sum_bounds l lo hi Hb) as [Hs1 Hs2].
  rewrite sum_foldr in Hs1, Hs2. unfold Py.len in Hs1, Hs2.
  unfold arithmetic_mean.
  assert (0 < Z.of_nat (length l)) as Hn by (destruct l; [done | simpl; lia]).
  pose proof (inject_Z_pos _ Hn) as HN.
  split.
  - apply Qle_shift_div_l; [done |]. rewrite <- inject_Z_mult, <- Zle_Qle. lia.
  - apply Qle_shift_div_r; [done |]. rewrite <- inject_Z_mult, <- Zle_Qle. lia.
Qed.

Lemma compute_statistics_mean (facts : list Fact) (st : Statistics) :
  compute_statistics facts = Ok st →
  Py.mean (fact_length <$> facts) = Ok (avg_length st).
Proof.
  unfold compute_statistics.
  destruct (Py.min _) as [lo |]; [| done].
  destruct (Py.max _) as [hi |]; [| done].
  destruct (Py.mean _) as [avg |]; [| done].
  by intros [= <-].
Qed.

(** X1: whatever the size of the lengths: when [compute_statistics] returns,
    the list is not empty, [count] is its length, [min_length] and
    [max_length] are the least and the greatest length, and [avg_length]
    is the mean: the mean itself, as an [int], when it is integral, and
    otherwise the binary64 float nearest to it, ties to even.  A float
    average leaves the interval from the minimum to the maximum by at
    most half a unit in its last place. *)
Theorem compute_statistics_any_magnitude (facts : list Fact) (st : Statistics) :
  compute_statistics facts = Ok st →
  facts ≠ []
  ∧ count st = Z.of_nat (length facts)
  ∧ 1 ≤ count st
  ∧ is_minimum (min_length st) (fact_length <$> facts)
  ∧ is_maximum (max_length st) (fact_length <$> facts)
  ∧ min_length st ≤ max_length st
  ∧ is_mean (avg_length st) (fact_length <$> facts)
  ∧ match avg_length st with
    | Py.PyInt z => min_length st ≤ z ≤ max_length st
    | Py.PyFloat f =>
        (inject_Z (min_length st) - (1 # 2) * 2 ^ Py.fexp f <= Py.float_to_Q f)%Q
        ∧ (Py.float_to_Q f <= inject_Z (max_length st) + (1 # 2) * 2 ^ Py.fexp f)%Q
    end.
Proof.
  intros Hst.
  assert (facts ≠ []) as Hne by (by intros ->).
  destruct (compute_statistics_returns facts st Hst) as (Hc & Hmin & Hmax & Havg).
  pose proof (compute_statistics_mean facts st Hst) as Hmean.
  assert (fact_length <$> facts ≠ []) as Hne' by (by destruct facts).
  destruct (mean_between (fact_length <$> facts) (min_length st) (max_length st))
    as [Hm1 Hm2]; [done | |].
  { intros x Hx. split; [by apply Hmin | by apply Hmax]. }
  split_and!; try done.
  - rewrite Hc. destruct facts; [done | simpl; lia].
  - apply Hmin, Hmax.
  - destruct (avg_length st) as [z | f].
    + unfold is_mean in Havg. rewrite <- Havg in Hm1, Hm2.
      rewrite <- Zle_Qle in Hm1, Hm2. lia.
    + apply mean_half_unit in Hmean.
      apply Qabs_Qle_condition in Hmean as [Ha1 Ha2]. split; lra.
Qed.

Lemma compute_statistics_any_magnitude_witness :
  two_huge ≠ []
  ∧ count {| count := 2; min_length := 2 ^ 54 + 1; max_length := 2 ^ 54 + 2;
             avg_length := Py.PyFloat (Py.Float (2 ^ 52) 2) |}
    = Z.of_nat (length two_huge)
  ∧ 1 ≤ 2
  ∧ is_minimum (2 ^ 54 + 1) (fact_length <$> two_huge)
  ∧ is_maximum (2 ^ 54 + 2) (fact_length <$> two_huge)
  ∧ 2 ^ 54 + 1 ≤ 2 ^ 54 + 2
  ∧ is_mean (Py.PyFloat (Py.Float (2 ^ 52) 2)) (fact_length <$> two_huge)
  ∧ (inject_Z (2 ^ 54 + 1) - (1 # 2) * 2 ^ 2
       <= Py.float_to_Q (Py.Float (2 ^ 52) 2))%Q
    ∧ (Py.float_to_Q (Py.Float (2 ^ 52) 2)
       <= inject_Z (2 ^ 54 + 2) + (1 # 2) * 2 ^ 2)%Q.
Proof.
  apply (compute_statistics_any_magnitude two_huge
           {| count := 2; min_length := 2 ^ 54 + 1; max_length := 2 ^ 54 + 2;
              avg_length := Py.PyFloat (Py.Float (2 ^ 52) 2) |}).
  vm_compute. reflexivity.
Defined.

(** X2: the only exceptions of [compute_statistics]: [ValueError], raised
    exactly on the empty list, and [OverflowError], which needs a length
    beyond [± 2 ^ 53]. *)
Theorem compute_statistics_raises (facts : list Fact) (e : exn) :
  compute_statistics facts = Raise e →
  (facts = [] ∧ e = ValueError)
  ∨ (facts ≠ [] ∧ e = OverflowError
     ∧ ∃ f, f ∈ facts ∧ 2 ^ 53 < Z.abs (fact_length f)).
Proof.
  intros Hraise.
  destruct (decide (facts = [])) as [-> | Hne].
  { left. split; [done |]. by injection Hraise as <-. }
  right. split; [done |].
  assert (fact_length <$> facts ≠ []) as Hne' by (by destruct facts).
  assert (e = OverflowError) as He.
  { revert Hraise. unfold compute_statistics.
    destruct (min_spec _ Hne') as (lo & -> & _).
    destruct (max_spec _ Hne') as (hi & -> & _).
    unfold Py.mean.
    destruct (Z.ltb_spec (Py.len (fact_length <$> facts)) 1) as [Hn |].
    { unfold Py.len in Hn. destruct facts; [done | simpl in Hn; lia]. }
    destruct (_ =? 0); [done |].
    destruct (Py.float_of_fraction _ _); [done |].
    simpl. by intros [= <-]. }
  split; [done |].
  destruct (decide (Exists (λ f, 2 ^ 53 < Z.abs (fact_length f)) facts))
    as [Hex | Hnone].
  - apply Exists_exists in Hex as (f & Hf & Hbig). by exists f.
  - exfalso. apply not_Exists_Forall in Hnone; [| intros f; apply _].
    rewrite Forall_forall in Hnone.
    destruct (compute_statistics_in_range facts Hne) as (st & Hst & _).
    + intros f Hf. specialize (Hnone f Hf). simpl in Hnone. lia.
    + congruence.
Qed.

Lemma compute_statistics_raises_witness :
  (two_enormous = [] ∧ OverflowError = ValueError)
  ∨ (two_enormous ≠ [] ∧ OverflowError = OverflowError
     ∧ ∃ f, f ∈ two_enormous ∧ 2 ^ 53 < Z.abs (fact_length f)).
Proof.
  apply (compute_statistics_raises two_enormous OverflowError).
  vm_compute. reflexivity.
Defined.

End StatisticsAtLarge.

(* ===================================================================== *)
(** * [compute_statistics]: integral means, order and concatenation *)
(* ===================================================================== *)

Section StatisticsAlgebra.

Lemma len_pos (facts : list Fact) :
  facts ≠ [] → 1 ≤ Py.len (fact_length <$> facts).
Proof. unfold Py.len. destruct facts; [done | simpl; lia]. Qed.

Lemma lengths_nonempty (facts : list Fact) :
  facts ≠ [] → fact_length <$> facts ≠ [].
Proof. by destruct facts. Qed.

(** X3: when the number of facts divides the sum of the lengths, the average
    is that quotient as an [int], with no rounding at any magnitude, and
    it lies between the minimum and the maximum. *)
Theorem compute_statistics_integral_mean (facts : list Fact) :
  facts ≠ [] →
  (Z.of_nat (length facts) | foldr Z.add 0 (fact_length <$> facts)) →
  ∃ st, compute_statistics facts = Ok st
        ∧ avg_length st
          = Py.PyInt (foldr Z.add 0 (fact_length <$> facts) / Z.of_nat (length facts))
        ∧ foldr Z.add 0 (fact_length <$> facts)
          = Z.of_nat (length facts)
            * (foldr Z.add 0 (fact_length <$> facts) / Z.of_nat (length facts))
        ∧ min_length st
          ≤ foldr Z.add 0 (fact_length <$> facts) / Z.of_nat (length facts)
          ≤ max_length st.
Proof.
  intros Hne Hdiv.
  pose proof (lengths_nonempty facts Hne) as Hne'.
  pose proof (len_pos facts Hne) as Hn.
  destruct (min_spec _ Hne') as (lo & Hmin & Hlo).
  destruct (max_spec _ Hne') as (hi & Hmax & Hhi).
  rewrite <- sum_foldr, <- len_fmap_length in *.
  set (l := fact_length <$> facts) in *.
  assert (Py.sum l mod Py.len l = 0) as Hmod by (apply Z.mod_divide; [lia | done]).
  assert (Py.mean l = Ok (Py.PyInt (Py.sum l / Py.len l))) as Hmean.
  { unfold Py.mean. destruct (Z.ltb_spec (Py.len l) 1); [lia |].
    by rewrite Hmod. }
  exists {| count := Py.len l; min_length := lo; max_length := hi;
            avg_length := Py.PyInt (Py.sum l / Py.len l) |}.
  split_and!.
  - unfold compute_statistics. fold l. by rewrite Hmin, Hmax, Hmean.
  - done.
  - apply Z.div_exact; [lia | done].
  - pose proof (sum_bounds l lo hi) as [Hs1 Hs2].
    { intros x Hx. split; [by apply Hlo | by apply Hhi]. }
    cbn [min_length]. apply Z.div_le_lower_bound; lia.
  - pose proof (sum_bounds l lo hi) as [Hs1 Hs2].
    { intros x Hx. split; [by apply Hlo | by apply Hhi]. }
    cbn [max_length]. apply Z.div_le_upper_bound; lia.
Qed.

Lemma compute_statistics_integral_mean_witness :
  ∃ st, compute_statistics two_enormous_even = Ok st
        ∧ avg_length st
          = Py.PyInt (foldr Z.add 0 (fact_length <$> two_enormous_even)
                      / Z.of_nat (length two_enormous_even))
        ∧ foldr Z.add 0 (fact_length <$> two_enormous_even)
          = Z.of_nat (length two_enormous_even)
            * (foldr Z.add 0 (fact_length <$> two_enormous_even)
               / Z.of_nat (length two_enormous_even))
        ∧ min_length st
          ≤ foldr Z.add 0 (fact_length <$> two_enormous_even)
            / Z.of_nat (length two_enormous_even)
          ≤ max_length st.
Proof.
  apply (compute_statistics_integral_mean two_enormous_even).
  - discriminate.
  - apply Z.mod_divide; [discriminate | vm_compute; reflexivity].
Defined.

(** X4: when all facts have the same length [v], whatever their number and
    whatever the size of [v], [min_length], [max_length] and [avg_length]
    are [v], the average as an [int]. *)
Theorem compute_statistics_constant (facts : list Fact) (v : Z) :
  facts ≠ [] →
  (∀ f, f ∈ facts → fact_length f = v) →
  compute_statistics facts
  = Ok {| count := Z.of_nat (length facts); min_length := v; max_length := v;
          avg_length := Py.PyInt v |}.
Proof.
  intros Hne Hall.
  pose proof (lengths_nonempty facts Hne) as Hne'.
  pose proof (len_pos facts Hne) as Hn.
  assert (∀ x, x ∈ fact_length <$> facts → v ≤ x ≤ v) as Hb.
  { intros x (f & -> & Hf)%list_elem_of_fmap. rewrite (Hall f Hf). lia. }
  destruct (min_spec _ Hne') as (lo & Hmin & Hlo).
  destruct (max_spec _ Hne') as (hi & Hmax & Hhi).
  assert (lo = v) as -> by (pose proof (Hb lo (proj1 Hlo)); lia).
  assert (hi = v) as -> by (pose proof (Hb hi (proj1 Hhi)); lia).
  pose proof (sum_bounds _ v v Hb) as Hs.
  unfold compute_statistics. rewrite Hmin, Hmax. unfold Py.mean.
  destruct (Z.ltb_spec (Py.len (fact_length <$> facts)) 1); [lia |].
  replace (Py.sum (fact_length <$> facts))
    with (v * Py.len (fact_length <$> facts)) by lia.
  rewrite Z.mod_mul, Z.div_mul by lia. simpl.
  by rewrite len_fmap_length.
Qed.

Lemma compute_statistics_constant_witness :
  compute_statistics three_enormous
  = Ok {| count := Z.of_nat (length three_enormous); min_length := 2 ^ 1024;
          max_length := 2 ^ 1024; avg_length := Py.PyInt (2 ^ 1024) |}.
Proof.
  apply (compute_statistics_constant three_enormous (2 ^ 1024)).
  - discriminate.
  - intros f Hf. unfold three_enormous in Hf.
    repeat (apply elem_of_cons in Hf as [-> | Hf]; [reflexivity |]).
    by apply elem_of_nil in Hf.
Defined.

Lemma foldr_add_permutation (l1 l2 : list Z) :
  l1 ≡ₚ l2 → foldr Z.add 0 l1 = foldr Z.add 0 l2.
Proof. induction 1; simpl; lia. Qed.

Lemma min_permutation (l1 l2 : list Z) : l1 ≡ₚ l2 → Py.min l1 = Py.min l2.
Proof.
  intros Hp. destruct (decide (l1 = [])) as [-> | Hne].
  { by apply Permutation_nil_l in Hp as ->. }
  assert (l2 ≠ []) as Hne2.
  { intros ->. by apply Permutation_nil_r in Hp. }
  destruct (min_spec l1 Hne) as (a & -> & Ha1 & Ha2).
  destruct (min_spec l2 Hne2) as (b & -> & Hb1 & Hb2).
  f_equal. rewrite <- Hp in Hb1. rewrite Hp in Ha1.
  pose proof (Ha2 b Hb1). pose proof (Hb2 a Ha1). lia.
Qed.

Lemma max_permutation (l1 l2 : list Z) : l1 ≡ₚ l2 → Py.max l1 = Py.max l2.
Proof.
  intros Hp. destruct (decide (l1 = [])) as [-> | Hne].
  { by apply Permutation_nil_l in Hp as ->. }
  assert (l2 ≠ []) as Hne2.
  { intros ->. by apply Permutation_nil_r in Hp. }
  destruct (max_spec l1 Hne) as (a & -> & Ha1 & Ha2).
  destruct (max_spec l2 Hne2) as (b & -> & Hb1 & Hb2).
  f_equal. rewrite <- Hp in Hb1. rewrite Hp in Ha1.
  pose proof (Ha2 b Hb1). pose proof (Hb2 a Ha1). lia.
Qed.

(** X5: the statistics do not depend on the order of the facts. *)
Theorem compute_statistics_permutation (facts1 facts2 : list Fact) :
  facts1 ≡ₚ facts2 → compute_statistics facts1 = compute_statistics facts2.
Proof.
  intros Hp.
  assert (fact_length <$> facts1 ≡ₚ fact_length <$> facts2) as Hl
    by (by apply fmap_Permutation).
  unfold compute_statistics, Py.mean.
  rewrite (min_permutation _ _ Hl), (max_permutation _ _ Hl).
  rewrite !sum_foldr, (foldr_add_permutation _ _ Hl).
  unfold Py.len. by rewrite (Permutation_length Hl).
Qed.

Lemma compute_statistics_permutation_witness :
  compute_statistics three_cats = compute_statistics (reverse three_cats).
Proof.
  apply compute_statistics_permutation.
  symmetry. apply reverse_Permutation.
Defined.

(** X6: statistics of a concatenation: the counts add up, the minimum is the
    lesser of the two minima and the maximum the greater of the two
    maxima. *)
Theorem compute_statistics_app (facts1 facts2 : list Fact)
    (st1 st2 st : Statistics) :
  compute_statistics facts1 = Ok st1 →
  compute_statistics facts2 = Ok st2 →
  compute_statistics (facts1 ++ facts2) = Ok st →
  count st = count st1 + count st2
  ∧ min_length st = Z.min (min_length st1) (min_length st2)
  ∧ max_length st = Z.max (max_length st1) (max_length st2).
Proof.
  intros H1 H2 H.
  destruct (compute_statistics_returns _ _ H1) as (Hc1 & [Hi1 Hl1] & [Hj1 Hm1] & _).
  destruct (compute_statistics_returns _ _ H2) as (Hc2 & [Hi2 Hl2] & [Hj2 Hm2] & _).
  destruct (compute_statistics_returns _ _ H) as (Hc & [Hi Hl] & [Hj Hm] & _).
  rewrite fmap_app in *.
  split_and!.
  - rewrite Hc, Hc1, Hc2, length_app. lia.
  - apply elem_of_app in Hi.
    pose proof (Hl (min_length st1) ltac:(apply elem_of_app; by left)).
    pose proof (Hl (min_length st2) ltac:(apply elem_of_app; by right)).
    destruct Hi as [Hi | Hi]; [pose proof (Hl1 _ Hi) | pose proof (Hl2 _ Hi)]; lia.
  - apply elem_of_app in Hj.
    pose proof (Hm (max_length st1) ltac:(apply elem_of_app; by left)).
    pose proof (Hm (max_length st2) ltac:(apply elem_of_app; by right)).
    destruct Hj as [Hj | Hj]; [pose proof (Hm1 _ Hj) | pose proof (Hm2 _ Hj)]; lia.
Qed.

Lemma compute_statistics_app_witness :
  count {| count := 6; min_length := 10; max_length := 17;
           avg_length := Py.PyFloat (Py.Float 8256599316845909 (-49)) |}
  = 3 + 3
  ∧ 10 = Z.min 10 10
  ∧ 17 = Z.max 17 17.
Proof.
  refine (compute_statistics_app three_cats three_cats
           {| count := 3; min_length := 10; max_length := 17;
              avg_length := Py.PyFloat (Py.Float 8256599316845909 (-49)) |}
           {| count := 3; min_length := 10; max_length := 17;
              avg_length := Py.PyFloat (Py.Float 8256599316845909 (-49)) |}
           {| count := 6; min_length := 10; max_length := 17;
              avg_length := Py.PyFloat (Py.Float 8256599316845909 (-49)) |}
           _ _ _); vm_compute; reflexivity.
Defined.

End StatisticsAlgebra.

(* ===================================================================== *)
(** * Which files the script touches *)
(* ===================================================================== *)

Section Frame.





















End Frame.

(* ===================================================================== *)
(** * [main]: the runs that do not complete, and running again *)
(* ===================================================================== *)

Section MainRuns.

Lemma main_load_raises (script : string) (w : world) (e : exn) :
  load_facts (data_path script) w = (Raise e, w) →
  main script w = (Raise e, w).
Proof. intros Hload. unfold main, mbind, St_bind. by rewrite Hload. Qed.

(** X12: when the data file is missing, is not valid JSON, or holds a JSON
    value that is not an object (a bare list of facts, say), [main]
    raises the error of [load_facts] before it has printed or written
    anything, and the exit code is 1. *)
Theorem main_load_error (script : string) (w : world) :
  (fs w !! data_path script = None →
     main script w = (Raise FileNotFoundError, w))
  ∧ (fs w !! data_path script = Some (Doc None) →
     main script w = (Raise JSONDecodeError, w))
  ∧ (∀ data, fs w !! data_path script = Some (Doc (Some data)) →
       (∀ d, data ≠ JObj d) →
       main script w = (Raise AttributeError, w))
  ∧ (∀ e, (load_facts (data_path script) w).1 = Raise e →
       main script w = (Raise e, w) ∧ exit_code (main script w).1 = 1).
Proof.
  split_and!.
  - intros Hf. apply main_load_raises. unfold load_facts. by rewrite Hf.
  - intros Hf. apply main_load_raises. unfold load_facts. by rewrite Hf.
  - intros data Hf Hobj. apply main_load_raises. unfold load_facts. rewrite Hf.
    destruct data; try done. by destruct (Hobj o).
  - intros e He.
    assert (load_facts (data_path script) w = (Raise e, w)) as Hload.
    { revert He. unfold load_facts.
      destruct (fs w !! data_path script) as [[| [[] |] |] |]; simpl;
        intros [= <-]; done. }
    by rewrite (main_load_raises script w e Hload).
Qed.

Lemma main_load_error_witness :
  main app_script (app_world (facts_to_json three_cats))
  = (Raise AttributeError, app_world (facts_to_json three_cats)).
Proof.
  refine (proj1 (proj2 (proj2 (main_load_error app_script
            (app_world (facts_to_json three_cats)))))
            (facts_to_json three_cats) _ _).
  - vm_compute. reflexivity.
  - discriminate.
Defined.

(** X13: the guard of [main] is Python's truth test: not only the empty list
    but every falsy value under ["facts"] ([null], [false], [0], the
    empty string, the empty object) gives the diagnostic message and
    exit code 0. *)
Theorem main_falsy_facts (script : string) (w : world) (d : gmap string json)
    (v : json) :
  fs w !! data_path script = Some (Doc (Some (JObj d))) →
  d !! "facts" = Some v →
  v ∈ [JNull; JBool false; JInt 0; JStr ""; JArr []; JObj ∅] →
  main script w = (Ok (), add_stdout [no_facts_message] w)
  ∧ exit_code (main script w).1 = 0.
Proof.
  intros Hfile Hv Hfalsy.
  assert (truthy v = false) as Htruthy.
  { repeat (apply elem_of_cons in Hfalsy as [-> | Hfalsy]; [done |]).
    by apply elem_of_nil in Hfalsy. }
  rewrite (main_early_return script w v); [done | | done].
  unfold load_facts. by rewrite Hfile, Hv.
Qed.

Lemma main_falsy_facts_witness :
  main app_script (app_world (JObj (<["facts" := JNull]> ∅)))
  = (Ok (), add_stdout [no_facts_message]
              (app_world (JObj (<["facts" := JNull]> ∅))))
  ∧ exit_code (main app_script (app_world (JObj (<["facts" := JNull]> ∅)))).1 = 0.
Proof.
  apply (main_falsy_facts app_script _ (<["facts" := JNull]> ∅) JNull).
  - vm_compute. reflexivity.
  - vm_compute. reflexivity.
  - left.
Defined.

Lemma load_facts_typed (script : string) (w : world) (d : gmap string json)
    (facts : list Fact) :
  fs w !! data_path script = Some (Doc (Some (JObj d))) →
  d !! "facts" = Some (facts_to_json facts) →
  load_facts (data_path script) w = (Ok (facts_to_json facts), w).
Proof. intros Hfile Hd. unfold load_facts. by rewrite Hfile, Hd. Qed.

(** X14: when the statistics cannot be computed, [main] stops after the
    preview; when the average cannot be formatted, it stops after the
    line of the longest fact.  What was printed stays, nothing is drawn
    or written, and the exit code is 1. *)
Theorem main_statistics_error (script : string) (w : world)
    (d : gmap string json) (facts : list Fact) :
  fs w !! data_path script = Some (Doc (Some (JObj d))) →
  d !! "facts" = Some (facts_to_json facts) →
  facts ≠ [] →
  (∀ e, compute_statistics facts = Raise e →
     main script w = (Raise e, add_stdout (header :: preview facts) w))
  ∧ (∀ st e, compute_statistics facts = Ok st →
       Py.format_2f (avg_length st) = Raise e →
       main script w
       = (Raise e,
          add_stdout
            (header :: preview facts
             ++ [ nl +:+ "Statistics:";
                  "Total facts: " +:+ Py.str_int (count st);
                  "Shortest fact length: " +:+ Py.str_int (min_length st);
                  "Longest fact length: " +:+ Py.str_int (max_length st) ]) w)).
Proof.
  intros Hfile Hd Hne.
  pose proof (load_facts_typed script w d facts Hfile Hd) as Hload.
  rewrite (main_sequence script w facts Hload Hne). split.
  - by intros e ->.
  - intros st e -> ->. cbv zeta. rewrite add_stdout_app. done.
Qed.

Lemma main_statistics_error_witness :
  main app_script (app_world (JObj (<["facts" := facts_to_json two_enormous]> ∅)))
  = (Raise OverflowError,
     add_stdout (header :: preview two_enormous)
       (app_world (JObj (<["facts" := facts_to_json two_enormous]> ∅)))).
Proof.
  refine (proj1 (main_statistics_error app_script _
            (<["facts" := facts_to_json two_enormous]> ∅) two_enormous _ _ _)
            OverflowError _).
  - vm_compute. reflexivity.
  - vm_compute. reflexivity.
  - discriminate.
  - vm_compute. reflexivity.
Defined.




(** A complete run, from its sufficient conditions. *)
Lemma main_complete (script : string) (w : world) (facts : list Fact)
    (st : Statistics) (avg : string) (h : histogram) :
  load_facts (data_path script) w = (Ok (facts_to_json facts), w) →
  facts ≠ [] →
  compute_statistics facts = Ok st →
  Py.format_2f (avg_length st) = Ok avg →
  length_histogram facts = Ok h →
  output_free script w →
  main script w
  = (Ok (),
     {| stdout := stdout w ++ report script facts st avg;
        fs := <[image_path script := Image (chart h)]>
                (<[output_dir script := Dir]> (fs w));
        figures := figures w |}).
Proof.
  intros Hload Hne Hst Havg Hh Hfree.
  rewrite (main_sequence script w facts Hload Hne), Hst, Havg. cbv zeta.
  rewrite (plot_length_histogram_image script facts h) by done.
  unfold add_stdout, report; simpl. rewrite <- !app_assoc. done.
Qed.



(** X17: on a non-empty fact list with lengths strictly within
    [± 2 ^ 45] and the output directory free, [main] returns and the
    image it leaves at the image path is the chart of one histogram of
    ten bins, whose counts add up to the number of facts: every fact is
    counted, and counted once. *)
Theorem main_image_counts (script : string) (w : world) (d : gmap string json)
    (facts : list Fact) :
  fs w !! data_path script = Some (Doc (Some (JObj d))) →
  d !! "facts" = Some (facts_to_json facts) →
  facts ≠ [] →
  (∀ f, f ∈ facts → - 2 ^ 45 < fact_length f < 2 ^ 45) →
  output_free script w →
  ∃ h, (main script w).1 = Ok ()
       ∧ fs (main script w).2 !! image_path script = Some (Image (chart h))
       ∧ fig_hists (chart h) = [h]
       ∧ length (h_counts h) = 10%nat
       ∧ sum_list (h_counts h) = length facts.
Proof.
  intros Hfile Hd Hne Hb Hfree.
  pose proof (load_facts_typed script w d facts Hfile Hd) as Hload.
  assert (fact_length <$> facts ≠ []) as Hne' by (by destruct facts).
  destruct (min_spec _ Hne') as (lo & _ & Hlo).
  destruct (max_spec _ Hne') as (hi & _ & Hhi).
  destruct (histogram_spec 45 ltac:(lia) (fact_length <$> facts) lo hi Hlo Hhi)
    as (h & Harr & Hh' & _ & Hlen & _ & _ & _ & _ & _ & _ & Hsum).
  { intros x (f & -> & Hf)%list_elem_of_fmap. by apply Hb. }
  assert (length_histogram facts = Ok h) as Hh.
  { unfold length_histogram. rewrite Harr. done. }
  rewrite length_fmap in Hsum.
  destruct (compute_statistics_in_range facts Hne)
    as (st & Hst & _ & _ & avg & Havg).
  { intros f Hf. specialize (Hb f Hf). lia. }
  exists h. rewrite (main_complete script w facts st avg h) by done.
  cbn [fst snd fs]. split_and!; try done. apply lookup_insert_eq.
Qed.

Lemma main_image_counts_witness :
  ∃ h, (main app_script (app_world three_cats_json)).1 = Ok ()
       ∧ fs (main app_script (app_world three_cats_json)).2 !! image_path app_script
         = Some (Image (chart h))
       ∧ fig_hists (chart h) = [h]
       ∧ length (h_counts h) = 10%nat
       ∧ sum_list (h_counts h) = length three_cats.
Proof.
  apply (main_image_counts app_script (app_world three_cats_json)
           (<["facts" := facts_to_json three_cats]> ∅) three_cats).
  - vm_compute. reflexivity.
  - vm_compute. reflexivity.
  - discriminate.
  - intros f Hf. unfold three_cats in Hf.
    repeat (apply elem_of_cons in Hf as [-> | Hf]; [simpl; lia |]).
    by apply elem_of_nil in Hf.
  - split; [left |]; vm_compute; [reflexivity | discriminate].
Defined.

End MainRuns.
